(** * Mineral-rights record store: the data layer of [db.py]

    The data layer keeps three identically shaped SQLite tables, [reserve],
    [offering] and [deal], and offers CRUD functions plus two stage
    transfers.  This development embeds [db.py] function by function over an
    explicit model of the part of SQLite and of Python's [sqlite3] module
    that the code relies on:

    - a table is a finite map from rowid (the [id INTEGER PRIMARY KEY]
      column) to the 25 remaining cells, in schema order;
    - a connection holds the committed database, the working copy of an open
      transaction, and the storage faults still to be delivered; the state
      a function body runs in also holds the outcomes of the writes to
      standard output still to come;
    - every function opens a connection, runs its body in a small
      state-and-exception monad and closes the connection in its [finally]
      clause; what the function leaves behind is the committed database;
    - the two transfers take the plan of storage faults and the plan of
      [print] outcomes as arguments, so that their [except] clause is
      exercised at every statement and at the [print] that follows the
      commit; the CRUD functions do not print and run on a connection
      without faults.

    Scalars are modelled as the five SQLite storage classes.  A value that
    a caller supplies is stored the way SQLite stores it: a float NaN is
    bound as NULL, and the type affinity of the column converts the value
    (a number given to a TEXT column becomes its text, a text that reads
    as a number becomes that number in a REAL or DATE column).  The
    conversions between text and numbers are library parameters. *)

From Stdlib Require Import ZArith String List Lia.
From stdpp Require Import base option list gmap strings pretty sorting.

Local Open Scope string_scope.
Local Open Scope Z_scope.

(** ** Scalars, exceptions, results *)

(** A Python value that [sqlite3] can bind, equally a value [fetchone]
    hands back: [None], [int], [float] (kept as its bit pattern), [str],
    [bytes]. *)
Inductive value : Type :=
  | VNull
  | VInt (z : Z)
  | VReal (bits : Z)
  | VText (s : string)
  | VBlob (b : string).

Definition is_null (v : value) : bool :=
  match v with VNull => true | _ => false end.

(** SQLite integers are 64-bit signed. *)
Definition MAX_ROWID : Z := 9223372036854775807.
Definition MIN_ROWID : Z := -9223372036854775808.

Definition fits_int64 (z : Z) : bool := (MIN_ROWID <=? z) && (z <=? MAX_ROWID).

(** [sqlite3] refuses to bind a Python [int] outside the 64-bit range
    ([OverflowError]); every other scalar binds. *)
Definition bindable (v : value) : bool :=
  match v with VInt z => fits_int64 z | _ => true end.

(** What SQLite reports through [sqlite3.IntegrityError]. *)
Inductive constraint_kind : Type :=
  | NotNullFailed      (* NOT NULL constraint failed: <table>.name *)
  | UniqueFailed       (* UNIQUE constraint failed: <table>.id *)
  | DatatypeMismatch.  (* datatype mismatch (a non-integer id) *)

(** The Python exceptions the data layer can raise. *)
Inductive exn : Type :=
  | ValueError
  | KeyError
  | TypeError
  | OverflowError
  | IntegrityError (k : constraint_kind)
  | OperationalError
  | UnicodeEncodeError
  | OSError.

Inductive result (A : Type) : Type :=
  | Ok (a : A)
  | Raise (e : exn).
Arguments Ok {A} a.
Arguments Raise {A} e.

Definition raised {A} (r : result A) : bool :=
  match r with Ok _ => false | Raise _ => true end.

(** ** Schema ([init_db]) *)

Inductive stage : Type := Reserve | Offering | Deal.

#[global] Instance stage_eq_dec : EqDecision stage.
Proof. solve_decision. Defined.

Definition stage_name (t : stage) : string :=
  match t with
  | Reserve => "reserve"
  | Offering => "offering"
  | Deal => "deal"
  end.

(** [table not in {"reserve", "offering", "deal"}] *)
Definition stage_of_name (table : string) : option stage :=
  if String.eqb table "reserve" then Some Reserve
  else if String.eqb table "offering" then Some Offering
  else if String.eqb table "deal" then Some Deal
  else None.

Record column_def : Type := Column {
  col_name : string;
  col_type : string;
  col_not_null : bool
}.

(** The columns that follow [id INTEGER PRIMARY KEY] in each of the three
    [CREATE TABLE] statements. *)
Definition DATA_SCHEMA : list column_def := [
  Column "name" "TEXT" true;
  Column "region" "TEXT" false;
  Column "mineral_type" "TEXT" false;
  Column "area" "REAL" false;
  Column "quantity" "TEXT" false;
  Column "recommendations" "VARCHAR(4)" false;
  Column "coordinates" "TEXT" false;
  Column "transfer_conditions" "VARCHAR(4)" false;
  Column "announcement_date" "DATE" false;
  Column "annual_transfer_batch" "TEXT" false;
  Column "proj_source" "TEXT" false;
  Column "start_price" "REAL" false;
  Column "transaction_date" "DATE" false;
  Column "transaction_price" "REAL" false;
  Column "payable_price" "REAL" false;
  Column "success_bidder" "TEXT" false;
  Column "contact_name" "TEXT" false;
  Column "social_credit_code" "TEXT" false;
  Column "contact_number" "VARCHAR(15)" false;
  Column "company_address" "TEXT" false;
  Column "transfer_authority" "TEXT" false;
  Column "contract_number" "TEXT" false;
  Column "contract_signing_date" "DATE" false;
  Column "payment_deadline" "DATE" false;
  Column "actual_payment_date" "DATE" false
].

Definition DATA_COLUMNS : list string := map col_name DATA_SCHEMA.

(** The type affinity of a column, which SQLite reads off the declared
    type by these substring tests, in this order.  The schema writes its
    types in capitals. *)
Inductive affinity : Type :=
  | TextAff
  | NumericAff
  | IntegerAff
  | RealAff
  | BlobAff.

Fixpoint contains (sub s : string) : bool :=
  String.prefix sub s ||
  match s with
  | EmptyString => false
  | String _ s' => contains sub s'
  end.

Definition affinity_of (declared : string) : affinity :=
  if contains "INT" declared then IntegerAff
  else if contains "CHAR" declared || contains "CLOB" declared
          || contains "TEXT" declared then TextAff
  else if contains "BLOB" declared || String.eqb declared "" then BlobAff
  else if contains "REAL" declared || contains "FLOA" declared
          || contains "DOUB" declared then RealAff
  else NumericAff.

(** The affinity of the column named [c]: TEXT for the [TEXT] and
    [VARCHAR] columns, REAL for the four [REAL] columns, NUMERIC for the
    six [DATE] columns. *)
Definition affinity_at (c : string) : affinity :=
  match find (fun cd => String.eqb (col_name cd) c) DATA_SCHEMA with
  | Some cd => affinity_of (col_type cd)
  | None => BlobAff
  end.

(** [ALL_COLUMNS] of [db.py]: the unified column order of the three tables. *)
Definition ALL_COLUMNS : list string := [
  "id"; "name"; "region"; "mineral_type"; "area"; "quantity";
  "recommendations"; "coordinates"; "transfer_conditions";
  "announcement_date"; "annual_transfer_batch"; "proj_source";
  "start_price"; "transaction_date"; "transaction_price";
  "payable_price"; "success_bidder"; "contact_name";
  "social_credit_code"; "contact_number"; "company_address";
  "transfer_authority"; "contract_number"; "contract_signing_date";
  "payment_deadline"; "actual_payment_date"
].

(** A stored row: the cells of [DATA_COLUMNS], in that order.  The id is
    the key under which the row is stored. *)
Abbreviation row := (list value) (only parsing).
Abbreviation table := (gmap Z (list value)) (only parsing).

Record database : Type := Database {
  reserve : table;
  offering : table;
  deal : table
}.

Definition get_table (t : stage) (d : database) : table :=
  match t with
  | Reserve => reserve d
  | Offering => offering d
  | Deal => deal d
  end.

Definition set_table (t : stage) (x : table) (d : database) : database :=
  match t with
  | Reserve => Database x (offering d) (deal d)
  | Offering => Database (reserve d) x (deal d)
  | Deal => Database (reserve d) (offering d) x
  end.

Definition empty_db : database := Database ∅ ∅ ∅.

(** [init_db]: [CREATE TABLE IF NOT EXISTS] three times, then commit.  On a
    fresh file ([None]) the three tables are created empty; an existing
    schema is left as it is. *)
Definition init_db (file : option database) : database :=
  match file with
  | None => empty_db
  | Some d => d
  end.

(** ** The SQLite engine, as far as [db.py] drives it *)

(** A number as SQLite reads it in a text: an integer or a real (its bit
    pattern). *)
Inductive number : Type :=
  | NInt (z : Z)
  | NReal (bits : Z).

(** What the Python and SQLite libraries contribute beyond the relational
    core.  They are parameters of the development: nothing below depends
    on how they behave.
    - [sqlite_integer_of]: the integer SQLite makes of a TEXT, REAL or BLOB
      scalar offered for an [INTEGER PRIMARY KEY] column ([None]: datatype
      mismatch);
    - [python_int]: Python's built-in [int] on a [str], [float] or [bytes];
    - [sqlite_randomness]: the successive 64-bit draws of
      [sqlite3_randomness] during one statement;
    - [sqlite_number_of]: the number a text holds when it is a well-formed
      integer or real literal ([None]: it is not);
    - [sqlite_text_of_real]: the text SQLite writes for a real;
    - [sqlite_real_of_int]: the real nearest to an integer;
    - [sqlite_int_of_real]: the integer a real is equal to, if any. *)
Record runtime : Type := Runtime {
  sqlite_integer_of : value -> option Z;
  python_int : value -> result Z;
  sqlite_randomness : nat -> Z;
  sqlite_number_of : string -> option number;
  sqlite_text_of_real : Z -> string;
  sqlite_real_of_int : Z -> Z;
  sqlite_int_of_real : Z -> option Z
}.

(** The statements [db.py] sends.  [cols] are the column names that the
    code writes into the SQL text, [params] the values bound to the [?]
    placeholders.  A column list is a list of names: a name that is not a
    column of the table makes the statement fail ([OperationalError]).

    [Reinsert] is the INSERT of the transfers.  Its parameters are the
    cells that the SELECT just before it fetched from a table of the same
    schema, column for column.  Such cells are what SQLite stored there:
    binding them again and applying the affinity of the same columns gives
    them back, so the statement stores them as they are. *)
Inductive statement : Type :=
  | Begin
  | SelectById (cols : list string) (t : stage) (id_ : Z)
  | SelectAll (cols : list string) (t : stage)
  | Insert (t : stage) (cols : list string) (params : list value)
  | Reinsert (t : stage) (cols : list string) (cells : list value)
  | Update (t : stage) (cols : list string) (params : list value) (id_ : Z)
  | Delete (t : stage) (id_ : Z).

(** What a cursor exposes after [execute]. *)
Record cursor : Type := Cursor {
  rows : list (list value);
  rowcount : Z;
  lastrowid : Z
}.

Definition fetchone (cur : cursor) : option (list value) := head (rows cur).
Definition fetchall (cur : cursor) : list (list value) := rows cur.

Fixpoint index_of (c : string) (cols : list string) : option nat :=
  match cols with
  | [] => None
  | x :: xs => if String.eqb x c then Some 0%nat else S <$> index_of c xs
  end.

(** The value bound for column [c], if the statement lists [c]. *)
Definition param_of (cols : list string) (params : list value) (c : string)
  : option value :=
  match index_of c cols with
  | Some i => params !! i
  | None => None
  end.

Definition known_column (c : string) : bool :=
  String.eqb c "id" || bool_decide (is_Some (index_of c DATA_COLUMNS)).

(** A SELECT needs at least one column ([", ".join([])] is a syntax
    error) and only columns of the table. *)
Definition select_list_ok (cols : list string) : bool :=
  match cols with
  | [] => false
  | _ => forallb known_column cols
  end.

(** The cell of column [c] in the row stored under [k]. *)
Definition cell (c : string) (k : Z) (r : row) : value :=
  if String.eqb c "id" then VInt k
  else match index_of c DATA_COLUMNS with
       | Some i => default VNull (r !! i)
       | None => VNull
       end.

Definition project (cols : list string) (k : Z) (r : row) : list value :=
  map (fun c => cell c k r) cols.

(** [name TEXT NOT NULL] *)
Definition not_null_ok (r : row) : bool :=
  forallb (fun cv : column_def * value => negb (col_not_null cv.1 && is_null cv.2))
          (zip DATA_SCHEMA r).

(** Rows in rowid order, the order of the table's B-tree and of
    [ORDER BY id]. *)
Definition rowid_le (p q : Z * list value) : Prop := p.1 <= q.1.

#[global] Instance rowid_le_dec : RelDecision rowid_le :=
  fun p q => decide (p.1 <= q.1).

Definition scan (tb : table) : list (Z * list value) :=
  merge_sort rowid_le (map_to_list tb).

Definition max_rowid (tb : table) : option Z :=
  foldr (fun (p : Z * list value) acc =>
           Some (match acc with None => p.1 | Some m => Z.max p.1 m end))
        None (map_to_list tb).

(** Random rowid selection of [OP_NewRowid]: up to [n] draws, each masked
    to 62 bits and incremented, until one is unused. *)
Fixpoint random_rowid (rnd : nat -> Z) (tb : table) (k n : nat) : option Z :=
  match n with
  | O => None
  | S n' =>
      let v := Z.land (rnd k) (Z.shiftr MAX_ROWID 1) + 1 in
      match tb !! v with
      | Some _ => random_rowid rnd tb (S k) n'
      | None => Some v
      end
  end.

(** The rowid SQLite gives to a row inserted with a NULL id: 1 in an
    empty table, the largest rowid plus one while that is representable,
    otherwise a random unused one; [None] is [SQLITE_FULL]. *)
Definition new_rowid (rnd : nat -> Z) (tb : table) : option Z :=
  match max_rowid tb with
  | None => Some 1
  | Some m => if m <? MAX_ROWID then Some (m + 1) else random_rowid rnd tb 0 100
  end.

(** [sqlite3] opens a transaction by itself before INSERT, UPDATE and
    DELETE (the default isolation level); SELECT and BEGIN are sent as
    they are. *)
Definition is_dml (s : statement) : bool :=
  match s with
  | Insert _ _ _ | Reinsert _ _ _ | Update _ _ _ _ | Delete _ _ => true
  | _ => false
  end.

Definition bound_params (s : statement) : list value :=
  match s with
  | Begin | SelectAll _ _ => []
  | SelectById _ _ id_ | Delete _ id_ => [VInt id_]
  | Insert _ _ params | Reinsert _ _ params => params
  | Update _ _ params id_ => params ++ [VInt id_]
  end.

(** ** Connections and the monad of a function body *)

(** [disk] is the committed database, [txn] the working copy while a
    transaction is open, [faults] the plan of storage faults: each
    statement and each commit takes the head of the plan and fails with
    [OperationalError] when it is [true].  [stdout] is the plan of the
    process's standard output: each [print] takes the head of the plan and
    raises the exception it names, if it names one (a stream that cannot
    encode the message, a closed or broken stream). *)
Record connection : Type := Connection {
  disk : database;
  txn : option database;
  faults : list bool;
  stdout : list (option exn)
}.

Definition view (c : connection) : database := default (disk c) (txn c).

Definition M (A : Type) : Type := connection -> result A * connection.

Definition ret {A} (a : A) : M A := fun c => (Ok a, c).
Definition raise {A} (e : exn) : M A := fun c => (Raise e, c).
Definition lift {A} (r : result A) : M A := fun c => (r, c).

Definition bind {A B} (m : M A) (k : A -> M B) : M B :=
  fun c =>
    match m c with
    | (Ok a, c') => k a c'
    | (Raise e, c') => (Raise e, c')
    end.

Notation "x <- m ;; k" := (bind m (fun x => k))
  (at level 100, m at next level, right associativity).
Notation "m ;;; k" := (bind m (fun _ => k))
  (at level 100, right associativity).

(** [try: m except Exception: h] *)
Definition try_except {A} (m : M A) (h : exn -> M A) : M A :=
  fun c =>
    match m c with
    | (Ok a, c') => (Ok a, c')
    | (Raise e, c') => h e c'
    end.

Definition begin_implicit (s : statement) (c : connection) : connection :=
  if is_dml s then
    match txn c with
    | None => Connection (disk c) (Some (disk c)) (faults c) (stdout c)
    | Some _ => c
    end
  else c.

Definition fault_now (fs : list bool) : bool := default false (head fs).

Definition next_fault (c : connection) : bool * connection :=
  (fault_now (faults c),
   Connection (disk c) (txn c) (tail (faults c)) (stdout c)).

(** No fault among the next [n] storage calls. *)
Definition fault_free (n : nat) (fs : list bool) : bool :=
  forallb negb (take n fs).

(** Where a statement's effect goes: into the open transaction, or
    straight to disk in autocommit mode. *)
Definition store (d' : database) (c : connection) : connection :=
  match txn c with
  | Some _ => Connection (disk c) (Some d') (faults c) (stdout c)
  | None => Connection d' None (faults c) (stdout c)
  end.

(** [conn.commit()] *)
Definition commit : M unit :=
  fun c0 =>
    let (f, c) := next_fault c0 in
    if f then (Raise OperationalError, c)
    else (Ok tt, Connection (view c) None (faults c) (stdout c)).

(** [conn.rollback()] *)
Definition rollback : M unit :=
  fun c => (Ok tt, Connection (disk c) None (faults c) (stdout c)).

(** What one [print(...)] does on a standard output with the plan [out]:
    it raises the exception the head of the plan names, if it names one.
    The text written is not modelled. *)
Definition printed (out : list (option exn)) : result unit :=
  match out with
  | Some e :: _ => Raise e
  | _ => Ok tt
  end.

(** [print(...)] *)
Definition print : M unit :=
  fun c =>
    (printed (stdout c),
     Connection (disk c) (txn c) (faults c) (tail (stdout c))).

(** The next [print] does not raise. *)
Definition print_ok (out : list (option exn)) : bool :=
  negb (raised (printed out)).

(** The exception that leaves an [except] clause which prints and then
    re-raises [e]: the one the [print] raises, or else [e]. *)
Definition reported (out : list (option exn)) (e : exn) : exn :=
  match printed out with
  | Raise e' => e'
  | Ok _ => e
  end.

(** [get_conn()]: a fresh connection to the database file, no
    transaction open. *)
Definition get_conn (fs : list bool) (out : list (option exn)) (d : database)
  : connection :=
  Connection d None fs out.

(** [conn.close()]: whatever an open transaction holds is discarded; the
    file keeps the committed database. *)
Definition close (c : connection) : database := disk c.

(** [conn = get_conn(); try: body finally: conn.close()] *)
Definition with_conn {A} (fs : list bool) (out : list (option exn))
    (body : M A) (d : database) : result A * database :=
  let (r, c) := body (get_conn fs out d) in (r, close c).

Section Engine.

Variable rt : runtime.

(** ** Binding and column affinity *)

(** SQLite has no NaN: [sqlite3_bind_double] binds a NaN as NULL.  A float
    is kept as the bit pattern of its IEEE 754 double. *)
Definition is_nan (bits : Z) : bool :=
  (Z.land (Z.shiftr bits 52) 2047 =? 2047) &&
  negb (Z.land bits (2 ^ 52 - 1) =? 0).

(** The SQLite value that [sqlite3] binds for a Python scalar. *)
Definition bound (v : value) : value :=
  match v with
  | VReal bits => if is_nan bits then VNull else v
  | _ => v
  end.

(** NUMERIC affinity keeps a real that equals a 64-bit integer as that
    integer. *)
Definition numeric_of_real (bits : Z) : value :=
  match sqlite_int_of_real rt bits with
  | Some z => if fits_int64 z then VInt z else VReal bits
  | None => VReal bits
  end.

(** What a column of affinity [a] makes of a bound value before it is
    stored.  NULL and BLOB are never converted.
    - TEXT: a number becomes its text;
    - REAL: an integer becomes a real, a text that holds a number becomes
      that number as a real;
    - NUMERIC, INTEGER: a text that holds a number becomes that number, an
      integer where it is one; a real equal to an integer becomes it.
    A text that holds no number is stored as text whatever the
    affinity. *)
Definition apply_affinity (a : affinity) (v : value) : value :=
  match a, v with
  | TextAff, VInt z => VText (pretty z)
  | TextAff, VReal bits => VText (sqlite_text_of_real rt bits)
  | RealAff, VInt z => VReal (sqlite_real_of_int rt z)
  | RealAff, VText s =>
      match sqlite_number_of rt s with
      | Some (NInt z) => VReal (sqlite_real_of_int rt z)
      | Some (NReal bits) => VReal bits
      | None => v
      end
  | (NumericAff | IntegerAff), VText s =>
      match sqlite_number_of rt s with
      | Some (NInt z) => if fits_int64 z then VInt z else v
      | Some (NReal bits) => numeric_of_real bits
      | None => v
      end
  | (NumericAff | IntegerAff), VReal bits => numeric_of_real bits
  | _, _ => v
  end.

(** The cell that column [c] stores for the Python scalar [v]. *)
Definition stored_as (c : string) (v : value) : value :=
  apply_affinity (affinity_at c) (bound v).

(** The row an INSERT stores when [f] gives the value bound for each
    column. *)
Definition stored_row (f : string -> value) : list value :=
  map (fun c => stored_as c (f c)) DATA_COLUMNS.

(** The rowid under which an INSERT stores its row. *)
Definition insert_rowid (tb : table) (idv : value) : result Z :=
  match idv with
  | VNull =>
      match new_rowid (sqlite_randomness rt) tb with
      | Some k => Ok k
      | None => Raise OperationalError
      end
  | VInt z => Ok z
  | v =>
      match sqlite_integer_of rt v with
      | Some z => if fits_int64 z then Ok z else Raise (IntegrityError DatatypeMismatch)
      | None => Raise (IntegrityError DatatypeMismatch)
      end
  end.

Definition plain (d : database) : cursor * database := (Cursor [] (-1) 0, d).

(** One statement against the database [d] that the connection sees.  A
    statement that raises leaves [d] as it was. *)
Definition run (s : statement) (d : database) : result (cursor * database) :=
  match s with
  | Begin => Ok (plain d)
  | SelectById cols t id_ =>
      if select_list_ok cols then
        match get_table t d !! id_ with
        | Some r => Ok (Cursor [project cols id_ r] (-1) 0, d)
        | None => Ok (plain d)
        end
      else Raise OperationalError
  | SelectAll cols t =>
      if select_list_ok cols then
        Ok (Cursor (map (fun p : Z * list value => project cols p.1 p.2)
                        (scan (get_table t d))) (-1) 0, d)
      else Raise OperationalError
  | Insert t cols params =>
      let tb := get_table t d in
      match insert_rowid tb (bound (default VNull (param_of cols params "id"))) with
      | Raise e => Raise e
      | Ok k =>
          let r := stored_row (fun c => default VNull (param_of cols params c)) in
          if negb (not_null_ok r) then Raise (IntegrityError NotNullFailed)
          else match tb !! k with
               | Some _ => Raise (IntegrityError UniqueFailed)
               | None => Ok (Cursor [] 1 k, set_table t (<[k := r]> tb) d)
               end
      end
  | Reinsert t cols cells =>
      let tb := get_table t d in
      match insert_rowid tb (default VNull (param_of cols cells "id")) with
      | Raise e => Raise e
      | Ok k =>
          let r := map (fun c => default VNull (param_of cols cells c)) DATA_COLUMNS in
          if negb (not_null_ok r) then Raise (IntegrityError NotNullFailed)
          else match tb !! k with
               | Some _ => Raise (IntegrityError UniqueFailed)
               | None => Ok (Cursor [] 1 k, set_table t (<[k := r]> tb) d)
               end
      end
  | Update t cols params id_ =>
      let tb := get_table t d in
      match tb !! id_ with
      | None => Ok (Cursor [] 0 0, d)
      | Some old =>
          let r := map (fun c => match param_of cols params c with
                                 | Some v => stored_as c v
                                 | None => cell c id_ old
                                 end)
                       DATA_COLUMNS in
          if negb (not_null_ok r) then Raise (IntegrityError NotNullFailed)
          else Ok (Cursor [] 1 0, set_table t (<[id_ := r]> tb) d)
      end
  | Delete t id_ =>
      let tb := get_table t d in
      match tb !! id_ with
      | None => Ok (Cursor [] 0 0, d)
      | Some _ => Ok (Cursor [] 1 0, set_table t (delete id_ tb) d)
      end
  end.

(** ** Executing a statement on a connection *)

(** [cur.execute(sql, params)] *)
Definition execute (s : statement) : M cursor :=
  fun c0 =>
    let c1 := begin_implicit s c0 in
    if negb (forallb bindable (bound_params s)) then (Raise OverflowError, c1)
    else
      let (f, c) := next_fault c1 in
      if f then (Raise OperationalError, c)
      else match s with
           | Begin =>
               match txn c with
               | Some _ => (Raise OperationalError, c)
               | None => (Ok (Cursor [] (-1) 0),
                          Connection (disk c) (Some (disk c)) (faults c) (stdout c))
               end
           | _ =>
               match run s (view c) with
               | Ok (cur, d') => (Ok cur, store d' c)
               | Raise e => (Raise e, c)
               end
           end.

(** ** The functions of [db.py] *)

(** [data.get(col, None)] *)
Definition dict_get (data : gmap string value) (col : string) : value :=
  default VNull (data !! col).

(** [data[key]] *)
Definition getitem (data : gmap string value) (key : string) : result value :=
  match data !! key with
  | Some v => Ok v
  | None => Raise KeyError
  end.

(** [int(v)] *)
Definition int_of (v : value) : result Z :=
  match v with
  | VInt z => Ok z
  | VNull => Raise TypeError
  | _ => python_int rt v
  end.

(** [dict(zip(cols, row))] is the map built from the zipped list; a column
    named twice carries the same cell both times. *)
Definition get_record (table : string) (id_ : Z) (cols : option (list string))
    (d : database) : result (gmap string value) * database :=
  match stage_of_name table with
  | None => (Raise ValueError, d)
  | Some t =>
      let cols := match cols with
                  | Some (c :: cs) => c :: cs
                  | _ => ALL_COLUMNS
                  end in
      with_conn [] [] (
        cur <- execute (SelectById cols t id_) ;;
        match fetchone cur with
        | None => raise ValueError
        | Some r => ret (list_to_map (zip cols r))
        end) d
  end.

Definition add_full_record (table : string) (data : gmap string value)
    (d : database) : result Z * database :=
  match stage_of_name table with
  | None => (Raise ValueError, d)
  | Some t =>
      let row_values := map (dict_get data) ALL_COLUMNS in
      with_conn [] [] (
        execute (Insert t ALL_COLUMNS row_values) ;;;
        commit ;;;
        v <- lift (getitem data "id") ;;
        lift (int_of v)) d
  end.

Definition add_record (table : string) (id_ : Z) (name quantity : value)
    (d : database) : result Z * database :=
  match stage_of_name table with
  | None => (Raise ValueError, d)
  | Some t =>
      with_conn [] [] (
        execute (Insert t ["id"; "name"; "quantity"] [VInt id_; name; quantity]) ;;;
        commit ;;;
        ret id_) d
  end.

Definition update_full_record (table : string) (id_ : Z)
    (data : gmap string value) (d : database) : result Z * database :=
  match stage_of_name table with
  | None => (Raise ValueError, d)
  | Some t =>
      let cols_to_update :=
        filter (fun c => negb (String.eqb c "id")) ALL_COLUMNS in
      let values := map (dict_get data) cols_to_update in
      with_conn [] [] (
        cur <- execute (Update t cols_to_update values id_) ;;
        commit ;;;
        ret (rowcount cur)) d
  end.

Definition delete_record (table : string) (id_ : Z) (d : database)
  : result Z * database :=
  match stage_of_name table with
  | None => (Raise ValueError, d)
  | Some t =>
      with_conn [] [] (
        cur <- execute (Delete t id_) ;;
        commit ;;;
        ret (rowcount cur)) d
  end.

(** The column list that [list_table] writes out for [cols is None]. *)
Definition LIST_DEFAULT_COLUMNS : list string := [
  "id"; "name"; "region"; "mineral_type"; "area"; "quantity";
  "recommendations"; "coordinates"; "transfer_conditions";
  "announcement_date"; "annual_transfer_batch"; "proj_source";
  "start_price"; "transaction_date"; "transaction_price";
  "payable_price"; "success_bidder"; "contact_name";
  "social_credit_code"; "contact_number"; "company_address";
  "transfer_authority"; "contract_number"; "contract_signing_date";
  "payment_deadline"; "actual_payment_date"
].

Definition list_table (table : string) (cols : option (list string))
    (d : database) : result (list (list value)) * database :=
  match stage_of_name table with
  | None => (Raise ValueError, d)
  | Some t =>
      let cols := match cols with
                  | None => LIST_DEFAULT_COLUMNS
                  | Some cs => cs
                  end in
      with_conn [] [] (
        cur <- execute (SelectAll cols t) ;;
        ret (fetchall cur)) d
  end.

(** The column list that both transfers select and insert. *)
Definition TRANSFER_COLUMNS : list string := [
  "name"; "region"; "mineral_type"; "area"; "quantity"; "recommendations";
  "coordinates"; "transfer_conditions"; "announcement_date";
  "annual_transfer_batch"; "proj_source"; "start_price"; "transaction_date";
  "transaction_price"; "payable_price"; "success_bidder"; "contact_name";
  "social_credit_code"; "contact_number"; "company_address";
  "transfer_authority"; "contract_number"; "contract_signing_date";
  "payment_deadline"; "actual_payment_date"
].

Definition move_reserve_to_offering (fs : list bool) (out : list (option exn))
    (reserve_id : Z) (d : database) : result Z * database :=
  with_conn fs out (
    try_except (
      execute Begin ;;;
      cur <- execute (SelectById TRANSFER_COLUMNS Reserve reserve_id) ;;
      match fetchone cur with
      | None => rollback ;;; raise ValueError
      | Some r =>
          cur <- execute (Reinsert Offering TRANSFER_COLUMNS r) ;;
          let new_offering_id := lastrowid cur in
          execute (Delete Reserve reserve_id) ;;;
          commit ;;;
          print ;;;
          ret new_offering_id
      end)
    (fun e => rollback ;;; print ;;; raise e)) d.

Definition move_offering_to_deal (fs : list bool) (out : list (option exn))
    (offering_id : Z) (d : database) : result Z * database :=
  with_conn fs out (
    try_except (
      execute Begin ;;;
      cur <- execute (SelectById TRANSFER_COLUMNS Offering offering_id) ;;
      match fetchone cur with
      | None => rollback ;;; raise ValueError
      | Some r =>
          cur <- execute (Reinsert Deal TRANSFER_COLUMNS r) ;;
          let new_deal_id := lastrowid cur in
          execute (Delete Offering offering_id) ;;;
          commit ;;;
          print ;;;
          ret new_deal_id
      end)
    (fun e => rollback ;;; print ;;; raise e)) d.

(** The two transfers are one program text up to the names of the source
    and destination tables; [transfer] is that text. *)
Definition transfer (src dst : stage) (fs : list bool)
    (out : list (option exn)) (source_id : Z) (d : database)
  : result Z * database :=
  with_conn fs out (
    try_except (
      execute Begin ;;;
      cur <- execute (SelectById TRANSFER_COLUMNS src source_id) ;;
      match fetchone cur with
      | None => rollback ;;; raise ValueError
      | Some r =>
          cur <- execute (Reinsert dst TRANSFER_COLUMNS r) ;;
          let new_id := lastrowid cur in
          execute (Delete src source_id) ;;;
          commit ;;;
          print ;;;
          ret new_id
      end)
    (fun e => rollback ;;; print ;;; raise e)) d.

End Engine.

(** The row a transfer reads from the source and writes to the
    destination: the 25 non-id cells of the source row. *)
Definition carried (id_ : Z) (r : list value) : list value :=
  project TRANSFER_COLUMNS id_ r.

(** A row with a name, a quantity and nulls elsewhere. *)
Definition basic_row (name quantity : value) : list value :=
  map (fun c => if String.eqb c "name" then name
                else if String.eqb c "quantity" then quantity else VNull)
      DATA_COLUMNS.

(** The database a successful transfer leaves: the carried row under the
    new id in the destination, the source row gone. *)
Definition moved (src dst : stage) (id_ k : Z) (r : list value)
    (d : database) : database :=
  let d1 := set_table dst (<[k := carried id_ r]> (get_table dst d)) d in
  set_table src (delete id_ (get_table src d1)) d1.

(** What a transfer can raise before it has committed, and why: a storage
    fault, an id or a cell that does not bind, no row under the id, a row
    without a name. *)
Definition refused (src : stage) (id_ : Z) (d : database) (e : exn) : Prop :=
  e = OperationalError \/
  e = OverflowError \/
  (e = ValueError /\ get_table src d !! id_ = None) \/
  (e = IntegrityError NotNullFailed /\
   exists r, get_table src d !! id_ = Some r /\ not_null_ok (carried id_ r) = false).

(** ** The form handlers of [main.py] *)

(** The three handlers that write: what they answer and what they leave
    in the database.  In their [except] clause the handlers print the
    exception before they answer; they are modelled on a standard output
    that accepts that diagnostic. *)

(** A [RedirectResponse]. *)
Record response : Type := RedirectResponse {
  url : string;
  status_code : Z
}.

Definition HTTP_303_SEE_OTHER : Z := 303.

(** [f"{id_}"] for an [int]. *)
Definition str_int (z : Z) : string := pretty z.

(** The truth value Python gives a scalar in [if not v]. *)
Definition truth (v : value) : bool :=
  match v with
  | VNull => false
  | VInt z => negb (z =? 0)
  | VReal bits => negb (bits =? 0) && negb (bits =? 2 ^ 63)
  | VText s => negb (String.eqb s "")
  | VBlob b => negb (String.eqb b "")
  end.

Section Controller.

Variable rt : runtime.

(** [str.strip], a library function like those of [runtime]. *)
Variable strip : string -> string.

(** What both form handlers make of a text field: stripped, and [None]
    when it is missing or blank.  A form is a map from field names to
    text; file uploads are not modelled. *)
Definition clean (v : option string) : value :=
  match v with
  | None => VNull
  | Some s => if String.eqb (strip s) "" then VNull else VText (strip s)
  end.


(** The dict [detail_update] builds: one entry per column but ["id"]. *)
Definition update_form_data (form : gmap string string) : gmap string value :=
  foldl (fun data col =>
           if String.eqb col "id" then data
           else <[col := clean (form !! col)]> data)
        ∅ ALL_COLUMNS.

Definition detail_update (form : gmap string string) (table : string) (id_ : Z)
    (d : database) : response * database :=
  let data := update_form_data form in
  let failed :=
    RedirectResponse ("/detail/" +:+ table +:+ "/" +:+ str_int id_ +:+ "?err=1")
                     HTTP_303_SEE_OTHER in
  match update_full_record rt table id_ data d with
  | (Ok rc, d') =>
      if rc =? 1
      then (RedirectResponse ("/detail/" +:+ table +:+ "/" +:+ str_int id_ +:+ "?ok=1")
                             HTTP_303_SEE_OTHER, d')
      else (failed, d')
  | (Raise _, d') => (failed, d')
  end.

(** The dict [add_submit] builds: every field of the form but ["table"]. *)
Definition submit_data (form : gmap string string) : gmap string value :=
  (fun s => clean (Some s)) <$> delete "table" form.

Definition add_submit (form : gmap string string) (d : database)
  : response * database :=
  let table := strip (default "" (form !! "table")) in
  let data := submit_data form in
  if negb (truth (dict_get data "id")) || negb (truth (dict_get data "name"))
  then (RedirectResponse "/add?err=1" HTTP_303_SEE_OTHER, d)
  else match add_full_record rt table data d with
       | (Ok _, d') => (RedirectResponse "/add?ok=1" HTTP_303_SEE_OTHER, d')
       | (Raise _, d') => (RedirectResponse "/add?err=1" HTTP_303_SEE_OTHER, d')
       end.

End Controller.

(** ** Reachable states *)

(** One call of a function of the data layer, with any arguments, any
    library behaviour and, for the transfers, any plan of storage faults
    and of [print] outcomes. *)
Inductive step : database -> database -> Prop :=
  | step_get_record rt table id_ cols d :
      step d (get_record rt table id_ cols d).2
  | step_add_full_record rt table data d :
      step d (add_full_record rt table data d).2
  | step_add_record rt table id_ name quantity d :
      step d (add_record rt table id_ name quantity d).2
  | step_update_full_record rt table id_ data d :
      step d (update_full_record rt table id_ data d).2
  | step_delete_record rt table id_ d :
      step d (delete_record rt table id_ d).2
  | step_list_table rt table cols d :
      step d (list_table rt table cols d).2
  | step_move_reserve_to_offering rt fs out id_ d :
      step d (move_reserve_to_offering rt fs out id_ d).2
  | step_move_offering_to_deal rt fs out id_ d :
      step d (move_offering_to_deal rt fs out id_ d).2.

(** The states the data layer can reach from the schema that [init_db]
    creates on a fresh file. *)
Inductive reachable : database -> Prop :=
  | reachable_init : reachable (init_db None)
  | reachable_step d d' : reachable d -> step d d' -> reachable d'.

(** Every row of every table has a name. *)
Definition names_present (d : database) : Prop :=
  forall (t : stage) (k : Z) (r : list value),
    get_table t d !! k = Some r -> is_null (cell "name" k r) = false.

(** Every stored row sits under a 64-bit id and has 25 bindable cells. *)
Definition well_shaped (d : database) : Prop :=
  forall (t : stage) (k : Z) (r : list value),
    get_table t d !! k = Some r ->
    fits_int64 k = true /\ length r = 25%nat /\ forallb bindable r = true.

(** The number of rows in the three tables together. *)
Definition total_rows (d : database) : nat :=
  (size (reserve d) + size (offering d) + size (deal d))%nat.

(** ** Sample data *)

(** A runtime whose library conversions reject everything and whose random
    draws are all zero. *)
Definition rt0 : runtime :=
  Runtime (fun _ => None) (fun _ => Raise ValueError) (fun _ => 0)
          (fun _ => None) (fun _ => "") (fun _ => 0) (fun _ => None).

(** The row of the spec's scenario: [name = "Site A"],
    [mineral_type = "copper"], every other cell null. *)
Definition site_a : list value :=
  VText "Site A" :: VNull :: VText "copper" :: repeat VNull 22.

Definition reserve_with_site_a : database := Database {[ 1 := site_a ]} ∅ ∅.

(** A record as a caller may pass it: a name and no ["id"] key. *)
Definition record_without_id : gmap string value :=
  {[ "name" := VText "Site A" ]}.

(** A record whose ["id"] is [None]. *)
Definition record_null_id : gmap string value :=
  <[ "id" := VNull ]> {[ "name" := VText "Site A" ]}.

(** A record with id 7 and a name. *)
Definition record_7 : gmap string value :=
  <[ "id" := VInt 7 ]> {[ "name" := VText "Site B" ]}.

(** A record with id 7 and no name. *)
Definition nameless_record_7 : gmap string value := {[ "id" := VInt 7 ]}.


(** An update that renames the row and sets its region. *)
Definition rename_record : gmap string value :=
  <[ "region" := VText "North" ]> {[ "name" := VText "Site C" ]}.

(** An update that gives a measured area as text and a quantity as an
    integer. *)
Definition measured_record : gmap string value :=
  <[ "area" := VText "12.5" ]>
    (<[ "quantity" := VInt 5 ]> {[ "name" := VText "Site C" ]}).

(** Id 1 in use in both [offering] and [deal]. *)
Definition offering_deal_site_a : database :=
  Database ∅ {[ 1 := site_a ]} {[ 1 := site_a ]}.

(** The row moved on to [deal] under id 1. *)
Definition deal_with_site_a : database := Database ∅ ∅ {[ 1 := site_a ]}.

(** Two rows in [reserve], as two [add_record] calls leave them. *)
Definition two_sites : database :=
  Database (<[ 2 := basic_row (VText "Site B") VNull ]>
              {[ 1 := basic_row (VText "Site A") VNull ]}) ∅ ∅.

(** The doubles 5.0, 12.5 and 100.0. *)
Definition REAL_5 : Z := 4617315517961601024.
Definition REAL_12_5 : Z := 4623226492472524800.
Definition REAL_100 : Z := 4636737291354636288.

(** A runtime that, as SQLite and Python do, makes the rowid 5 of the text
    ["5.0"], lets [int] accept ["5"] but not ["5.0"], and reads and writes
    the numbers 5, 12.5 and 100. *)
Definition rt_decimal : runtime :=
  Runtime (fun v => match v with
                    | VText "5" | VText "5.0" => Some 5
                    | _ => None
                    end)
          (fun v => match v with
                    | VText "5" => Ok 5
                    | _ => Raise ValueError
                    end)
          (fun _ => 0)
          (fun s => match s with
                    | "5" => Some (NInt 5)
                    | "100" => Some (NInt 100)
                    | "5.0" => Some (NReal REAL_5)
                    | "12.5" => Some (NReal REAL_12_5)
                    | _ => None
                    end)
          (fun bits => if bits =? REAL_5 then "5.0"
                       else if bits =? REAL_12_5 then "12.5"
                       else if bits =? REAL_100 then "100.0" else "")
          (fun z => if z =? 5 then REAL_5
                    else if z =? 100 then REAL_100 else 0)
          (fun bits => if bits =? REAL_5 then Some 5
                       else if bits =? REAL_100 then Some 100 else None).

(** Forms as the detail page posts them: one that renames the row, one
    with a blank name. *)
Definition rename_form : gmap string string :=
  <[ "region" := "North" ]> {[ "name" := "Site C" ]}.

Definition blank_name_form : gmap string string :=
  <[ "region" := "North" ]> {[ "name" := "" ]}.

(** A form of the detail page that gives the area as ["12.5"]. *)
Definition measured_form : gmap string string :=
  <[ "area" := "12.5" ]> {[ "name" := "Site C" ]}.

(** A form as the "add" page posts it. *)
Definition add_form (id_text : string) : gmap string string :=
  <[ "table" := "reserve" ]> (<[ "id" := id_text ]> {[ "name" := "Site A" ]}).

(** A standard output that cannot encode the messages of the transfers,
    which are not ASCII: every [print] of one raises. *)
Definition ascii_stdout : list (option exn) :=
  [Some UnicodeEncodeError; Some UnicodeEncodeError].

(** A form of the "add" page with id 5 and a start price of ["100"]. *)
Definition priced_form : gmap string string :=
  <[ "start_price" := "100" ]> (add_form "5").

(** The same row, moved to [offering] under id 1. *)
Definition offering_with_site_a : database := Database ∅ {[ 1 := site_a ]} ∅.

(** Id 1 in use in both [reserve] and [offering]. *)
Definition site_a_twice : database :=
  Database {[ 1 := site_a ]} {[ 1 := site_a ]} ∅.

Arguments run : simpl never.
Arguments new_rowid : simpl never.
Arguments not_null_ok : simpl never.
Arguments carried : simpl never.
Arguments execute : simpl never.
Arguments commit : simpl never.
Arguments print : simpl never.
Arguments printed : simpl never.
Arguments reported : simpl never.
Arguments stored_as : simpl never.

(** * Properties *)

(** ** Rowid allocation *)

Lemma max_fold_upper (l : list (Z * list value)) (m : Z) :
  foldr (fun (p : Z * list value) acc =>
           Some (match acc with None => p.1 | Some m => Z.max p.1 m end))
        None l = Some m ->
  forall p, p ∈ l -> p.1 <= m.
Proof.
  revert m. induction l as [|q l IH]; intros m Hm p Hp.
  - inversion Hp.
  - cbn in Hm. apply elem_of_cons in Hp as [->|Hp].
    + destruct (foldr _ None l); inversion Hm; lia.
    + destruct (foldr _ None l) as [m'|] eqn:E.
      * inversion Hm; subst. specialize (IH m' eq_refl p Hp). lia.
      * destruct l; [inversion Hp | discriminate E].
Qed.

Lemma max_rowid_upper (tb : table) (m k : Z) (r : list value) :
  max_rowid tb = Some m -> tb !! k = Some r -> k <= m.
Proof.
  intros Hm Hk. unfold max_rowid in Hm.
  apply (max_fold_upper _ _ Hm (k, r)). by apply elem_of_map_to_list.
Qed.

Lemma max_rowid_empty (tb : table) : max_rowid tb = None -> tb = ∅.
Proof.
  unfold max_rowid. intros H. apply map_to_list_empty_iff.
  destruct (map_to_list tb); [done | discriminate H].
Qed.

Lemma random_rowid_fresh rnd (tb : table) (k n : nat) (v : Z) :
  random_rowid rnd tb k n = Some v -> tb !! v = None.
Proof.
  revert k. induction n as [|n IH]; intros k; cbn; [discriminate|].
  destruct (tb !! (Z.land (rnd k) (Z.shiftr MAX_ROWID 1) + 1)) eqn:E;
    [apply IH | intros [= <-]; exact E].
Qed.

(** A freshly allocated rowid is not in use. *)
Lemma new_rowid_fresh rnd (tb : table) (k : Z) :
  new_rowid rnd tb = Some k -> tb !! k = None.
Proof.
  unfold new_rowid. destruct (max_rowid tb) as [m|] eqn:Hm.
  - destruct (m <? MAX_ROWID) eqn:Hlt.
    + intros [= <-]. destruct (tb !! (m + 1)) eqn:E; [|done].
      pose proof (max_rowid_upper _ _ _ _ Hm E). lia.
    + apply random_rowid_fresh.
  - intros _. rewrite (max_rowid_empty _ Hm). apply lookup_empty.
Qed.

(** ** What a transfer does *)

Lemma insert_carried (id_ : Z) (r : list value) :
  map (fun c => default VNull (param_of TRANSFER_COLUMNS (carried id_ r) c))
      DATA_COLUMNS = carried id_ r.
Proof. reflexivity. Qed.

Lemma carried_no_id (id_ : Z) (r : list value) :
  param_of TRANSFER_COLUMNS (carried id_ r) "id" = None.
Proof. reflexivity. Qed.

Lemma run_select_carried rt (t : stage) (id_ : Z) (d : database) :
  run rt (SelectById TRANSFER_COLUMNS t id_) d =
  match get_table t d !! id_ with
  | Some r => Ok (Cursor [carried id_ r] (-1) 0, d)
  | None => Ok (plain d)
  end.
Proof. reflexivity. Qed.

Lemma run_insert_carried rt (t : stage) (id_ : Z) (r : list value) (d : database) :
  run rt (Reinsert t TRANSFER_COLUMNS (carried id_ r)) d =
  match new_rowid (sqlite_randomness rt) (get_table t d) with
  | None => Raise OperationalError
  | Some k =>
      if negb (not_null_ok (carried id_ r)) then Raise (IntegrityError NotNullFailed)
      else match get_table t d !! k with
           | Some _ => Raise (IntegrityError UniqueFailed)
           | None => Ok (Cursor [] 1 k,
                         set_table t (<[k := carried id_ r]> (get_table t d)) d)
           end
  end.
Proof.
  unfold run. rewrite carried_no_id, insert_carried. cbn [default insert_rowid].
  by destruct (new_rowid _ _).
Qed.

(** ** Stepping a connection *)

Lemma execute_begin rt (d : database) (fs : list bool) (out : list (option exn)) :
  execute rt Begin (Connection d None fs out) =
  if fault_now fs then (Raise OperationalError, Connection d None (tail fs) out)
  else (Ok (Cursor [] (-1) 0), Connection d (Some d) (tail fs) out).
Proof. unfold execute, next_fault. cbn. by destruct (fault_now fs). Qed.

Lemma execute_txn rt (s : statement) (d w : database) (fs : list bool)
    (out : list (option exn)) :
  s <> Begin ->
  execute rt s (Connection d (Some w) fs out) =
  if negb (forallb bindable (bound_params s))
  then (Raise OverflowError, Connection d (Some w) fs out)
  else if fault_now fs
       then (Raise OperationalError, Connection d (Some w) (tail fs) out)
       else match run rt s w with
            | Ok (cur, w') => (Ok cur, Connection d (Some w') (tail fs) out)
            | Raise e => (Raise e, Connection d (Some w) (tail fs) out)
            end.
Proof.
  intros Hs. unfold execute, next_fault.
  destruct s; try congruence; cbn;
    repeat (match goal with |- context [match ?x with _ => _ end] => destruct x end;
            cbn; try reflexivity).
Qed.

Lemma commit_txn (d w : database) (fs : list bool) (out : list (option exn)) :
  commit (Connection d (Some w) fs out) =
  if fault_now fs then (Raise OperationalError, Connection d (Some w) (tail fs) out)
  else (Ok tt, Connection w None (tail fs) out).
Proof. unfold commit, next_fault. cbn. by destruct (fault_now fs). Qed.

Lemma run_delete_moved rt (t : stage) (id_ : Z) (d : database) :
  exists n, run rt (Delete t id_) d =
            Ok (Cursor [] n 0, set_table t (delete id_ (get_table t d)) d).
Proof.
  unfold run. destruct (get_table t d !! id_) eqn:E; eexists; [reflexivity|].
  rewrite delete_id by done. by destruct t, d.
Qed.

(** The [try] of a transfer with its [except] clause (roll back, print,
    re-raise) and its [finally]: what is on disk when the body ends is
    what stays, and the exception that leaves is the one the [print] of
    the [except] clause raises, if it raises, or else the one caught. *)
Lemma try_rollback_print {A} (body : M A) (fs : list bool)
    (out : list (option exn)) (d : database) :
  with_conn fs out (try_except body (fun e => rollback ;;; print ;;; raise e)) d =
  match body (Connection d None fs out) with
  | (Ok a, c) => (Ok a, disk c)
  | (Raise e, c) => (Raise (reported (stdout c) e), disk c)
  end.
Proof.
  unfold with_conn, get_conn, try_except, close.
  destruct (body (Connection d None fs out)) as [[a|e] c]; [reflexivity|].
  unfold bind, rollback, print, raise, reported. cbn [stdout disk].
  by destruct (printed (stdout c)).
Qed.

Lemma reported_ok (out : list (option exn)) (e : exn) :
  print_ok out = true -> reported out e = e.
Proof. unfold print_ok, reported. by destruct (printed out). Qed.

(** Every run of the transfer text ends in one of two ways.  Either
    nothing has been committed: the database is as it was and the call
    raises, the exception being the one of the failed step unless the
    [print] of the [except] clause raises another.  Or the row has been
    moved and committed: the call returns the new id when the [print]
    after the commit succeeds, and raises when that [print] raises. *)
Local Ltac unchanged :=
  cbn; intros ?; simplify_eq; left; split; [done|];
  eexists; split; [reflexivity|]; unfold refused; eauto 10.

Lemma transfer_outcomes rt src dst fs out id_ d res d' :
  transfer rt src dst fs out id_ d = (res, d') ->
  (d' = d /\ exists e, res = Raise (reported out e) /\ refused src id_ d e) \/
  (exists k r,
     get_table src d !! id_ = Some r /\
     new_rowid (sqlite_randomness rt) (get_table dst d) = Some k /\
     not_null_ok (carried id_ r) = true /\
     d' = moved src dst id_ k r d /\
     res = match printed out with
           | Ok _ => Ok k
           | Raise e => Raise (reported (tail out) e)
           end).
Proof.
  unfold transfer. rewrite try_rollback_print. unfold bind.
  rewrite execute_begin.
  destruct (fault_now fs); [unchanged|].
  rewrite execute_txn by done. cbn [bound_params forallb bindable].
  destruct (fits_int64 id_) eqn:Hid; [|unchanged]. cbn [andb negb].
  destruct (fault_now (tail fs)); [unchanged|].
  rewrite run_select_carried.
  destruct (get_table src d !! id_) as [r|] eqn:Hr;
    [|cbn [fetchone rows head plain rollback raise]; unchanged].
  cbn [fetchone rows head plain].
  rewrite execute_txn by done. cbn [bound_params].
  destruct (forallb bindable (carried id_ r)) eqn:Hb; [|unchanged]. cbn [negb].
  destruct (fault_now _); [unchanged|].
  rewrite run_insert_carried.
  destruct (new_rowid _ _) as [k|] eqn:Hk; [|unchanged].
  destruct (not_null_ok (carried id_ r)) eqn:Hnn; cbn [negb]; [|unchanged].
  rewrite (new_rowid_fresh _ _ _ Hk).
  rewrite execute_txn by done. cbn [bound_params forallb bindable].
  rewrite Hid. cbn [andb negb].
  destruct (fault_now _); [unchanged|].
  destruct (run_delete_moved rt src id_
              (set_table dst (<[k := carried id_ r]> (get_table dst d)) d))
    as [n ->].
  rewrite commit_txn.
  destruct (fault_now _); [unchanged|].
  unfold print, ret. cbn [stdout disk txn faults lastrowid].
  intros E. right. exists k, r.
  destruct (printed out) as [[]|e]; cbn [stdout disk] in E; by simplify_eq.
Qed.

(** A transfer that returns has moved the row; one that raises on a
    standard output that accepts its message has changed nothing. *)
Lemma transfer_inv rt src dst fs out id_ d k d' :
  transfer rt src dst fs out id_ d = (Ok k, d') ->
  exists r, get_table src d !! id_ = Some r /\
     new_rowid (sqlite_randomness rt) (get_table dst d) = Some k /\
     not_null_ok (carried id_ r) = true /\
     d' = moved src dst id_ k r d.
Proof.
  intros E. apply transfer_outcomes in E
    as [(_ & e & ? & _)|(k' & r & Hr & Hk & Hnn & -> & Hres)]; [discriminate|].
  destruct (printed out); [|discriminate]. injection Hres as ->. by exists r.
Qed.

Lemma transfer_effect rt src dst fs out id_ d :
  (transfer rt src dst fs out id_ d).2 = d \/
  exists k r, get_table src d !! id_ = Some r /\
     new_rowid (sqlite_randomness rt) (get_table dst d) = Some k /\
     not_null_ok (carried id_ r) = true /\
     (transfer rt src dst fs out id_ d).2 = moved src dst id_ k r d.
Proof.
  destruct (transfer rt src dst fs out id_ d) as [res d'] eqn:E.
  apply transfer_outcomes in E
    as [(-> & _)|(k & r & Hr & Hk & Hnn & -> & _)]; [by left|].
  right. by exists k, r.
Qed.

Lemma fault_free_S (n : nat) (fs : list bool) :
  fault_free (S n) fs = true ->
  fault_now fs = false /\ fault_free n (tail fs) = true.
Proof.
  unfold fault_free, fault_now. destruct fs as [|[] fs]; cbn; auto.
  - intros _. split; [done|]. by destruct n.
  - discriminate.
Qed.

(** With a row to move, a 64-bit id, bindable non-null cells, no storage
    fault, a rowid to allocate and a standard output that accepts the
    message, the transfer text runs to its [return]. *)
Lemma transfer_ok rt src dst fs out id_ d r k :
  fault_free 5 fs = true ->
  print_ok out = true ->
  fits_int64 id_ = true ->
  get_table src d !! id_ = Some r ->
  forallb bindable (carried id_ r) = true ->
  not_null_ok (carried id_ r) = true ->
  new_rowid (sqlite_randomness rt) (get_table dst d) = Some k ->
  transfer rt src dst fs out id_ d = (Ok k, moved src dst id_ k r d).
Proof.
  intros Hf Hout Hid Hr Hb Hnn Hk.
  apply fault_free_S in Hf as [F0 Hf]. apply fault_free_S in Hf as [F1 Hf].
  apply fault_free_S in Hf as [F2 Hf]. apply fault_free_S in Hf as [F3 Hf].
  apply fault_free_S in Hf as [F4 _].
  unfold transfer, with_conn, get_conn, close, try_except, bind.
  rewrite execute_begin, F0.
  rewrite execute_txn by done. cbn [bound_params forallb bindable].
  rewrite Hid, F1, run_select_carried, Hr. cbn [andb negb fetchone rows head].
  rewrite execute_txn by done. cbn [bound_params].
  rewrite Hb, F2, run_insert_carried, Hk, Hnn, (new_rowid_fresh _ _ _ Hk).
  cbn [negb lastrowid].
  rewrite execute_txn by done. cbn [bound_params forallb bindable].
  rewrite Hid, F3. cbn [andb negb].
  destruct (run_delete_moved rt src id_
              (set_table dst (<[k := carried id_ r]> (get_table dst d)) d))
    as [n ->].
  rewrite commit_txn, F4. unfold print, print_ok in *. cbn [stdout].
  destruct (printed out); [reflexivity | discriminate Hout].
Qed.

Lemma move_reserve_to_offering_transfer rt fs out id_ d :
  move_reserve_to_offering rt fs out id_ d = transfer rt Reserve Offering fs out id_ d.
Proof. reflexivity. Qed.

Lemma move_offering_to_deal_transfer rt fs out id_ d :
  move_offering_to_deal rt fs out id_ d = transfer rt Offering Deal fs out id_ d.
Proof. reflexivity. Qed.

(** The carried row holds, column by column, the cells of the source row. *)
Lemma carried_cell (c : string) (id_ k : Z) (r : list value) :
  c ∈ DATA_COLUMNS -> cell c k (carried id_ r) = cell c id_ r.
Proof.
  intros Hc. unfold DATA_COLUMNS in Hc. cbn in Hc.
  repeat (apply elem_of_cons in Hc as [->|Hc]; [reflexivity|]).
  inversion Hc.
Qed.

(** A row of 25 cells is carried as it is. *)
Lemma carried_full_row (id_ : Z) (r : list value) :
  length r = 25%nat -> carried id_ r = r.
Proof.
  intros Hlen.
  do 25 (destruct r as [|? r]; [discriminate Hlen|]).
  destruct r; [reflexivity | discriminate Hlen].
Qed.

(** ** Binding and affinity *)

(** Affinity neither makes nor removes a NULL: a cell is NULL exactly when
    the value bound for it is, that is when the Python value is [None] or
    a float NaN. *)
Lemma is_null_stored_as rt (c : string) (v : value) :
  is_null (stored_as rt c v) = is_null (bound v).
Proof.
  unfold stored_as, bound, apply_affinity, numeric_of_real.
  destruct v; try destruct (is_nan bits); destruct (affinity_at c);
    repeat case_match; reflexivity.
Qed.

Lemma bound_not_null (v : value) : is_null v = true -> is_null (bound v) = true.
Proof. by destruct v. Qed.

Lemma stored_as_null rt (c : string) : stored_as rt c VNull = VNull.
Proof. unfold stored_as. by destruct (affinity_at c). Qed.

(** A text is stored as it is in a column of TEXT affinity, and in any
    column when it does not read as a number. *)
Lemma stored_as_text rt (c s : string) :
  affinity_at c = TextAff \/ sqlite_number_of rt s = None ->
  stored_as rt c (VText s) = VText s.
Proof.
  unfold stored_as. cbn [bound]. intros [-> | Hs]; [reflexivity|].
  destruct (affinity_at c); cbn; by rewrite ?Hs.
Qed.

(** A column of REAL affinity stores the number a text holds, as a
    real. *)
Lemma stored_as_real_text rt (c s : string) (n : number) :
  affinity_at c = RealAff -> sqlite_number_of rt s = Some n ->
  stored_as rt c (VText s) =
  VReal (match n with NInt z => sqlite_real_of_int rt z | NReal bits => bits end).
Proof. unfold stored_as. cbn [bound]. intros -> Hs. cbn. rewrite Hs. by destruct n. Qed.

(** A column of TEXT affinity stores an integer as its decimal text. *)
Lemma stored_as_text_int rt (c : string) (z : Z) :
  affinity_at c = TextAff -> stored_as rt c (VInt z) = VText (pretty z).
Proof. unfold stored_as. cbn [bound]. by intros ->. Qed.

(** What is stored can be bound again. *)
Lemma bindable_stored_as rt (c : string) (v : value) :
  bindable v = true -> bindable (stored_as rt c v) = true.
Proof.
  unfold stored_as, bound, apply_affinity, numeric_of_real.
  destruct v; try destruct (is_nan bits); destruct (affinity_at c);
    intros Hv; repeat case_match; simplify_eq; cbn; done.
Qed.

(** ** The CRUD functions, statement by statement *)

Lemma execute_auto_dml rt (s : statement) (d : database) (fs : list bool)
    (out : list (option exn)) :
  is_dml s = true ->
  execute rt s (Connection d None fs out) =
  execute rt s (Connection d (Some d) fs out).
Proof. intros Hs. unfold execute, begin_implicit. by rewrite Hs. Qed.

(** A function that executes one writing statement on a fresh connection
    and commits: the statement's effect is what is left behind, whatever
    the code does after the commit. *)
Lemma write_then_commit {A} rt (s : statement) (k : cursor -> M A) (d : database) :
  is_dml s = true ->
  with_conn [] [] (cur <- execute rt s ;; commit ;;; k cur) d =
  if negb (forallb bindable (bound_params s)) then (Raise OverflowError, d)
  else match run rt s d with
       | Raise e => (Raise e, d)
       | Ok (cur, d') => with_conn [] [] (k cur) d'
       end.
Proof.
  intros Hs. unfold with_conn, get_conn, close, bind.
  rewrite execute_auto_dml by done.
  rewrite execute_txn by (by destruct s).
  destruct (negb _); [reflexivity|].
  change (fault_now []) with false. cbn [tail].
  destruct (run rt s d) as [[cur d']|e]; [|reflexivity].
  rewrite commit_txn. reflexivity.
Qed.

Lemma not_null_ok_map (f : string -> value) :
  not_null_ok (map f DATA_COLUMNS) = negb (is_null (f "name")).
Proof. unfold not_null_ok. cbn. by rewrite andb_true_r. Qed.

Lemma not_null_ok_stored_row rt (f : string -> value) :
  not_null_ok (stored_row rt f) = negb (is_null (bound (f "name"))).
Proof. unfold stored_row. by rewrite not_null_ok_map, is_null_stored_as. Qed.

Lemma stage_of_name_stage_name (t : stage) : stage_of_name (stage_name t) = Some t.
Proof. by destruct t. Qed.

Lemma set_table_get_table (t : stage) (d : database) :
  set_table t (get_table t d) d = d.
Proof. by destruct t, d. Qed.

Lemma get_table_set_table (t : stage) (x : gmap Z (list value)) (d : database) :
  get_table t (set_table t x d) = x.
Proof. by destruct t. Qed.

Lemma get_table_set_table_ne (t u : stage) (x : gmap Z (list value)) (d : database) :
  t <> u -> get_table t (set_table u x d) = get_table t d.
Proof. by destruct t, u. Qed.

Lemma run_insert_all rt (t : stage) (f : string -> value) (d : database) :
  run rt (Insert t ALL_COLUMNS (map f ALL_COLUMNS)) d =
  match insert_rowid rt (get_table t d) (bound (f "id")) with
  | Raise e => Raise e
  | Ok k =>
      if is_null (bound (f "name")) then Raise (IntegrityError NotNullFailed)
      else match get_table t d !! k with
           | Some _ => Raise (IntegrityError UniqueFailed)
           | None => Ok (Cursor [] 1 k,
                         set_table t (<[k := stored_row rt f]> (get_table t d)) d)
           end
  end.
Proof.
  unfold run.
  change (param_of ALL_COLUMNS (map f ALL_COLUMNS) "id") with (Some (f "id")).
  change (stored_row rt (fun c => default VNull
                           (param_of ALL_COLUMNS (map f ALL_COLUMNS) c)))
    with (stored_row rt f).
  rewrite not_null_ok_stored_row, negb_involutive. reflexivity.
Qed.

(** [add_full_record], outcome by outcome. *)
Lemma add_full_record_eq rt (t : stage) (data : gmap string value) (d : database) :
  add_full_record rt (stage_name t) data d =
  if negb (forallb bindable (map (dict_get data) ALL_COLUMNS))
  then (Raise OverflowError, d)
  else match insert_rowid rt (get_table t d) (bound (dict_get data "id")) with
       | Raise e => (Raise e, d)
       | Ok k =>
           if is_null (bound (dict_get data "name"))
           then (Raise (IntegrityError NotNullFailed), d)
           else match get_table t d !! k with
                | Some _ => (Raise (IntegrityError UniqueFailed), d)
                | None =>
                    (match getitem data "id" with
                     | Ok v => int_of rt v
                     | Raise e => Raise e
                     end,
                     set_table t (<[k := stored_row rt (dict_get data)]>
                                    (get_table t d)) d)
                end
       end.
Proof.
  unfold add_full_record. rewrite stage_of_name_stage_name.
  rewrite write_then_commit by done. cbn [bound_params].
  destruct (negb _); [reflexivity|].
  rewrite run_insert_all.
  destruct (insert_rowid _ _ _) as [k|e]; [|reflexivity].
  destruct (is_null _); [reflexivity|].
  destruct (get_table t d !! k); [reflexivity|].
  unfold with_conn, get_conn, close, bind, lift. cbn.
  by destruct (getitem data "id").
Qed.

(** The row [add_record] stores: the name and the quantity as their TEXT
    columns store them, nulls elsewhere. *)
Lemma stored_basic_row rt (name quantity : value) :
  stored_row rt (fun c => if String.eqb c "name" then name
                          else if String.eqb c "quantity" then quantity else VNull) =
  basic_row (stored_as rt "name" name) (stored_as rt "quantity" quantity).
Proof.
  unfold stored_row, basic_row, DATA_COLUMNS. cbn [map DATA_SCHEMA col_name].
  cbn [String.eqb Ascii.eqb Bool.eqb]. by rewrite !stored_as_null.
Qed.

(** [add_record], outcome by outcome. *)
Lemma add_record_eq rt (t : stage) (id_ : Z) (name quantity : value) (d : database) :
  add_record rt (stage_name t) id_ name quantity d =
  if negb (fits_int64 id_ && bindable name && bindable quantity)
  then (Raise OverflowError, d)
  else if is_null (bound name) then (Raise (IntegrityError NotNullFailed), d)
       else match get_table t d !! id_ with
            | Some _ => (Raise (IntegrityError UniqueFailed), d)
            | None => (Ok id_,
                       set_table t (<[id_ := basic_row (stored_as rt "name" name)
                                               (stored_as rt "quantity" quantity)]>
                                      (get_table t d)) d)
            end.
Proof.
  unfold add_record. rewrite stage_of_name_stage_name.
  rewrite write_then_commit by done. cbn [bound_params forallb bindable].
  rewrite andb_true_r, andb_assoc.
  destruct (negb _); [reflexivity|].
  unfold run.
  change (param_of ["id"; "name"; "quantity"] [VInt id_; name; quantity] "id")
    with (Some (VInt id_)).
  change (stored_row rt (fun c => default VNull
            (param_of ["id"; "name"; "quantity"] [VInt id_; name; quantity] c)))
    with (stored_row rt (fun c => if String.eqb c "name" then name
                                  else if String.eqb c "quantity" then quantity
                                  else VNull)).
  cbn [default from_option id insert_rowid bound].
  rewrite not_null_ok_stored_row. cbn [String.eqb Ascii.eqb Bool.eqb].
  rewrite negb_involutive, stored_basic_row.
  destruct (is_null (bound name)); [reflexivity|].
  by destruct (get_table t d !! id_).
Qed.

(** [update_full_record], outcome by outcome. *)
Lemma update_full_record_eq rt (t : stage) (id_ : Z) (data : gmap string value)
    (d : database) :
  update_full_record rt (stage_name t) id_ data d =
  if negb (forallb bindable (map (dict_get data) DATA_COLUMNS) && fits_int64 id_)
  then (Raise OverflowError, d)
  else match get_table t d !! id_ with
       | None => (Ok 0, d)
       | Some _ =>
           if is_null (bound (dict_get data "name"))
           then (Raise (IntegrityError NotNullFailed), d)
           else (Ok 1, set_table t (<[id_ := stored_row rt (dict_get data)]>
                                      (get_table t d)) d)
       end.
Proof.
  unfold update_full_record. rewrite stage_of_name_stage_name.
  change (filter (fun c => negb (String.eqb c "id")) ALL_COLUMNS) with DATA_COLUMNS.
  rewrite write_then_commit by done. cbn [bound_params].
  rewrite forallb_app. cbn [forallb bindable]. rewrite andb_true_r.
  destruct (negb _); [reflexivity|].
  unfold run.
  destruct (get_table t d !! id_) as [old|]; [|reflexivity].
  change (map (fun c => match param_of DATA_COLUMNS (map (dict_get data) DATA_COLUMNS) c
                        with
                        | Some v => stored_as rt c v
                        | None => cell c id_ old
                        end) DATA_COLUMNS)
    with (stored_row rt (dict_get data)).
  rewrite not_null_ok_stored_row, negb_involutive.
  by destruct (is_null _).
Qed.

(** [delete_record], outcome by outcome. *)
Lemma delete_record_eq rt (t : stage) (id_ : Z) (d : database) :
  delete_record rt (stage_name t) id_ d =
  if negb (fits_int64 id_) then (Raise OverflowError, d)
  else match get_table t d !! id_ with
       | None => (Ok 0, d)
       | Some _ => (Ok 1, set_table t (delete id_ (get_table t d)) d)
       end.
Proof.
  unfold delete_record. rewrite stage_of_name_stage_name.
  rewrite write_then_commit by done. cbn [bound_params forallb bindable].
  rewrite andb_true_r.
  destruct (negb _); [reflexivity|].
  unfold run. by destruct (get_table t d !! id_).
Qed.

(** ** The stage transfers *)

(** On a standard output that accepts the message of the [except] clause,
    a transfer that raises has written nothing. *)
Lemma transfer_raised_unchanged rt src dst fs out id_ d :
  print_ok out = true ->
  raised (transfer rt src dst fs out id_ d).1 = true ->
  (transfer rt src dst fs out id_ d).2 = d.
Proof.
  intros Hout. destruct (transfer rt src dst fs out id_ d) as [res d'] eqn:E.
  apply transfer_outcomes in E
    as [(-> & _)|(k & r & _ & _ & _ & _ & ->)]; [done|].
  unfold print_ok in Hout. by destruct (printed out).
Qed.

(** Without a row under the id, a transfer raises and writes nothing,
    whatever the storage and the standard output do. *)
Lemma transfer_absent_raises rt src dst fs out id_ d :
  get_table src d !! id_ = None ->
  raised (transfer rt src dst fs out id_ d).1 = true /\
  (transfer rt src dst fs out id_ d).2 = d.
Proof.
  intros Hnone.
  destruct (transfer rt src dst fs out id_ d) as [res d'] eqn:E.
  apply transfer_outcomes in E
    as [(-> & e & -> & _)|(k & r & Hr & _)]; [done|congruence].
Qed.

(** Up to its commit a transfer keeps the contract of the claim: a run
    that raises without the [print] after the commit having raised has
    left all three tables as they were. *)
Lemma transfer_raised_before_commit rt src dst fs out id_ d :
  raised (transfer rt src dst fs out id_ d).1 = true ->
  (transfer rt src dst fs out id_ d).2 = d \/
  (print_ok out = false /\
   exists k r, get_table src d !! id_ = Some r /\
               (transfer rt src dst fs out id_ d).2 = moved src dst id_ k r d).
Proof.
  destruct (transfer rt src dst fs out id_ d) as [res d'] eqn:E.
  apply transfer_outcomes in E
    as [(-> & _)|(k & r & Hr & _ & _ & -> & ->)]; [by left|].
  unfold print_ok. destruct (printed out); [discriminate|].
  intros _. right. split; [done|]. by exists k, r.
Qed.

(** C1. The claim fails for a transfer whose [print] after the commit
    raises.  [reserve] holds a row under id 1 and the standard output
    cannot encode the message: the row is moved to [offering] and
    committed, the [print] that follows raises inside the [try], the
    [except] clause has nothing left to roll back, and the call raises.
    An error is reported and the row is gone from the source and present
    in the destination.  The same happens in [move_offering_to_deal]. *)
Theorem transfer_raises_after_commit rt :
  move_reserve_to_offering rt [] ascii_stdout 1 reserve_with_site_a =
    (Raise UnicodeEncodeError, offering_with_site_a) /\
  move_offering_to_deal rt [] ascii_stdout 1 offering_with_site_a =
    (Raise UnicodeEncodeError, deal_with_site_a).
Proof. split; vm_compute; reflexivity. Qed.

(** The same run on a standard output that takes the message returns the
    new id; and when the failure comes before the commit (here a storage
    fault at the DELETE) the row stays where it was, also on the standard
    output that raises. *)
Example transfer_other_runs rt :
  move_reserve_to_offering rt [] [] 1 reserve_with_site_a =
    (Ok 1, offering_with_site_a) /\
  move_reserve_to_offering rt [false; false; false; true] ascii_stdout 1
    reserve_with_site_a = (Raise UnicodeEncodeError, reserve_with_site_a) /\
  move_reserve_to_offering rt [false; false; false; true] [] 1
    reserve_with_site_a = (Raise OperationalError, reserve_with_site_a).
Proof. repeat split; vm_compute; reflexivity. Qed.

Lemma transfer_ok_inv rt src dst fs out id_ d k d' r :
  get_table src d !! id_ = Some r ->
  transfer rt src dst fs out id_ d = (Ok k, d') ->
  new_rowid (sqlite_randomness rt) (get_table dst d) = Some k /\
  get_table dst d !! k = None /\
  not_null_ok (carried id_ r) = true /\
  d' = moved src dst id_ k r d.
Proof.
  intros Hr E.
  apply transfer_inv in E as (r' & Hr' & Hk & Hnn & ->).
  rewrite Hr in Hr'. injection Hr' as <-.
  eauto using new_rowid_fresh.
Qed.

(** C2. When the source table holds a row under the given id and the
    transfer returns, the row is gone from the source, the destination
    has gained exactly one row, stored under the returned id, which was
    unused before, and that row agrees with the source row in every
    non-id column, nulls included.  Such a return does happen: with a
    64-bit id, no storage fault, a standard output that accepts the
    message, a source row of bindable cells with a name, and a rowid left
    to allocate, the call returns that rowid. *)
Theorem transfer_moves_row rt fs out id_ d r k :
  (reserve d !! id_ = Some r ->
   forall d', move_reserve_to_offering rt fs out id_ d = (Ok k, d') ->
     reserve d' = delete id_ (reserve d) /\
     offering d !! k = None /\
     offering d' = <[k := carried id_ r]> (offering d) /\
     forall c, c ∈ DATA_COLUMNS -> cell c k (carried id_ r) = cell c id_ r) /\
  (offering d !! id_ = Some r ->
   forall d', move_offering_to_deal rt fs out id_ d = (Ok k, d') ->
     offering d' = delete id_ (offering d) /\
     deal d !! k = None /\
     deal d' = <[k := carried id_ r]> (deal d) /\
     forall c, c ∈ DATA_COLUMNS -> cell c k (carried id_ r) = cell c id_ r) /\
  (reserve d !! id_ = Some r ->
   fault_free 5 fs = true -> print_ok out = true -> fits_int64 id_ = true ->
   forallb bindable (carried id_ r) = true ->
   not_null_ok (carried id_ r) = true ->
   new_rowid (sqlite_randomness rt) (offering d) = Some k ->
   (move_reserve_to_offering rt fs out id_ d).1 = Ok k) /\
  (offering d !! id_ = Some r ->
   fault_free 5 fs = true -> print_ok out = true -> fits_int64 id_ = true ->
   forallb bindable (carried id_ r) = true ->
   not_null_ok (carried id_ r) = true ->
   new_rowid (sqlite_randomness rt) (deal d) = Some k ->
   (move_offering_to_deal rt fs out id_ d).1 = Ok k).
Proof.
  rewrite move_reserve_to_offering_transfer, move_offering_to_deal_transfer.
  split; [|split; [|split]].
  - intros Hr d' E.
    destruct (transfer_ok_inv rt Reserve Offering fs out id_ d k d' r Hr E)
      as (_ & Hfresh & _ & ->).
    repeat split; try done. intros c Hc. by apply carried_cell.
  - intros Hr d' E.
    destruct (transfer_ok_inv rt Offering Deal fs out id_ d k d' r Hr E)
      as (_ & Hfresh & _ & ->).
    repeat split; try done. intros c Hc. by apply carried_cell.
  - intros Hr Hf Hout Hid Hb Hnn Hk.
    by rewrite (transfer_ok rt Reserve Offering fs out id_ d r k Hf Hout Hid Hr Hb Hnn Hk).
  - intros Hr Hf Hout Hid Hb Hnn Hk.
    by rewrite (transfer_ok rt Offering Deal fs out id_ d r k Hf Hout Hid Hr Hb Hnn Hk).
Qed.

(** The scenario of the spec: the row stored under id 1 in [reserve] is
    moved to the empty [offering]. *)
Lemma scenario_transfer rt :
  move_reserve_to_offering rt [] [] 1 reserve_with_site_a =
  (Ok 1, offering_with_site_a).
Proof. vm_compute. reflexivity. Qed.

Lemma scenario_second_transfer rt :
  move_offering_to_deal rt [] [] 1 offering_with_site_a = (Ok 1, deal_with_site_a).
Proof. vm_compute. reflexivity. Qed.

Lemma transfer_moves_row_witness :
  (reserve reserve_with_site_a !! 1 = Some site_a /\
   move_reserve_to_offering rt0 [] [] 1 reserve_with_site_a =
     (Ok 1, offering_with_site_a) /\
   reserve offering_with_site_a = delete 1 (reserve reserve_with_site_a) /\
   offering reserve_with_site_a !! 1 = None /\
   offering offering_with_site_a =
     <[1 := carried 1 site_a]> (offering reserve_with_site_a) /\
   (forall c, c ∈ DATA_COLUMNS -> cell c 1 (carried 1 site_a) = cell c 1 site_a)) /\
  (offering offering_with_site_a !! 1 = Some site_a /\
   move_offering_to_deal rt0 [] [] 1 offering_with_site_a =
     (Ok 1, deal_with_site_a) /\
   offering deal_with_site_a = delete 1 (offering offering_with_site_a) /\
   deal offering_with_site_a !! 1 = None /\
   deal deal_with_site_a =
     <[1 := carried 1 site_a]> (deal offering_with_site_a) /\
   (forall c, c ∈ DATA_COLUMNS -> cell c 1 (carried 1 site_a) = cell c 1 site_a)) /\
  (fault_free 5 [] = true /\ print_ok [] = true /\ fits_int64 1 = true /\
   forallb bindable (carried 1 site_a) = true /\
   not_null_ok (carried 1 site_a) = true /\
   new_rowid (sqlite_randomness rt0) (offering reserve_with_site_a) = Some 1 /\
   (move_reserve_to_offering rt0 [] [] 1 reserve_with_site_a).1 = Ok 1) /\
  (new_rowid (sqlite_randomness rt0) (deal offering_with_site_a) = Some 1 /\
   (move_offering_to_deal rt0 [] [] 1 offering_with_site_a).1 = Ok 1).
Proof.
  assert (Hr : reserve reserve_with_site_a !! 1 = Some site_a) by reflexivity.
  assert (Ho : offering offering_with_site_a !! 1 = Some site_a) by reflexivity.
  pose proof (scenario_transfer rt0) as E.
  pose proof (scenario_second_transfer rt0) as E'.
  destruct (transfer_moves_row rt0 [] [] 1 reserve_with_site_a site_a 1)
    as (Hpost & _ & Hruns & _).
  destruct (transfer_moves_row rt0 [] [] 1 offering_with_site_a site_a 1)
    as (_ & Hpost' & _ & Hruns').
  split; [|split; [|split]].
  - split; [exact Hr|]. split; [exact E|]. exact (Hpost Hr _ E).
  - split; [exact Ho|]. split; [exact E'|]. exact (Hpost' Ho _ E').
  - do 6 (split; [reflexivity|]).
    exact (Hruns Hr eq_refl eq_refl eq_refl eq_refl eq_refl eq_refl).
  - split; [reflexivity|].
    exact (Hruns' Ho eq_refl eq_refl eq_refl eq_refl eq_refl eq_refl).
Defined.

(** C3, as stated, fails: [reserve] holds a row under id 1, [offering] is
    empty, and the transfer of id 1 returns 1, the source id itself. *)
Lemma transfer_returns_source_id :
  offering reserve_with_site_a = ∅ /\
  move_reserve_to_offering rt0 [] [] 1 reserve_with_site_a =
    (Ok 1, offering_with_site_a).
Proof. split; [reflexivity | vm_compute; reflexivity]. Qed.

(** C3, amended. The id a transfer returns is the rowid SQLite allocates
    in the destination table: a function of the destination table (and of
    SQLite's random draws) alone, in which the source id does not occur,
    and an id the destination did not hold.  So it differs from the
    source id whenever the destination already holds a row under the
    source id. *)
Theorem transfer_id_fresh_in_destination rt fs out id_ d k d' :
  (move_reserve_to_offering rt fs out id_ d = (Ok k, d') ->
     new_rowid (sqlite_randomness rt) (offering d) = Some k /\
     offering d !! k = None /\
     (is_Some (offering d !! id_) -> k <> id_)) /\
  (move_offering_to_deal rt fs out id_ d = (Ok k, d') ->
     new_rowid (sqlite_randomness rt) (deal d) = Some k /\
     deal d !! k = None /\
     (is_Some (deal d !! id_) -> k <> id_)).
Proof.
  rewrite move_reserve_to_offering_transfer, move_offering_to_deal_transfer.
  split; intros E;
    apply transfer_inv in E as (r & _ & Hk & _);
    pose proof (new_rowid_fresh _ _ _ Hk) as Hfresh;
    (split; [exact Hk|]; split; [exact Hfresh|]);
    intros [x Hx] ->; cbn in *; congruence.
Qed.

(** With id 1 taken in the destination, the transfer of the source's id 1
    returns 2. *)
Lemma transfer_id_fresh_in_destination_witness :
  (move_reserve_to_offering rt0 [] [] 1 site_a_twice =
     (Ok 2, Database ∅ (<[2 := site_a]> {[ 1 := site_a ]}) ∅) /\
   new_rowid (sqlite_randomness rt0) (offering site_a_twice) = Some 2 /\
   offering site_a_twice !! 2 = None /\
   (is_Some (offering site_a_twice !! 1) -> 2 <> 1)) /\
  (move_offering_to_deal rt0 [] [] 1 offering_deal_site_a =
     (Ok 2, Database ∅ ∅ (<[2 := site_a]> {[ 1 := site_a ]})) /\
   new_rowid (sqlite_randomness rt0) (deal offering_deal_site_a) = Some 2 /\
   deal offering_deal_site_a !! 2 = None /\
   (is_Some (deal offering_deal_site_a !! 1) -> 2 <> 1)).
Proof.
  assert (E : move_reserve_to_offering rt0 [] [] 1 site_a_twice =
              (Ok 2, Database ∅ (<[2 := site_a]> {[ 1 := site_a ]}) ∅))
    by (vm_compute; reflexivity).
  assert (E' : move_offering_to_deal rt0 [] [] 1 offering_deal_site_a =
               (Ok 2, Database ∅ ∅ (<[2 := site_a]> {[ 1 := site_a ]})))
    by (vm_compute; reflexivity).
  split.
  - split; [exact E|].
    exact (proj1 (transfer_id_fresh_in_destination rt0 [] [] 1 site_a_twice 2 _) E).
  - split; [exact E'|].
    exact (proj2 (transfer_id_fresh_in_destination rt0 [] [] 1 offering_deal_site_a 2 _) E').
Defined.

(** C9. Whether it returns or raises, [move_reserve_to_offering] leaves
    the [deal] table as it was and [move_offering_to_deal] leaves the
    [reserve] table as it was. *)
Theorem transfer_keeps_third_table rt fs out id_ d :
  deal (move_reserve_to_offering rt fs out id_ d).2 = deal d /\
  reserve (move_offering_to_deal rt fs out id_ d).2 = reserve d.
Proof.
  rewrite move_reserve_to_offering_transfer, move_offering_to_deal_transfer.
  split.
  - by destruct (transfer_effect rt Reserve Offering fs out id_ d)
      as [->|(k & r & _ & _ & _ & ->)].
  - by destruct (transfer_effect rt Offering Deal fs out id_ d)
      as [->|(k & r & _ & _ & _ & ->)].
Qed.

(** ** Reported errors and persisted state *)

Lemma stage_of_name_Some (table : string) (t : stage) :
  stage_of_name table = Some t -> table = stage_name t.
Proof.
  unfold stage_of_name.
  destruct (String.eqb table "reserve") eqn:E1;
    [apply String.eqb_eq in E1; by intros [= <-]|].
  destruct (String.eqb table "offering") eqn:E2;
    [apply String.eqb_eq in E2; by intros [= <-]|].
  destruct (String.eqb table "deal") eqn:E3;
    [apply String.eqb_eq in E3; by intros [= <-]|].
  discriminate.
Qed.

Lemma run_read_only rt (s : statement) (d : database) cur d' :
  is_dml s = false -> run rt s d = Ok (cur, d') -> d' = d.
Proof.
  destruct s; try discriminate; intros _; unfold run, plain;
    repeat case_match; congruence.
Qed.

Lemma execute_read_only rt (s : statement) (d : database) r c :
  is_dml s = false -> s <> Begin ->
  execute rt s (Connection d None [] []) = (r, c) -> disk c = d.
Proof.
  intros Hs Hb. unfold execute, begin_implicit, next_fault. rewrite Hs.
  cbn [faults disk txn stdout]. change (fault_now []) with false.
  destruct (negb _); [by intros [= <- <-]|].
  destruct s; try congruence; try discriminate;
    match goal with |- context [run rt ?s ?d] =>
      destruct (run rt s d) as [[cur d']|e] eqn:Hrun end;
    intros [= <- <-]; try reflexivity;
    apply run_read_only in Hrun; by subst.
Qed.

(** [get_record] and [list_table] never write. *)
Lemma get_record_unchanged rt table id_ cols d :
  (get_record rt table id_ cols d).2 = d.
Proof.
  unfold get_record. destruct (stage_of_name table) as [t|]; [|reflexivity].
  unfold with_conn, get_conn, close, bind.
  destruct (execute rt _ _) as [[cur|e] c] eqn:E;
    apply execute_read_only in E; try done.
  unfold raise, ret. by destruct (fetchone cur).
Qed.

Lemma list_table_unchanged rt table cols d :
  (list_table rt table cols d).2 = d.
Proof.
  unfold list_table. destruct (stage_of_name table) as [t|]; [|reflexivity].
  unfold with_conn, get_conn, close, bind.
  destruct (execute rt _ _) as [[cur|e] c] eqn:E;
    apply execute_read_only in E; done.
Qed.

(** The other CRUD functions keep the contract "an error reported means
    nothing written". *)
Lemma add_record_raised_unchanged rt table id_ name quantity d :
  raised (add_record rt table id_ name quantity d).1 = true ->
  (add_record rt table id_ name quantity d).2 = d.
Proof.
  destruct (stage_of_name table) as [t|] eqn:E.
  - apply stage_of_name_Some in E as ->. rewrite add_record_eq.
    repeat case_match; cbn; done.
  - unfold add_record. by rewrite E.
Qed.

Lemma update_full_record_raised_unchanged rt table id_ data d :
  raised (update_full_record rt table id_ data d).1 = true ->
  (update_full_record rt table id_ data d).2 = d.
Proof.
  destruct (stage_of_name table) as [t|] eqn:E.
  - apply stage_of_name_Some in E as ->. rewrite update_full_record_eq.
    repeat case_match; cbn; done.
  - unfold update_full_record. by rewrite E.
Qed.

Lemma delete_record_raised_unchanged rt table id_ d :
  raised (delete_record rt table id_ d).1 = true ->
  (delete_record rt table id_ d).2 = d.
Proof.
  destruct (stage_of_name table) as [t|] eqn:E.
  - apply stage_of_name_Some in E as ->. rewrite delete_record_eq.
    repeat case_match; cbn; done.
  - unfold delete_record. by rewrite E.
Qed.

(** What [add_full_record] does with a record that has a name but no
    ["id"] key: SQLite allocates a rowid, the row is committed, and then
    [int(data["id"])] raises [KeyError]. *)
Lemma add_full_record_without_id rt (t : stage) (data : gmap string value)
    (d : database) (k : Z) :
  data !! "id" = None ->
  forallb bindable (map (dict_get data) ALL_COLUMNS) = true ->
  is_null (bound (dict_get data "name")) = false ->
  new_rowid (sqlite_randomness rt) (get_table t d) = Some k ->
  add_full_record rt (stage_name t) data d =
  (Raise KeyError,
   set_table t (<[k := stored_row rt (dict_get data)]> (get_table t d)) d).
Proof.
  intros Hid Hb Hn Hk. rewrite add_full_record_eq, Hb. cbn [negb].
  unfold dict_get at 1, getitem. rewrite Hid.
  cbn [default from_option bound insert_rowid].
  rewrite Hk, Hn, (new_rowid_fresh _ _ _ Hk). reflexivity.
Qed.

(** The same happens with an id that SQLite accepts and Python's [int]
    does not (the text ["5.0"], say): the row is committed under the rowid
    SQLite made of it, and [int] raises. *)
Lemma add_full_record_unparsed_id rt (t : stage) (data : gmap string value)
    (d : database) (s : string) (z : Z) (e : exn) :
  data !! "id" = Some (VText s) ->
  sqlite_integer_of rt (VText s) = Some z ->
  fits_int64 z = true ->
  python_int rt (VText s) = Raise e ->
  forallb bindable (map (dict_get data) ALL_COLUMNS) = true ->
  is_null (bound (dict_get data "name")) = false ->
  get_table t d !! z = None ->
  add_full_record rt (stage_name t) data d =
  (Raise e,
   set_table t (<[z := stored_row rt (dict_get data)]> (get_table t d)) d).
Proof.
  intros Hid Hsql Hz Hpy Hb Hn Hfree. rewrite add_full_record_eq, Hb. cbn [negb].
  unfold dict_get at 1, getitem. rewrite Hid.
  cbn [default from_option id bound insert_rowid int_of].
  by rewrite Hsql, Hz, Hn, Hfree, Hpy.
Qed.

(** C4. The claim fails for [add_full_record]: on the empty schema, the
    record [{"name": "Site A"}], which has no ["id"] key, is inserted under
    rowid 1 and committed, and the call then raises [KeyError].  An error
    is reported and the [reserve] table has a new row. *)
Theorem add_full_record_raises_after_commit rt :
  add_full_record rt "reserve" record_without_id empty_db =
  (Raise KeyError,
   Database {[ 1 := VText "Site A" :: repeat VNull 24 ]} ∅ ∅).
Proof. vm_compute. reflexivity. Qed.

(** With ["id"] present but [None] the row is committed as well, and
    [int(None)] raises [TypeError]. *)
Example add_full_record_null_id rt :
  add_full_record rt "reserve" record_null_id empty_db =
  (Raise TypeError,
   Database {[ 1 := VText "Site A" :: repeat VNull 24 ]} ∅ ∅).
Proof. vm_compute. reflexivity. Qed.

(** ** Listing *)

#[local] Instance rowid_le_total : Total rowid_le.
Proof. intros p q. unfold rowid_le. lia. Qed.

(** [ORDER BY id]: the rows of the table, each once, by ascending id. *)
Lemma scan_sorted (tb : gmap Z (list value)) :
  Sorted rowid_le (scan tb) /\ scan tb ≡ₚ map_to_list tb.
Proof.
  split; [apply (Sorted_merge_sort rowid_le) | apply merge_sort_Permutation].
Qed.

Lemma list_table_rows rt (t : stage) (cols : list string) (d : database) :
  select_list_ok cols = true ->
  list_table rt (stage_name t) (Some cols) d =
  (Ok (map (fun p : Z * list value => project cols p.1 p.2)
           (scan (get_table t d))), d).
Proof.
  intros Hc. unfold list_table. rewrite stage_of_name_stage_name.
  unfold with_conn, get_conn, close, bind, execute, begin_implicit, next_fault, run.
  cbn. by rewrite Hc.
Qed.

(** C5. Called without a column list, [list_table] selects all 26 columns
    of [ALL_COLUMNS]: every row it returns is the id followed by the 25
    other cells.  The rows come in ascending id order, but the default is
    the full column set, not a summary subset. *)
Theorem list_table_default_is_all_columns rt (t : stage) (d : database) :
  LIST_DEFAULT_COLUMNS = ALL_COLUMNS /\
  length LIST_DEFAULT_COLUMNS = 26%nat /\
  list_table rt (stage_name t) None d =
  (Ok (map (fun p : Z * list value => VInt p.1 :: carried p.1 p.2)
           (scan (get_table t d))), d).
Proof.
  split; [reflexivity|]. split; [reflexivity|].
  unfold list_table. rewrite stage_of_name_stage_name.
  unfold with_conn, get_conn, close, bind, execute, begin_implicit, next_fault, run.
  reflexivity.
Qed.

(** On the scenario's [reserve] table the default listing is the whole
    row: 26 values. *)
Example list_table_default_site_a rt :
  list_table rt "reserve" None reserve_with_site_a =
  (Ok [VInt 1 :: site_a], reserve_with_site_a).
Proof. vm_compute. reflexivity. Qed.

(** ** Inserting, updating, deleting *)




(** C7, as stated, fails: the row of id 1 exists, the dict has no name, and
    [update_full_record] raises instead of returning 1; the row keeps its
    name. *)
Lemma update_without_name_raises :
  reserve reserve_with_site_a !! 1 = Some site_a /\
  update_full_record rt0 "reserve" 1 ∅ reserve_with_site_a =
  (Raise (IntegrityError NotNullFailed), reserve_with_site_a).
Proof. split; [reflexivity | vm_compute; reflexivity]. Qed.

Lemma cell_stored_row rt (f : string -> value) (c : string) (k : Z) :
  c ∈ DATA_COLUMNS -> cell c k (stored_row rt f) = stored_as rt c (f c).
Proof.
  intros Hc. unfold DATA_COLUMNS in Hc. cbn in Hc.
  repeat (apply elem_of_cons in Hc as [->|Hc]; [reflexivity|]).
  inversion Hc.
Qed.

(** C7, amended. For a 64-bit id and a dict of bindable values:
    when the table holds no row under the id, [update_full_record]
    returns 0 and writes nothing; when it holds one and the dict gives a
    name that is not null (neither [None] nor a float NaN), the row is
    replaced, under the same id, by the row whose every non-id cell is
    what the column stores for the dict's value: null when the column is
    absent from the dict, the text itself for a text in a TEXT column or a
    text that is no number, the value converted by the column's affinity
    otherwise; no other row changes, and the call returns 1; when it holds
    one and the name is null, the call raises the [IntegrityError] of the
    NOT NULL constraint and writes nothing. *)
Theorem update_full_record_overwrites rt (t : stage) (id_ : Z)
    (data : gmap string value) (d : database) :
  fits_int64 id_ = true ->
  forallb bindable (map (dict_get data) DATA_COLUMNS) = true ->
  (get_table t d !! id_ = None ->
     update_full_record rt (stage_name t) id_ data d = (Ok 0, d)) /\
  (is_Some (get_table t d !! id_) ->
   is_null (bound (dict_get data "name")) = false ->
     update_full_record rt (stage_name t) id_ data d =
       (Ok 1, set_table t (<[id_ := stored_row rt (dict_get data)]>
                             (get_table t d)) d) /\
     (forall c, c ∈ DATA_COLUMNS ->
        cell c id_ (stored_row rt (dict_get data)) =
          stored_as rt c (default VNull (data !! c))) /\
     (forall c, c ∈ DATA_COLUMNS -> data !! c = None ->
        cell c id_ (stored_row rt (dict_get data)) = VNull) /\
     (forall c s, c ∈ DATA_COLUMNS -> data !! c = Some (VText s) ->
        affinity_at c = TextAff \/ sqlite_number_of rt s = None ->
        cell c id_ (stored_row rt (dict_get data)) = VText s)) /\
  (is_Some (get_table t d !! id_) ->
   is_null (bound (dict_get data "name")) = true ->
     update_full_record rt (stage_name t) id_ data d =
       (Raise (IntegrityError NotNullFailed), d)).
Proof.
  intros Hid Hb. split; [|split].
  - intros Hnone. by rewrite update_full_record_eq, Hb, Hid, Hnone.
  - intros [old Hold] Hn. split; [|split; [|split]].
    + by rewrite update_full_record_eq, Hb, Hid, Hold, Hn.
    + intros c Hc. by rewrite cell_stored_row.
    + intros c Hc Hnone. rewrite cell_stored_row by done.
      unfold dict_get. rewrite Hnone. apply stored_as_null.
    + intros c s Hc Hs Hkeep. rewrite cell_stored_row by done.
      unfold dict_get. rewrite Hs. by apply stored_as_text.
  - intros [old Hold] Hn. by rewrite update_full_record_eq, Hb, Hid, Hold, Hn.
Qed.

(** An update that renames the row; an update whose area is the text
    ["12.5"] and whose quantity is the integer 5: the REAL column stores
    the number 12.5 and the TEXT column the text ["5"]; an update with no
    name. *)
Lemma update_full_record_overwrites_witness :
  fits_int64 1 = true /\
  forallb bindable (map (dict_get rename_record) DATA_COLUMNS) = true /\
  reserve reserve_with_site_a !! 2 = None /\
  update_full_record rt0 "reserve" 2 rename_record reserve_with_site_a =
    (Ok 0, reserve_with_site_a) /\
  is_Some (reserve reserve_with_site_a !! 1) /\
  is_null (bound (dict_get rename_record "name")) = false /\
  update_full_record rt0 "reserve" 1 rename_record reserve_with_site_a =
    (Ok 1, Database {[ 1 := VText "Site C" :: VText "North" :: repeat VNull 23 ]}
             ∅ ∅) /\
  forallb bindable (map (dict_get measured_record) DATA_COLUMNS) = true /\
  is_null (bound (dict_get measured_record "name")) = false /\
  update_full_record rt_decimal "reserve" 1 measured_record reserve_with_site_a =
    (Ok 1, Database {[ 1 := VText "Site C" :: VNull :: VNull :: VReal REAL_12_5 ::
                            VText "5" :: repeat VNull 20 ]} ∅ ∅) /\
  is_null (bound (dict_get (∅ : gmap string value) "name")) = true /\
  update_full_record rt0 "reserve" 1 ∅ reserve_with_site_a =
    (Raise (IntegrityError NotNullFailed), reserve_with_site_a).
Proof.
  assert (Hin : is_Some (reserve reserve_with_site_a !! 1))
    by (eexists; reflexivity).
  assert (Hnull : is_null (bound (dict_get (∅ : gmap string value) "name")) = true)
    by reflexivity.
  destruct (update_full_record_overwrites rt0 Reserve 2 rename_record
              reserve_with_site_a eq_refl eq_refl) as (Habsent & _ & _).
  destruct (update_full_record_overwrites rt0 Reserve 1 rename_record
              reserve_with_site_a eq_refl eq_refl) as (_ & Hpresent & _).
  destruct (update_full_record_overwrites rt_decimal Reserve 1 measured_record
              reserve_with_site_a eq_refl eq_refl) as (_ & Hmeasured & _).
  assert (Hbind : forallb bindable
                    (map (dict_get (∅ : gmap string value)) DATA_COLUMNS) = true)
    by reflexivity.
  destruct (update_full_record_overwrites rt0 Reserve 1 ∅
              reserve_with_site_a eq_refl Hbind) as (_ & _ & Hnameless).
  destruct (Hpresent Hin eq_refl) as [Hupd _].
  destruct (Hmeasured Hin eq_refl) as [Hupd' _].
  split; [reflexivity|]. split; [reflexivity|]. split; [reflexivity|].
  split; [exact (Habsent eq_refl)|]. split; [exact Hin|]. split; [reflexivity|].
  split; [cbn [stage_name] in Hupd; rewrite Hupd; vm_compute; reflexivity|].
  split; [reflexivity|]. split; [reflexivity|].
  split; [cbn [stage_name] in Hupd'; rewrite Hupd'; vm_compute; reflexivity|].
  split; [exact Hnull | exact (Hnameless Hin Hnull)].
Defined.




(** ** The name of a row *)

Lemma cell_name_map (f : string -> value) (k : Z) :
  cell "name" k (map f DATA_COLUMNS) = f "name".
Proof. reflexivity. Qed.

Lemma not_null_ok_carried (id_ : Z) (r : list value) :
  not_null_ok (carried id_ r) = negb (is_null (cell "name" id_ r)).
Proof.
  change (carried id_ r) with (map (fun c => cell c id_ r) DATA_COLUMNS).
  apply not_null_ok_map.
Qed.

Lemma names_present_empty : names_present empty_db.
Proof. intros t k r. destruct t; cbn; by rewrite lookup_empty. Qed.

Lemma names_present_insert (t : stage) (k : Z) (r : list value) (d : database) :
  names_present d ->
  is_null (cell "name" k r) = false ->
  names_present (set_table t (<[k := r]> (get_table t d)) d).
Proof.
  intros Hd Hr u j x. destruct (decide (u = t)) as [->|Hne].
  - rewrite get_table_set_table. destruct (decide (k = j)) as [->|Hkj].
    + rewrite lookup_insert_eq. by intros [= <-].
    + rewrite lookup_insert_ne by done. apply Hd.
  - rewrite get_table_set_table_ne by done. apply Hd.
Qed.

Lemma names_present_delete (t : stage) (k : Z) (d : database) :
  names_present d ->
  names_present (set_table t (delete k (get_table t d)) d).
Proof.
  intros Hd u j x. destruct (decide (u = t)) as [->|Hne].
  - rewrite get_table_set_table. intros Hx.
    apply lookup_delete_Some in Hx as [_ Hx]. by apply Hd in Hx.
  - rewrite get_table_set_table_ne by done. apply Hd.
Qed.

Lemma transfer_names_present rt src dst fs out id_ d :
  names_present d -> names_present (transfer rt src dst fs out id_ d).2.
Proof.
  intros Hd.
  destruct (transfer_effect rt src dst fs out id_ d)
    as [->|(k & r & Hr & _ & Hnn & ->)]; [done|].
  unfold moved. apply names_present_delete, names_present_insert; [done|].
  rewrite carried_cell by (unfold DATA_COLUMNS; cbn; left).
  rewrite not_null_ok_carried in Hnn. by apply negb_true_iff in Hnn.
Qed.

Lemma step_names_present (d d' : database) :
  step d d' -> names_present d -> names_present d'.
Proof.
  intros Hstep Hd. destruct Hstep.
  - by rewrite get_record_unchanged.
  - destruct (stage_of_name table) as [t|] eqn:E.
    + apply stage_of_name_Some in E as ->. rewrite add_full_record_eq.
      repeat case_match; cbn [snd]; try done;
        (apply names_present_insert; [done|]);
        by rewrite cell_stored_row, is_null_stored_as
          by (apply list_elem_of_In; cbn; tauto).
    + unfold add_full_record. by rewrite E.
  - destruct (stage_of_name table) as [t|] eqn:E.
    + apply stage_of_name_Some in E as ->. rewrite add_record_eq.
      repeat case_match; cbn [snd]; try done;
        (apply names_present_insert; [done|]); unfold basic_row;
        rewrite cell_name_map; cbn [String.eqb Ascii.eqb Bool.eqb];
        by rewrite is_null_stored_as.
    + unfold add_record. by rewrite E.
  - destruct (stage_of_name table) as [t|] eqn:E.
    + apply stage_of_name_Some in E as ->. rewrite update_full_record_eq.
      repeat case_match; cbn [snd]; try done;
        (apply names_present_insert; [done|]);
        by rewrite cell_stored_row, is_null_stored_as
          by (apply list_elem_of_In; cbn; tauto).
    + unfold update_full_record. by rewrite E.
  - destruct (stage_of_name table) as [t|] eqn:E.
    + apply stage_of_name_Some in E as ->. rewrite delete_record_eq.
      repeat case_match; cbn [snd]; try done;
        by apply names_present_delete.
    + unfold delete_record. by rewrite E.
  - by rewrite list_table_unchanged.
  - rewrite move_reserve_to_offering_transfer. by apply transfer_names_present.
  - rewrite move_offering_to_deal_transfer. by apply transfer_names_present.
Qed.

Lemma reachable_names_present (d : database) : reachable d -> names_present d.
Proof.
  induction 1 as [|d d' _ IH Hstep].
  - apply names_present_empty.
  - by apply (step_names_present d d').
Qed.

Lemma transfer_copies_name rt src dst fs out id_ d r k d' :
  get_table src d !! id_ = Some r ->
  transfer rt src dst fs out id_ d = (Ok k, d') ->
  src <> dst ->
  exists r', get_table dst d' !! k = Some r' /\
             cell "name" k r' = cell "name" id_ r /\
             is_null (cell "name" k r') = false.
Proof.
  intros Hr E Hne.
  destruct (transfer_ok_inv _ _ _ _ _ _ _ _ _ _ Hr E) as (_ & _ & Hnn & ->).
  exists (carried id_ r). unfold moved.
  rewrite get_table_set_table_ne by done.
  rewrite get_table_set_table, lookup_insert_eq.
  rewrite carried_cell by (unfold DATA_COLUMNS; cbn; left).
  rewrite not_null_ok_carried in Hnn. apply negb_true_iff in Hnn. done.
Qed.

(** C10. In every state that the data layer reaches from the schema
    [init_db] creates, every row of every table has a non-null name.
    The functions keep it so: an insert of a record with a null or missing
    name raises and writes nothing ([IntegrityError] for the NOT NULL
    constraint when the values bind and SQLite has a rowid for the
    record), an
    update of an existing row to a null name does the same, and a transfer
    that returns has copied the source row's non-null name to the new
    row. *)
Theorem name_is_never_null :
  (forall d, reachable d -> names_present d) /\
  (forall rt t data d,
     is_null (dict_get data "name") = true ->
     raised (add_full_record rt (stage_name t) data d).1 = true /\
     (add_full_record rt (stage_name t) data d).2 = d /\
     (forall z, insert_rowid rt (get_table t d) (bound (dict_get data "id")) = Ok z ->
        forallb bindable (map (dict_get data) ALL_COLUMNS) = true ->
        (add_full_record rt (stage_name t) data d).1 =
          Raise (IntegrityError NotNullFailed))) /\
  (forall rt t id_ quantity d,
     raised (add_record rt (stage_name t) id_ VNull quantity d).1 = true /\
     (add_record rt (stage_name t) id_ VNull quantity d).2 = d /\
     (fits_int64 id_ && bindable quantity = true ->
        (add_record rt (stage_name t) id_ VNull quantity d).1 =
          Raise (IntegrityError NotNullFailed))) /\
  (forall rt t id_ data d,
     is_Some (get_table t d !! id_) ->
     is_null (dict_get data "name") = true ->
     raised (update_full_record rt (stage_name t) id_ data d).1 = true /\
     (update_full_record rt (stage_name t) id_ data d).2 = d /\
     (fits_int64 id_ = true ->
      forallb bindable (map (dict_get data) DATA_COLUMNS) = true ->
        (update_full_record rt (stage_name t) id_ data d).1 =
          Raise (IntegrityError NotNullFailed))) /\
  (forall rt fs out id_ d r k d',
     reserve d !! id_ = Some r ->
     move_reserve_to_offering rt fs out id_ d = (Ok k, d') ->
     exists r', offering d' !! k = Some r' /\
                cell "name" k r' = cell "name" id_ r /\
                is_null (cell "name" k r') = false) /\
  (forall rt fs out id_ d r k d',
     offering d !! id_ = Some r ->
     move_offering_to_deal rt fs out id_ d = (Ok k, d') ->
     exists r', deal d' !! k = Some r' /\
                cell "name" k r' = cell "name" id_ r /\
                is_null (cell "name" k r') = false).
Proof.
  split; [exact reachable_names_present|].
  split; [|split; [|split; [|split]]].
  - intros rt t data d Hn. apply bound_not_null in Hn.
    rewrite add_full_record_eq, Hn.
    destruct (forallb bindable _) eqn:Hb; cbn [negb].
    + destruct (insert_rowid _ _ _) as [k|e] eqn:Hk; cbn [fst snd raised];
        (split; [done|]); (split; [done|]); intros z Hz _.
      * reflexivity.
      * discriminate Hz.
    + cbn. repeat split. intros; discriminate.
  - intros rt t id_ quantity d. rewrite add_record_eq. cbn [bindable bound is_null].
    rewrite andb_true_r.
    destruct (fits_int64 id_ && bindable quantity); cbn; repeat split; done.
  - intros rt t id_ data d [old Hold] Hn. apply bound_not_null in Hn.
    rewrite update_full_record_eq, Hold, Hn.
    destruct (forallb bindable _); destruct (fits_int64 id_); cbn;
      repeat split; done.
  - intros rt fs out id_ d r k d' Hr E.
    by apply (transfer_copies_name rt Reserve Offering fs out id_ d r k d').
  - intros rt fs out id_ d r k d' Hr E.
    by apply (transfer_copies_name rt Offering Deal fs out id_ d r k d').
Qed.

Lemma name_is_never_null_witness :
  (reachable (add_record rt0 "reserve" 1 (VText "Site A") VNull empty_db).2 /\
   names_present (add_record rt0 "reserve" 1 (VText "Site A") VNull empty_db).2) /\
  (is_null (dict_get nameless_record_7 "name") = true /\
   insert_rowid rt0 (reserve empty_db) (bound (dict_get nameless_record_7 "id")) = Ok 7 /\
   (add_full_record rt0 "reserve" nameless_record_7 empty_db).1 =
     Raise (IntegrityError NotNullFailed) /\
   (add_full_record rt0 "reserve" nameless_record_7 empty_db).2 = empty_db) /\
  (fits_int64 7 && bindable VNull = true /\
   (add_record rt0 "reserve" 7 VNull VNull empty_db).1 =
     Raise (IntegrityError NotNullFailed) /\
   (add_record rt0 "reserve" 7 VNull VNull empty_db).2 = empty_db) /\
  (is_Some (reserve reserve_with_site_a !! 1) /\
   is_null (dict_get (∅ : gmap string value) "name") = true /\
   (update_full_record rt0 "reserve" 1 ∅ reserve_with_site_a).1 =
     Raise (IntegrityError NotNullFailed) /\
   (update_full_record rt0 "reserve" 1 ∅ reserve_with_site_a).2 =
     reserve_with_site_a) /\
  (exists r', offering offering_with_site_a !! 1 = Some r' /\
              cell "name" 1 r' = cell "name" 1 site_a /\
              is_null (cell "name" 1 r') = false) /\
  (exists r', deal deal_with_site_a !! 1 = Some r' /\
              cell "name" 1 r' = cell "name" 1 site_a /\
              is_null (cell "name" 1 r') = false).
Proof.
  destruct name_is_never_null as (Hreach & Hfull & Hbasic & Hupd & Hmove & Hmove').
  assert (R : reachable (add_record rt0 "reserve" 1 (VText "Site A") VNull empty_db).2).
  { apply (reachable_step empty_db); [exact reachable_init|].
    apply step_add_record. }
  assert (Hin : is_Some (reserve reserve_with_site_a !! 1))
    by (eexists; reflexivity).
  assert (Hnull : is_null (dict_get (∅ : gmap string value) "name") = true)
    by reflexivity.
  assert (Hz : insert_rowid rt0 (reserve empty_db)
                 (bound (dict_get nameless_record_7 "id")) = Ok 7) by reflexivity.
  destruct (Hfull rt0 Reserve nameless_record_7 empty_db eq_refl)
    as (_ & Hfull_db & Hfull_err).
  destruct (Hbasic rt0 Reserve 7 VNull empty_db) as (_ & Hbasic_db & Hbasic_err).
  destruct (Hupd rt0 Reserve 1 ∅ reserve_with_site_a Hin Hnull)
    as (_ & Hupd_db & Hupd_err).
  split; [split; [exact R | exact (Hreach _ R)]|].
  split; [split; [reflexivity|]; split; [exact Hz|]; split;
          [exact (Hfull_err 7 Hz eq_refl) | exact Hfull_db]|].
  split; [split; [reflexivity|]; split;
          [exact (Hbasic_err eq_refl) | exact Hbasic_db]|].
  split; [split; [exact Hin|]; split; [exact Hnull|]; split;
          [exact (Hupd_err eq_refl eq_refl) | exact Hupd_db]|].
  split.
  - exact (Hmove rt0 [] [] 1 reserve_with_site_a site_a 1 offering_with_site_a
             eq_refl (scenario_transfer rt0)).
  - exact (Hmove' rt0 [] [] 1 offering_with_site_a site_a 1 deal_with_site_a
             eq_refl (scenario_second_transfer rt0)).
Defined.

(** * Further properties of [db.py] *)

(** ** Table selector and id range *)

Lemma stage_of_name_None (table : string) :
  table <> "reserve" -> table <> "offering" -> table <> "deal" ->
  stage_of_name table = None.
Proof.
  intros H1 H2 H3. unfold stage_of_name.
  apply String.eqb_neq in H1, H2, H3. by rewrite H1, H2, H3.
Qed.

(** X1. A table name other than the three stage names, compared exactly as
    Python compares strings, is refused by every CRUD function with
    [ValueError] before a connection is opened. *)
Theorem unknown_table_is_refused rt (table : string) (id_ : Z)
    (cols : option (list string)) (data : gmap string value)
    (name quantity : value) (d : database) :
  table <> "reserve" -> table <> "offering" -> table <> "deal" ->
  get_record rt table id_ cols d = (Raise ValueError, d) /\
  add_full_record rt table data d = (Raise ValueError, d) /\
  add_record rt table id_ name quantity d = (Raise ValueError, d) /\
  update_full_record rt table id_ data d = (Raise ValueError, d) /\
  delete_record rt table id_ d = (Raise ValueError, d) /\
  list_table rt table cols d = (Raise ValueError, d).
Proof.
  intros H1 H2 H3. pose proof (stage_of_name_None table H1 H2 H3) as E.
  unfold get_record, add_full_record, add_record, update_full_record,
    delete_record, list_table.
  rewrite E. repeat split.
Qed.

Lemma unknown_table_is_refused_witness :
  "Reserve" <> "reserve" /\ "Reserve" <> "offering" /\ "Reserve" <> "deal" /\
  get_record rt0 "Reserve" 1 None reserve_with_site_a =
    (Raise ValueError, reserve_with_site_a) /\
  delete_record rt0 "Reserve" 1 reserve_with_site_a =
    (Raise ValueError, reserve_with_site_a).
Proof.
  assert (H1 : "Reserve" <> "reserve") by discriminate.
  assert (H2 : "Reserve" <> "offering") by discriminate.
  assert (H3 : "Reserve" <> "deal") by discriminate.
  destruct (unknown_table_is_refused rt0 "Reserve" 1 None ∅ VNull VNull
              reserve_with_site_a H1 H2 H3) as (Hget & _ & _ & _ & Hdel & _).
  repeat split; assumption.
Defined.

(** [get_record] with the default columns, outcome by outcome. *)
Lemma get_record_eq rt (t : stage) (id_ : Z) (d : database) :
  get_record rt (stage_name t) id_ None d =
  if negb (fits_int64 id_) then (Raise OverflowError, d)
  else match get_table t d !! id_ with
       | Some r => (Ok (list_to_map (zip ALL_COLUMNS (project ALL_COLUMNS id_ r))), d)
       | None => (Raise ValueError, d)
       end.
Proof.
  unfold get_record. rewrite stage_of_name_stage_name.
  unfold with_conn, get_conn, close, bind, execute, begin_implicit, next_fault.
  cbn [is_dml bound_params forallb bindable faults disk txn stdout].
  rewrite andb_true_r. destruct (negb _); [reflexivity|].
  change (fault_now []) with false. cbn [view default from_option disk txn].
  unfold run. change (select_list_ok ALL_COLUMNS) with true.
  by destruct (get_table t d !! id_).
Qed.

Lemma transfer_out_of_range rt src dst fs out id_ d :
  fits_int64 id_ = false ->
  raised (transfer rt src dst fs out id_ d).1 = true /\
  (transfer rt src dst fs out id_ d).2 = d /\
  (fault_now fs = false -> print_ok out = true ->
   transfer rt src dst fs out id_ d = (Raise OverflowError, d)).
Proof.
  intros Hid. unfold transfer. rewrite try_rollback_print. unfold bind.
  rewrite execute_begin.
  destruct (fault_now fs); cbn [fst snd raised disk stdout]; [done|].
  rewrite execute_txn by done. cbn [bound_params forallb bindable].
  rewrite Hid. cbn [andb negb fst snd raised disk stdout].
  repeat split. intros _ Hout. by rewrite reported_ok.
Qed.

(** X2. An id outside SQLite's 64-bit range cannot be bound: the functions
    that take an id raise [OverflowError] and write nothing.  A transfer
    of such an id raises and writes nothing whatever the storage and the
    standard output do; the exception is [OverflowError] when BEGIN does
    not fail and the [print] of the [except] clause does not raise. *)
Theorem id_out_of_range_overflows rt (t : stage) (id_ : Z)
    (data : gmap string value) (name quantity : value) (fs : list bool)
    (out : list (option exn)) (d : database) :
  fits_int64 id_ = false ->
  get_record rt (stage_name t) id_ None d = (Raise OverflowError, d) /\
  add_record rt (stage_name t) id_ name quantity d = (Raise OverflowError, d) /\
  update_full_record rt (stage_name t) id_ data d = (Raise OverflowError, d) /\
  delete_record rt (stage_name t) id_ d = (Raise OverflowError, d) /\
  (fault_now fs = false -> print_ok out = true ->
   move_reserve_to_offering rt fs out id_ d = (Raise OverflowError, d) /\
   move_offering_to_deal rt fs out id_ d = (Raise OverflowError, d)) /\
  (raised (move_reserve_to_offering rt fs out id_ d).1 = true /\
   (move_reserve_to_offering rt fs out id_ d).2 = d) /\
  (raised (move_offering_to_deal rt fs out id_ d).1 = true /\
   (move_offering_to_deal rt fs out id_ d).2 = d).
Proof.
  intros Hid.
  rewrite get_record_eq, add_record_eq, update_full_record_eq, delete_record_eq.
  rewrite Hid, andb_false_r. cbn [andb negb].
  do 4 (split; [reflexivity|]).
  rewrite move_reserve_to_offering_transfer, move_offering_to_deal_transfer.
  destruct (transfer_out_of_range rt Reserve Offering fs out id_ d Hid)
    as (H1 & H2 & H3).
  destruct (transfer_out_of_range rt Offering Deal fs out id_ d Hid)
    as (H1' & H2' & H3').
  split; [intros Hf Hout; split; auto|]. by split.
Qed.

Lemma id_out_of_range_overflows_witness :
  fits_int64 (2 ^ 63) = false /\
  delete_record rt0 "reserve" (2 ^ 63) reserve_with_site_a =
    (Raise OverflowError, reserve_with_site_a) /\
  fault_now [] = false /\ print_ok [] = true /\
  move_reserve_to_offering rt0 [] [] (2 ^ 63) reserve_with_site_a =
    (Raise OverflowError, reserve_with_site_a) /\
  (move_reserve_to_offering rt0 [true] ascii_stdout (2 ^ 63) reserve_with_site_a).2 =
    reserve_with_site_a.
Proof.
  destruct (id_out_of_range_overflows rt0 Reserve (2 ^ 63) ∅ VNull VNull [] []
              reserve_with_site_a eq_refl) as (_ & _ & _ & Hdel & Hmove & _).
  destruct (id_out_of_range_overflows rt0 Reserve (2 ^ 63) ∅ VNull VNull [true]
              ascii_stdout reserve_with_site_a eq_refl)
    as (_ & _ & _ & _ & _ & [_ Hsame] & _).
  split; [reflexivity|]. split; [exact Hdel|]. split; [reflexivity|].
  split; [reflexivity|]. split; [exact (proj1 (Hmove eq_refl eq_refl)) | exact Hsame].
Defined.

(** ** Reading back what was written *)

(** The dict that [dict(zip(cols, row))] builds from a row selected with
    the columns [cols]: each listed column maps to its cell. *)
Lemma lookup_zip_project (cols : list string) (id_ : Z) (r : list value)
    (c : string) :
  (list_to_map (zip cols (project cols id_ r)) : gmap string value) !! c =
  if bool_decide (c ∈ cols) then Some (cell c id_ r) else None.
Proof.
  induction cols as [|x cols IH].
  - by rewrite bool_decide_eq_false_2 by apply not_elem_of_nil.
  - change (list_to_map (zip (x :: cols) (project (x :: cols) id_ r)))
      with (<[x := cell x id_ r]>
              (list_to_map (zip cols (project cols id_ r)) : gmap string value)).
    destruct (decide (x = c)) as [->|Hne].
    + rewrite lookup_insert_eq.
      by rewrite bool_decide_eq_true_2 by (apply elem_of_cons; by left).
    + rewrite lookup_insert_ne by done. rewrite IH.
      destruct (decide (c ∈ cols)) as [Hin|Hnin].
      * rewrite !bool_decide_eq_true_2; [done| |done]. apply elem_of_cons; by right.
      * rewrite !bool_decide_eq_false_2; [done| |done].
        intros [?|?]%elem_of_cons; congruence.
Qed.

Lemma get_record_found rt (t : stage) (id_ : Z) (r : list value) (d : database) :
  fits_int64 id_ = true ->
  get_table t d !! id_ = Some r ->
  exists m, get_record rt (stage_name t) id_ None d = (Ok m, d) /\
            m !! "id" = Some (VInt id_) /\
            (forall c, c ∈ DATA_COLUMNS -> m !! c = Some (cell c id_ r)) /\
            (forall c, c ∉ ALL_COLUMNS -> m !! c = None).
Proof.
  intros Hid Hr. rewrite get_record_eq, Hid, Hr. cbn [negb].
  eexists. split; [reflexivity|]. split; [|split].
  - by rewrite lookup_zip_project.
  - intros c Hc. rewrite lookup_zip_project.
    rewrite bool_decide_eq_true_2; [done|].
    change ALL_COLUMNS with ("id" :: DATA_COLUMNS). apply elem_of_cons; by right.
  - intros c Hc. rewrite lookup_zip_project.
    by rewrite bool_decide_eq_false_2.
Qed.

(** X3. [get_record] with the default columns returns the whole stored row,
    keyed by column name: the id under ["id"], every other cell under its
    column, and no other key; it raises [ValueError] when the table holds
    no row under the id.  Either way nothing is written. *)
Theorem get_record_returns_row rt (t : stage) (id_ : Z) (d : database) :
  fits_int64 id_ = true ->
  (forall r, get_table t d !! id_ = Some r ->
     exists m, get_record rt (stage_name t) id_ None d = (Ok m, d) /\
               m !! "id" = Some (VInt id_) /\
               (forall c, c ∈ DATA_COLUMNS -> m !! c = Some (cell c id_ r)) /\
               (forall c, c ∉ ALL_COLUMNS -> m !! c = None)) /\
  (get_table t d !! id_ = None ->
     get_record rt (stage_name t) id_ None d = (Raise ValueError, d)).
Proof.
  intros Hid. split.
  - intros r Hr. by apply get_record_found.
  - intros Hnone. by rewrite get_record_eq, Hid, Hnone.
Qed.

Lemma get_record_returns_row_witness :
  fits_int64 1 = true /\
  reserve reserve_with_site_a !! 1 = Some site_a /\
  reserve reserve_with_site_a !! 2 = None /\
  (exists m, get_record rt0 "reserve" 1 None reserve_with_site_a =
               (Ok m, reserve_with_site_a) /\
             m !! "id" = Some (VInt 1) /\
             m !! "name" = Some (VText "Site A") /\
             m !! "mineral_type" = Some (VText "copper")) /\
  get_record rt0 "reserve" 2 None reserve_with_site_a =
    (Raise ValueError, reserve_with_site_a).
Proof.
  destruct (get_record_returns_row rt0 Reserve 1 reserve_with_site_a eq_refl)
    as [Hfound _].
  destruct (get_record_returns_row rt0 Reserve 2 reserve_with_site_a eq_refl)
    as [_ Hmissing].
  destruct (Hfound site_a eq_refl) as (m & Hget & Hidm & Hcells & _).
  split; [reflexivity|]. split; [reflexivity|]. split; [reflexivity|].
  split; [|exact (Hmissing eq_refl)].
  exists m. split; [exact Hget|]. split; [exact Hidm|].
  split; apply Hcells; apply list_elem_of_In; cbn; tauto.
Defined.

Lemma cell_map (f : string -> value) (c : string) (k : Z) :
  c ∈ DATA_COLUMNS -> cell c k (map f DATA_COLUMNS) = f c.
Proof.
  intros Hc. unfold DATA_COLUMNS in Hc. cbn in Hc.
  repeat (apply elem_of_cons in Hc as [->|Hc]; [reflexivity|]).
  inversion Hc.
Qed.

Lemma add_record_ok_inv rt (t : stage) (id_ i : Z) (name quantity : value)
    (d d' : database) :
  add_record rt (stage_name t) id_ name quantity d = (Ok i, d') ->
  i = id_ /\ fits_int64 id_ = true /\ is_null (bound name) = false /\
  get_table t d !! id_ = None /\
  d' = set_table t (<[id_ := basic_row (stored_as rt "name" name)
                                       (stored_as rt "quantity" quantity)]>
                      (get_table t d)) d.
Proof.
  rewrite add_record_eq.
  destruct (fits_int64 id_) eqn:Hid; cbn [andb negb]; [|discriminate].
  destruct (negb _); [discriminate|].
  destruct (is_null (bound name)); [discriminate|].
  destruct (get_table t d !! id_); [discriminate|].
  by intros [= <- <-].
Qed.

Lemma add_full_record_ok_inv rt (t : stage) (i : Z) (data : gmap string value)
    (d d' : database) :
  add_full_record rt (stage_name t) data d = (Ok i, d') ->
  exists k, insert_rowid rt (get_table t d) (bound (dict_get data "id")) = Ok k /\
            is_null (bound (dict_get data "name")) = false /\
            get_table t d !! k = None /\
            d' = set_table t (<[k := stored_row rt (dict_get data)]>
                                (get_table t d)) d.
Proof.
  rewrite add_full_record_eq.
  destruct (negb _); [discriminate|].
  destruct (insert_rowid _ _ _) as [k|e]; [|discriminate].
  destruct (is_null _); [discriminate|].
  destruct (get_table t d !! k) eqn:Hk; [discriminate|].
  intros [= _ <-]. by exists k.
Qed.

Lemma add_full_record_int_ok_inv rt (t : stage) (id_ i : Z)
    (data : gmap string value) (d d' : database) :
  data !! "id" = Some (VInt id_) ->
  add_full_record rt (stage_name t) data d = (Ok i, d') ->
  i = id_ /\ fits_int64 id_ = true /\ get_table t d !! id_ = None /\
  d' = set_table t (<[id_ := stored_row rt (dict_get data)]> (get_table t d)) d.
Proof.
  intros Hdata. rewrite add_full_record_eq.
  assert (Hget_id : dict_get data "id" = VInt id_)
    by (unfold dict_get; by rewrite Hdata).
  unfold getitem. rewrite Hget_id, Hdata. cbn [bound insert_rowid int_of].
  destruct (forallb bindable (map (dict_get data) ALL_COLUMNS)) eqn:Hb;
    [|discriminate]. cbn [negb].
  destruct (is_null _); [discriminate|].
  destruct (get_table t d !! id_); [discriminate|].
  intros [= <- <-]. split; [done|]. split; [|done].
  change ALL_COLUMNS with ("id" :: DATA_COLUMNS) in Hb. cbn [map forallb] in Hb.
  rewrite Hget_id in Hb. by apply andb_true_iff in Hb as [Hb _].
Qed.

Lemma update_full_record_ok_inv rt (t : stage) (id_ : Z)
    (data : gmap string value) (d d' : database) :
  update_full_record rt (stage_name t) id_ data d = (Ok 1, d') ->
  fits_int64 id_ = true /\ is_Some (get_table t d !! id_) /\
  d' = set_table t (<[id_ := stored_row rt (dict_get data)]> (get_table t d)) d.
Proof.
  rewrite update_full_record_eq.
  destruct (fits_int64 id_); [|by rewrite andb_false_r].
  destruct (negb _); [discriminate|].
  destruct (get_table t d !! id_) eqn:Hr; [|discriminate].
  destruct (is_null _); [discriminate|].
  by intros [= <-].
Qed.

(** A column of NUMERIC affinity (the [DATE] columns) stores the number a
    text holds: the integer, or the real, as an integer when it equals
    one. *)
Lemma stored_as_numeric_text rt (c s : string) (n : number) :
  affinity_at c = NumericAff -> sqlite_number_of rt s = Some n ->
  stored_as rt c (VText s) =
  match n with
  | NInt z => if fits_int64 z then VInt z else VText s
  | NReal bits => numeric_of_real rt bits
  end.
Proof. unfold stored_as. cbn [bound]. intros -> Hs. cbn. rewrite Hs. by destruct n. Qed.

(** The columns have TEXT, REAL or NUMERIC affinity. *)
Lemma affinity_of_columns (c : string) :
  c ∈ DATA_COLUMNS ->
  affinity_at c = TextAff \/ affinity_at c = RealAff \/ affinity_at c = NumericAff.
Proof.
  intros Hc. unfold DATA_COLUMNS in Hc. cbn in Hc.
  repeat (apply elem_of_cons in Hc as [->|Hc]; [vm_compute; tauto|]).
  inversion Hc.
Qed.

(** X4. What an insert or an update has written is what [get_record] reads
    back, in the form the columns store it.  After [add_record] returns,
    the record read under the returned id has the given id, the name and
    the quantity as their TEXT columns store them, and null in every
    other column; after [add_full_record] returns for a record with an
    integer id, and after [update_full_record] returns 1, every column
    reads as what it stores for the dict's value (null when absent).
    What a column stores: null for [None]; a text as it is in a TEXT
    column, and in any column when it is no number; an integer as its
    decimal text in a TEXT column; the number a text holds, as a real, in
    a REAL column. *)
Theorem written_row_is_read_back rt (t : stage) (id_ i : Z)
    (name quantity : value) (data : gmap string value) (d d' : database) :
  (add_record rt (stage_name t) id_ name quantity d = (Ok i, d') ->
   exists m, get_record rt (stage_name t) i None d' = (Ok m, d') /\
             m !! "id" = Some (VInt id_) /\
             m !! "name" = Some (stored_as rt "name" name) /\
             m !! "quantity" = Some (stored_as rt "quantity" quantity) /\
             (forall c, c ∈ DATA_COLUMNS -> c <> "name" -> c <> "quantity" ->
                m !! c = Some VNull)) /\
  (data !! "id" = Some (VInt id_) ->
   add_full_record rt (stage_name t) data d = (Ok i, d') ->
   exists m, get_record rt (stage_name t) i None d' = (Ok m, d') /\
             m !! "id" = Some (VInt id_) /\
             (forall c, c ∈ DATA_COLUMNS ->
                m !! c = Some (stored_as rt c (dict_get data c)))) /\
  (update_full_record rt (stage_name t) id_ data d = (Ok 1, d') ->
   exists m, get_record rt (stage_name t) id_ None d' = (Ok m, d') /\
             m !! "id" = Some (VInt id_) /\
             (forall c, c ∈ DATA_COLUMNS ->
                m !! c = Some (stored_as rt c (dict_get data c)))) /\
  (affinity_at "name" = TextAff /\ affinity_at "quantity" = TextAff /\
   affinity_at "area" = RealAff) /\
  (forall c, stored_as rt c VNull = VNull) /\
  (forall c s, affinity_at c = TextAff \/ sqlite_number_of rt s = None ->
     stored_as rt c (VText s) = VText s) /\
  (forall c z, affinity_at c = TextAff -> stored_as rt c (VInt z) = VText (pretty z)) /\
  (forall c s n, affinity_at c = RealAff -> sqlite_number_of rt s = Some n ->
     stored_as rt c (VText s) =
     VReal (match n with NInt z => sqlite_real_of_int rt z | NReal bits => bits end)).
Proof.
  split; [|split; [|split; [|split; [|split; [|split; [|split]]]]]].
  - intros E. apply add_record_ok_inv in E as (-> & Hid & _ & _ & ->).
    destruct (get_record_found rt t id_
                (basic_row (stored_as rt "name" name) (stored_as rt "quantity" quantity))
                (set_table t (<[id_ := basic_row (stored_as rt "name" name)
                                          (stored_as rt "quantity" quantity)]>
                                (get_table t d)) d) Hid)
      as (m & Hget & Hidm & Hcells & _).
    { by rewrite get_table_set_table, lookup_insert_eq. }
    exists m. split; [exact Hget|]. split; [exact Hidm|].
    split; [|split].
    + rewrite Hcells by (apply list_elem_of_In; cbn; tauto). reflexivity.
    + rewrite Hcells by (apply list_elem_of_In; cbn; tauto). reflexivity.
    + intros c Hc Hn Hq. rewrite (Hcells c Hc). unfold basic_row.
      rewrite cell_map by done.
      apply String.eqb_neq in Hn. apply String.eqb_neq in Hq. by rewrite Hn, Hq.
  - intros Hdata E.
    apply (add_full_record_int_ok_inv rt t id_ i data d d' Hdata) in E
      as (-> & Hid & _ & ->).
    destruct (get_record_found rt t id_ (stored_row rt (dict_get data))
                (set_table t (<[id_ := stored_row rt (dict_get data)]>
                                (get_table t d)) d) Hid)
      as (m & Hget & Hidm & Hcells & _).
    { by rewrite get_table_set_table, lookup_insert_eq. }
    exists m. split; [exact Hget|]. split; [exact Hidm|]. intros c Hc.
    rewrite (Hcells c Hc). by rewrite cell_stored_row.
  - intros E. apply update_full_record_ok_inv in E as (Hid & _ & ->).
    destruct (get_record_found rt t id_ (stored_row rt (dict_get data))
                (set_table t (<[id_ := stored_row rt (dict_get data)]>
                                (get_table t d)) d) Hid)
      as (m & Hget & Hidm & Hcells & _).
    { by rewrite get_table_set_table, lookup_insert_eq. }
    exists m. split; [exact Hget|]. split; [exact Hidm|].
    intros c Hc. rewrite (Hcells c Hc). by rewrite cell_stored_row.
  - by vm_compute.
  - apply stored_as_null.
  - apply stored_as_text.
  - apply stored_as_text_int.
  - apply stored_as_real_text.
Qed.

(** A name given as the integer 5 is read back as the text ["5"]; an area
    given as the text ["12.5"] is read back as the real 12.5. *)
Lemma written_row_is_read_back_witness :
  (add_record rt_decimal "reserve" 7 (VInt 5) VNull empty_db =
     (Ok 7, Database {[ 7 := basic_row (VText "5") VNull ]} ∅ ∅) /\
   exists m, get_record rt_decimal "reserve" 7 None
               (Database {[ 7 := basic_row (VText "5") VNull ]} ∅ ∅) =
               (Ok m, Database {[ 7 := basic_row (VText "5") VNull ]} ∅ ∅) /\
             m !! "name" = Some (VText "5")) /\
  (record_7 !! "id" = Some (VInt 7) /\
   add_full_record rt0 "reserve" record_7 empty_db =
     (Ok 7, Database {[ 7 := VText "Site B" :: repeat VNull 24 ]} ∅ ∅) /\
   exists m, get_record rt0 "reserve" 7 None
               (Database {[ 7 := VText "Site B" :: repeat VNull 24 ]} ∅ ∅) =
               (Ok m, Database {[ 7 := VText "Site B" :: repeat VNull 24 ]} ∅ ∅) /\
             m !! "name" = Some (VText "Site B")) /\
  (update_full_record rt_decimal "reserve" 1 measured_record reserve_with_site_a =
     (Ok 1, Database {[ 1 := stored_row rt_decimal (dict_get measured_record) ]} ∅ ∅) /\
   exists m, get_record rt_decimal "reserve" 1 None
               (Database {[ 1 := stored_row rt_decimal (dict_get measured_record) ]}
                  ∅ ∅) =
               (Ok m, Database {[ 1 := stored_row rt_decimal (dict_get measured_record) ]}
                        ∅ ∅) /\
             m !! "area" = Some (VReal REAL_12_5) /\
             m !! "quantity" = Some (VText "5")).
Proof.
  assert (E1 : add_record rt_decimal "reserve" 7 (VInt 5) VNull empty_db =
     (Ok 7, Database {[ 7 := basic_row (VText "5") VNull ]} ∅ ∅))
    by (vm_compute; reflexivity).
  assert (E2 : add_full_record rt0 "reserve" record_7 empty_db =
     (Ok 7, Database {[ 7 := VText "Site B" :: repeat VNull 24 ]} ∅ ∅))
    by (vm_compute; reflexivity).
  assert (E3 : update_full_record rt_decimal "reserve" 1 measured_record
                 reserve_with_site_a =
     (Ok 1, Database {[ 1 := stored_row rt_decimal (dict_get measured_record) ]} ∅ ∅))
    by (vm_compute; reflexivity).
  split; [|split].
  - split; [exact E1|].
    destruct (proj1 (written_row_is_read_back rt_decimal Reserve 7 7 (VInt 5)
                       VNull ∅ empty_db _) E1) as (m & Hget & _ & Hn & _).
    exists m. split; [exact Hget|]. rewrite Hn. reflexivity.
  - split; [reflexivity|]. split; [exact E2|].
    destruct (proj1 (proj2 (written_row_is_read_back rt0 Reserve 7 7 VNull
                              VNull record_7 empty_db _)) eq_refl E2)
      as (m & Hget & _ & Hcells).
    exists m. split; [exact Hget|].
    rewrite Hcells by (apply list_elem_of_In; cbn; tauto). reflexivity.
  - split; [exact E3|].
    destruct (proj1 (proj2 (proj2 (written_row_is_read_back rt_decimal Reserve 1 1
                              VNull VNull measured_record reserve_with_site_a _))) E3)
      as (m & Hget & _ & Hcells).
    exists m. split; [exact Hget|].
    split; rewrite Hcells by (apply list_elem_of_In; cbn; tauto); reflexivity.
Defined.

(** ** Deleting *)

Lemma set_table_set_table (t : stage) (x y : gmap Z (list value)) (d : database) :
  set_table t x (set_table t y d) = set_table t x d.
Proof. by destruct t. Qed.

(** X5. [delete_record] returns 1 exactly when the table held a row under the
    id and 0 otherwise; afterwards the table is the old one without that
    id, [get_record] for the id raises [ValueError], and a second delete
    returns 0 and changes nothing. *)
Theorem delete_record_removes_once rt (t : stage) (id_ : Z) (d : database) :
  fits_int64 id_ = true ->
  exists n d',
    delete_record rt (stage_name t) id_ d = (Ok n, d') /\
    n = (if bool_decide (is_Some (get_table t d !! id_)) then 1 else 0) /\
    get_table t d' = delete id_ (get_table t d) /\
    get_record rt (stage_name t) id_ None d' = (Raise ValueError, d') /\
    delete_record rt (stage_name t) id_ d' = (Ok 0, d').
Proof.
  intros Hid. rewrite delete_record_eq, Hid. cbn [negb].
  destruct (get_table t d !! id_) as [r|] eqn:Hr.
  - eexists _, _. split; [reflexivity|].
    rewrite get_record_eq, delete_record_eq, Hid, get_table_set_table,
      lookup_delete_eq.
    rewrite bool_decide_eq_true_2 by eauto. done.
  - eexists _, _. split; [reflexivity|].
    rewrite get_record_eq, delete_record_eq, Hid, Hr, delete_id by done.
    rewrite bool_decide_eq_false_2 by (by intros [? ?]). done.
Qed.

Lemma delete_record_removes_once_witness :
  fits_int64 1 = true /\
  exists n d',
    delete_record rt0 "reserve" 1 reserve_with_site_a = (Ok n, d') /\
    n = 1 /\
    reserve d' = delete 1 (reserve reserve_with_site_a) /\
    get_record rt0 "reserve" 1 None d' = (Raise ValueError, d') /\
    delete_record rt0 "reserve" 1 d' = (Ok 0, d').
Proof.
  split; [reflexivity|].
  destruct (delete_record_removes_once rt0 Reserve 1 reserve_with_site_a eq_refl)
    as (n & d' & Hdel & Hn & Htb & Hget & Hagain).
  exists n, d'. split; [exact Hdel|]. split; [rewrite Hn; reflexivity|].
  split; [exact Htb|]. split; [exact Hget | exact Hagain].
Defined.

(** X6. An insert followed by the delete of the id it returned gives back the
    database as it was before the insert. *)
Theorem insert_then_delete_restores rt (t : stage) (id_ i : Z)
    (name quantity : value) (data : gmap string value) (d d' : database) :
  (add_record rt (stage_name t) id_ name quantity d = (Ok i, d') ->
   delete_record rt (stage_name t) i d' = (Ok 1, d)) /\
  (data !! "id" = Some (VInt id_) ->
   add_full_record rt (stage_name t) data d = (Ok i, d') ->
   delete_record rt (stage_name t) i d' = (Ok 1, d)).
Proof.
  split.
  - intros E. apply add_record_ok_inv in E as (-> & Hid & _ & Hfree & ->).
    rewrite delete_record_eq, Hid, get_table_set_table, lookup_insert_eq.
    cbn [negb]. rewrite delete_insert_id by done.
    by rewrite set_table_set_table, set_table_get_table.
  - intros Hdata E.
    apply (add_full_record_int_ok_inv rt t id_ i data d d' Hdata) in E
      as (-> & Hid & Hfree & ->).
    rewrite delete_record_eq, Hid, get_table_set_table, lookup_insert_eq.
    cbn [negb]. rewrite delete_insert_id by done.
    by rewrite set_table_set_table, set_table_get_table.
Qed.

Lemma insert_then_delete_restores_witness :
  (add_record rt0 "reserve" 7 (VText "Site B") VNull reserve_with_site_a =
     (Ok 7, Database (<[ 7 := basic_row (VText "Site B") VNull ]> {[ 1 := site_a ]})
              ∅ ∅) /\
   delete_record rt0 "reserve" 7
     (Database (<[ 7 := basic_row (VText "Site B") VNull ]> {[ 1 := site_a ]}) ∅ ∅) =
     (Ok 1, reserve_with_site_a)) /\
  (record_7 !! "id" = Some (VInt 7) /\
   add_full_record rt0 "reserve" record_7 reserve_with_site_a =
     (Ok 7, Database (<[ 7 := map (dict_get record_7) DATA_COLUMNS ]> {[ 1 := site_a ]})
              ∅ ∅) /\
   delete_record rt0 "reserve" 7
     (Database (<[ 7 := map (dict_get record_7) DATA_COLUMNS ]> {[ 1 := site_a ]}) ∅ ∅) =
     (Ok 1, reserve_with_site_a)).
Proof.
  assert (E1 : add_record rt0 "reserve" 7 (VText "Site B") VNull reserve_with_site_a =
     (Ok 7, Database (<[ 7 := basic_row (VText "Site B") VNull ]> {[ 1 := site_a ]})
              ∅ ∅)) by (vm_compute; reflexivity).
  assert (E2 : add_full_record rt0 "reserve" record_7 reserve_with_site_a =
     (Ok 7, Database (<[ 7 := map (dict_get record_7) DATA_COLUMNS ]> {[ 1 := site_a ]})
              ∅ ∅)) by (vm_compute; reflexivity).
  split.
  - split; [exact E1|].
    exact (proj1 (insert_then_delete_restores rt0 Reserve 7 7 (VText "Site B") VNull
                    ∅ reserve_with_site_a _) E1).
  - split; [reflexivity|]. split; [exact E2|].
    exact (proj2 (insert_then_delete_restores rt0 Reserve 7 7 VNull VNull
                    record_7 reserve_with_site_a _) eq_refl E2).
Defined.

(** ** What a write leaves alone *)

(** X7. An insert, update or delete on one table and one id leaves every
    other table and every other row of that table as they were. *)
Theorem write_touches_one_row rt (t u : stage) (id_ j : Z)
    (name quantity : value) (data : gmap string value) (d : database) :
  u <> t \/ j <> id_ ->
  get_table u (add_record rt (stage_name t) id_ name quantity d).2 !! j =
    get_table u d !! j /\
  get_table u (update_full_record rt (stage_name t) id_ data d).2 !! j =
    get_table u d !! j /\
  get_table u (delete_record rt (stage_name t) id_ d).2 !! j =
    get_table u d !! j /\
  (data !! "id" = Some (VInt id_) ->
   get_table u (add_full_record rt (stage_name t) data d).2 !! j =
     get_table u d !! j).
Proof.
  intros Hother.
  assert (Hins : forall r, get_table u (set_table t (<[id_ := r]> (get_table t d)) d) !! j
                           = get_table u d !! j).
  { intros r. destruct (decide (u = t)) as [->|Hne].
    - rewrite get_table_set_table. destruct Hother as [?|?]; [done|].
      by rewrite lookup_insert_ne.
    - by rewrite get_table_set_table_ne. }
  assert (Hdel : get_table u (set_table t (delete id_ (get_table t d)) d) !! j
                 = get_table u d !! j).
  { destruct (decide (u = t)) as [->|Hne].
    - rewrite get_table_set_table. destruct Hother as [?|?]; [done|].
      by rewrite lookup_delete_ne.
    - by rewrite get_table_set_table_ne. }
  rewrite add_record_eq, update_full_record_eq, delete_record_eq.
  split; [|split; [|split]].
  - repeat case_match; cbn [snd]; done.
  - repeat case_match; cbn [snd]; done.
  - repeat case_match; cbn [snd]; done.
  - intros Hdata. rewrite add_full_record_eq.
    assert (Hget_id : dict_get data "id" = VInt id_)
      by (unfold dict_get; by rewrite Hdata).
    rewrite Hget_id. cbn [bound insert_rowid].
    repeat case_match; cbn [snd]; done.
Qed.

Lemma write_touches_one_row_witness :
  (Reserve <> Reserve \/ 1 <> 7) /\
  reserve (add_record rt0 "reserve" 7 (VText "Site B") VNull reserve_with_site_a).2
    !! 1 = Some site_a /\
  reserve (update_full_record rt0 "reserve" 7 rename_record reserve_with_site_a).2
    !! 1 = Some site_a /\
  reserve (delete_record rt0 "reserve" 7 reserve_with_site_a).2 !! 1 = Some site_a /\
  record_7 !! "id" = Some (VInt 7) /\
  reserve (add_full_record rt0 "reserve" record_7 reserve_with_site_a).2 !! 1 =
    Some site_a.
Proof.
  assert (Hother : Reserve <> Reserve \/ 1 <> 7) by (right; discriminate).
  destruct (write_touches_one_row rt0 Reserve Reserve 7 1 (VText "Site B") VNull
              rename_record reserve_with_site_a Hother) as (Hadd & Hupd & Hdel & _).
  destruct (write_touches_one_row rt0 Reserve Reserve 7 1 VNull VNull
              record_7 reserve_with_site_a Hother) as (_ & _ & _ & Hfull).
  split; [exact Hother|].
  split; [exact Hadd|]. split; [exact Hupd|]. split; [exact Hdel|].
  split; [reflexivity | exact (Hfull eq_refl)].
Defined.

(** ** Updating twice *)

(** X8. [update_full_record] is a full overwrite: repeating a call on the
    database it left gives the same outcome (the same count or the same
    exception) and leaves that database unchanged. *)
Theorem update_full_record_idempotent rt (t : stage) (id_ : Z)
    (data : gmap string value) (d : database) :
  update_full_record rt (stage_name t) id_ data
    (update_full_record rt (stage_name t) id_ data d).2 =
  update_full_record rt (stage_name t) id_ data d.
Proof.
  rewrite !update_full_record_eq.
  destruct (negb _); [reflexivity|].
  destruct (get_table t d !! id_) as [r|] eqn:Hr; cbn [snd]; [|by rewrite Hr].
  destruct (is_null _); cbn [snd]; [by rewrite Hr|].
  rewrite get_table_set_table, lookup_insert_eq, insert_insert_eq.
  by rewrite set_table_set_table.
Qed.

(** ** Listing in id order *)

Lemma sorted_distinct_strict (l : list (Z * list value)) :
  StronglySorted rowid_le l -> NoDup l.*1 ->
  StronglySorted (fun p q => p.1 < q.1) l.
Proof.
  induction 1 as [|p l Hl IH Hall]; intros Hnd; [constructor|].
  cbn in Hnd. apply NoDup_cons in Hnd as [Hp Hnd].
  constructor; [by apply IH|].
  apply Forall_forall. intros q Hq.
  pose proof (proj1 (Forall_forall _ _) Hall q Hq) as Hle.
  unfold rowid_le in Hle.
  assert (p.1 <> q.1).
  { intros Heq. apply Hp. rewrite Heq. apply list_elem_of_fmap. by exists q. }
  lia.
Qed.

Lemma scan_strictly_sorted (tb : gmap Z (list value)) :
  StronglySorted (fun p q => p.1 < q.1) (scan tb).
Proof.
  destruct (scan_sorted tb) as [Hs Hp].
  apply sorted_distinct_strict.
  - apply Sorted_StronglySorted; [|done]. intros p q r. unfold rowid_le. lia.
  - rewrite Hp. apply NoDup_fst_map_to_list.
Qed.

Lemma list_table_default_eq rt (t : stage) (d : database) :
  list_table rt (stage_name t) None d =
  (Ok (map (fun p : Z * list value => project ALL_COLUMNS p.1 p.2)
           (scan (get_table t d))), d).
Proof.
  unfold list_table. rewrite stage_of_name_stage_name.
  unfold with_conn, get_conn, close, bind, execute, begin_implicit, next_fault, run.
  reflexivity.
Qed.

(** X9. [list_table] with a list of column names of the table returns one
    tuple per stored row, projected to those columns, in strictly
    ascending id order, and writes nothing.  The same holds for the
    default column list. *)
Theorem list_table_every_row_in_id_order rt (t : stage) (cols : list string)
    (d : database) :
  select_list_ok cols = true ->
  exists entries : list (Z * list value),
    list_table rt (stage_name t) (Some cols) d =
      (Ok (map (fun p => project cols p.1 p.2) entries), d) /\
    list_table rt (stage_name t) None d =
      (Ok (map (fun p => project ALL_COLUMNS p.1 p.2) entries), d) /\
    entries ≡ₚ map_to_list (get_table t d) /\
    length entries = size (get_table t d) /\
    StronglySorted (fun p q => p.1 < q.1) entries.
Proof.
  intros Hc. exists (scan (get_table t d)).
  split; [by apply list_table_rows|].
  split; [apply list_table_default_eq|].
  destruct (scan_sorted (get_table t d)) as [_ Hp].
  split; [exact Hp|]. split; [|apply scan_strictly_sorted].
  by rewrite Hp, length_map_to_list.
Qed.

Lemma list_table_every_row_in_id_order_witness :
  select_list_ok ["id"; "name"; "mineral_type"; "region"; "announcement_date"] = true /\
  exists entries : list (Z * list value),
    list_table rt0 "reserve"
      (Some ["id"; "name"; "mineral_type"; "region"; "announcement_date"])
      reserve_with_site_a =
      (Ok (map (fun p => project ["id"; "name"; "mineral_type"; "region";
                                  "announcement_date"] p.1 p.2) entries),
       reserve_with_site_a) /\
    length entries = size (reserve reserve_with_site_a) /\
    StronglySorted (fun p q => p.1 < q.1) entries.
Proof.
  split; [reflexivity|].
  destruct (list_table_every_row_in_id_order rt0 Reserve
              ["id"; "name"; "mineral_type"; "region"; "announcement_date"]
              reserve_with_site_a eq_refl)
    as (entries & Hlist & _ & _ & Hlen & Hsorted).
  exists entries. split; [exact Hlist|]. split; [exact Hlen | exact Hsorted].
Defined.

(** ** The stage transfers, exception by exception *)



Lemma transfer_absent rt src dst fs out id_ d :
  fault_free 2 fs = true -> print_ok out = true -> fits_int64 id_ = true ->
  get_table src d !! id_ = None ->
  transfer rt src dst fs out id_ d = (Raise ValueError, d).
Proof.
  intros Hf Hout Hid Hnone.
  apply fault_free_S in Hf as [F0 Hf]. apply fault_free_S in Hf as [F1 _].
  unfold transfer. rewrite try_rollback_print. unfold bind.
  rewrite execute_begin, F0.
  rewrite execute_txn by done. cbn [bound_params forallb bindable].
  rewrite Hid, F1, run_select_carried, Hnone. cbn. by rewrite reported_ok.
Qed.

Lemma moved_source_gone (src dst : stage) (id_ k : Z) (r : list value)
    (d : database) :
  src <> dst -> get_table src (moved src dst id_ k r d) !! id_ = None.
Proof.
  intros Hne. unfold moved. by rewrite get_table_set_table, lookup_delete_eq.
Qed.

(** X11. A record can be moved once.  After a transfer has returned, a second
    transfer of the same source id raises and changes nothing, whatever
    the storage and the standard output do; with working storage and a
    standard output that accepts the message the exception is
    [ValueError], the "not found" of the transfers. *)
Theorem transfer_only_once rt rt' fs fs' out out' id_ k d d' :
  (move_reserve_to_offering rt fs out id_ d = (Ok k, d') ->
     raised (move_reserve_to_offering rt' fs' out' id_ d').1 = true /\
     (move_reserve_to_offering rt' fs' out' id_ d').2 = d' /\
     (fault_free 2 fs' = true -> print_ok out' = true ->
      move_reserve_to_offering rt' fs' out' id_ d' = (Raise ValueError, d'))) /\
  (move_offering_to_deal rt fs out id_ d = (Ok k, d') ->
     raised (move_offering_to_deal rt' fs' out' id_ d').1 = true /\
     (move_offering_to_deal rt' fs' out' id_ d').2 = d' /\
     (fault_free 2 fs' = true -> print_ok out' = true ->
      move_offering_to_deal rt' fs' out' id_ d' = (Raise ValueError, d'))).
Proof.
  assert (Hgen : forall src dst, src <> dst ->
    transfer rt src dst fs out id_ d = (Ok k, d') ->
     raised (transfer rt' src dst fs' out' id_ d').1 = true /\
     (transfer rt' src dst fs' out' id_ d').2 = d' /\
     (fault_free 2 fs' = true -> print_ok out' = true ->
      transfer rt' src dst fs' out' id_ d' = (Raise ValueError, d'))).
  { intros src dst Hne E. pose proof E as E0.
    apply transfer_inv in E as (r & _ & _ & _ & ->).
    pose proof (moved_source_gone src dst id_ k r d Hne) as Hgone.
    destruct (transfer_absent_raises rt' src dst fs' out' id_ _ Hgone)
      as [Hraise Hsame].
    split; [exact Hraise|]. split; [exact Hsame|].
    intros Hf Hout. apply transfer_absent; [done|done| |done].
    destruct (fits_int64 id_) eqn:Hid; [done|].
    destruct (transfer_out_of_range rt src dst fs out id_ d Hid) as [Hr _].
    by rewrite E0 in Hr. }
  rewrite !move_reserve_to_offering_transfer, !move_offering_to_deal_transfer.
  split; [by apply (Hgen Reserve Offering) | by apply (Hgen Offering Deal)].
Qed.

Lemma transfer_only_once_witness :
  move_reserve_to_offering rt0 [] [] 1 reserve_with_site_a =
    (Ok 1, offering_with_site_a) /\
  fault_free 2 [] = true /\ print_ok [] = true /\
  move_reserve_to_offering rt0 [] [] 1 offering_with_site_a =
    (Raise ValueError, offering_with_site_a) /\
  move_offering_to_deal rt0 [] [] 1 offering_with_site_a = (Ok 1, deal_with_site_a) /\
  move_offering_to_deal rt0 [] [] 1 deal_with_site_a =
    (Raise ValueError, deal_with_site_a).
Proof.
  pose proof (scenario_transfer rt0) as E.
  pose proof (scenario_second_transfer rt0) as E'.
  destruct (proj1 (transfer_only_once rt0 rt0 [] [] [] [] 1 1 reserve_with_site_a
                     offering_with_site_a) E) as (_ & _ & Hagain).
  destruct (proj2 (transfer_only_once rt0 rt0 [] [] [] [] 1 1 offering_with_site_a
                     deal_with_site_a) E') as (_ & _ & Hagain').
  split; [exact E|]. split; [reflexivity|]. split; [reflexivity|].
  split; [exact (Hagain eq_refl eq_refl)|].
  split; [exact E' | exact (Hagain' eq_refl eq_refl)].
Defined.

(** ** Ids and rows in reachable states *)

Lemma max_fold_member (l : list (Z * list value)) (m : Z) :
  foldr (fun (p : Z * list value) acc =>
           Some (match acc with None => p.1 | Some m => Z.max p.1 m end))
        None l = Some m ->
  exists p, p ∈ l /\ p.1 = m.
Proof.
  revert m. induction l as [|q l IH]; intros m Hm; [discriminate|].
  cbn in Hm. destruct (foldr _ None l) as [m'|] eqn:E.
  - injection Hm as <-. destruct (Z.max_spec q.1 m') as [[_ ->]|[_ ->]].
    + destruct (IH m' eq_refl) as (p & Hp & <-).
      exists p. split; [apply elem_of_cons; by right | done].
    + exists q. split; [apply elem_of_cons; by left | done].
  - injection Hm as <-. exists q. split; [apply elem_of_cons; by left | done].
Qed.

Lemma max_rowid_member (tb : gmap Z (list value)) (m : Z) :
  max_rowid tb = Some m -> is_Some (tb !! m).
Proof.
  intros Hm. apply max_fold_member in Hm as ([k r] & Hp & <-).
  apply elem_of_map_to_list in Hp. by exists r.
Qed.

Lemma random_rowid_range rnd (tb : gmap Z (list value)) (k n : nat) (v : Z) :
  random_rowid rnd tb k n = Some v -> 1 <= v <= 2 ^ 62.
Proof.
  revert k. induction n as [|n IH]; intros k; cbn; [discriminate|].
  destruct (tb !! (Z.land (rnd k) (Z.shiftr MAX_ROWID 1) + 1)); [apply IH|].
  intros [= <-].
  change (Z.shiftr MAX_ROWID 1) with (Z.ones 62).
  rewrite Z.land_ones by lia.
  pose proof (Z.mod_pos_bound (rnd k) (2 ^ 62) ltac:(lia)). lia.
Qed.

Lemma fits_int64_spec (z : Z) :
  fits_int64 z = true <-> MIN_ROWID <= z <= MAX_ROWID.
Proof. unfold fits_int64. rewrite andb_true_iff, !Z.leb_le. tauto. Qed.

(** In a table whose ids are 64-bit, the rowid SQLite allocates is 64-bit
    as well. *)
Lemma new_rowid_fits rnd (tb : gmap Z (list value)) (k : Z) :
  (forall j r, tb !! j = Some r -> fits_int64 j = true) ->
  new_rowid rnd tb = Some k -> fits_int64 k = true.
Proof.
  intros Htb. unfold new_rowid.
  destruct (max_rowid tb) as [m|] eqn:Hm.
  - destruct (m <? MAX_ROWID) eqn:Hlt.
    + intros [= <-]. apply Z.ltb_lt in Hlt.
      destruct (max_rowid_member _ _ Hm) as [r Hr].
      apply Htb, fits_int64_spec in Hr. apply fits_int64_spec.
      unfold MIN_ROWID, MAX_ROWID in *. lia.
    + intros Hv. apply random_rowid_range in Hv. apply fits_int64_spec.
      unfold MIN_ROWID, MAX_ROWID. lia.
  - intros [= <-]. reflexivity.
Qed.

Lemma well_shaped_empty : well_shaped empty_db.
Proof. intros t k r. destruct t; cbn; by rewrite lookup_empty. Qed.

Lemma well_shaped_insert (t : stage) (k : Z) (r : list value) (d : database) :
  well_shaped d ->
  fits_int64 k = true -> length r = 25%nat -> forallb bindable r = true ->
  well_shaped (set_table t (<[k := r]> (get_table t d)) d).
Proof.
  intros Hd Hk Hlen Hb u j x. destruct (decide (u = t)) as [->|Hne].
  - rewrite get_table_set_table. destruct (decide (k = j)) as [->|Hkj].
    + rewrite lookup_insert_eq. by intros [= <-].
    + rewrite lookup_insert_ne by done. apply Hd.
  - rewrite get_table_set_table_ne by done. apply Hd.
Qed.

Lemma well_shaped_delete (t : stage) (k : Z) (d : database) :
  well_shaped d -> well_shaped (set_table t (delete k (get_table t d)) d).
Proof.
  intros Hd u j x. destruct (decide (u = t)) as [->|Hne].
  - rewrite get_table_set_table. intros Hx.
    apply lookup_delete_Some in Hx as [_ Hx]. by apply Hd in Hx.
  - rewrite get_table_set_table_ne by done. apply Hd.
Qed.

Lemma bindable_all_columns (f : string -> value) :
  forallb bindable (map f ALL_COLUMNS) = true ->
  bindable (f "id") = true /\ forallb bindable (map f DATA_COLUMNS) = true.
Proof.
  change ALL_COLUMNS with ("id" :: DATA_COLUMNS). cbn [map forallb].
  by intros [? ?]%andb_true_iff.
Qed.

Lemma insert_rowid_fits rt (tb : gmap Z (list value)) (v : value) (k : Z) :
  (forall j r, tb !! j = Some r -> fits_int64 j = true) ->
  bindable v = true ->
  insert_rowid rt tb v = Ok k -> fits_int64 k = true.
Proof.
  intros Htb Hv. destruct v; cbn.
  - destruct (new_rowid _ _) eqn:Hk; [|discriminate].
    intros [= <-]. by apply (new_rowid_fits _ _ _ Htb Hk).
  - by intros [= <-].
  - destruct (sqlite_integer_of _ _); [|discriminate].
    destruct (fits_int64 z) eqn:Hz; [|discriminate]. by intros [= <-].
  - destruct (sqlite_integer_of _ _); [|discriminate].
    destruct (fits_int64 z) eqn:Hz; [|discriminate]. by intros [= <-].
  - destruct (sqlite_integer_of _ _); [|discriminate].
    destruct (fits_int64 z) eqn:Hz; [|discriminate]. by intros [= <-].
Qed.

Lemma bindable_bound (v : value) : bindable v = true -> bindable (bound v) = true.
Proof. destruct v; cbn; try done. by destruct (is_nan bits). Qed.

Lemma bindable_basic_row (name quantity : value) :
  bindable name = true -> bindable quantity = true ->
  forallb bindable (basic_row name quantity) = true.
Proof. intros Hn Hq. unfold basic_row. cbn. by rewrite Hn, Hq. Qed.

Lemma bindable_stored_row rt (f : string -> value) :
  forallb bindable (map f DATA_COLUMNS) = true ->
  forallb bindable (stored_row rt f) = true.
Proof.
  unfold stored_row. induction DATA_COLUMNS as [|c l IH]; cbn; [done|].
  intros [Hc Hl]%andb_true_iff. by rewrite bindable_stored_as, IH.
Qed.

Lemma transfer_well_shaped rt src dst fs out id_ d :
  well_shaped d -> well_shaped (transfer rt src dst fs out id_ d).2.
Proof.
  intros Hd.
  destruct (transfer_effect rt src dst fs out id_ d)
    as [->|(k & r & Hr & Hk & _ & ->)]; [done|].
  unfold moved. apply well_shaped_delete.
  destruct (Hd src id_ r Hr) as (_ & Hlen & Hb).
  rewrite (carried_full_row id_ r Hlen).
  apply well_shaped_insert; try done.
  apply (new_rowid_fits _ _ _ (fun j x Hx => proj1 (Hd dst j x Hx)) Hk).
Qed.

Lemma step_well_shaped (d d' : database) :
  step d d' -> well_shaped d -> well_shaped d'.
Proof.
  intros Hstep Hd. destruct Hstep.
  - by rewrite get_record_unchanged.
  - destruct (stage_of_name table) as [t|] eqn:E.
    + apply stage_of_name_Some in E as ->. rewrite add_full_record_eq.
      destruct (forallb bindable (map (dict_get data) ALL_COLUMNS)) eqn:Hb;
        cbn [negb snd]; [|done].
      apply bindable_all_columns in Hb as [Hbid Hbrow].
      destruct (insert_rowid _ _ _) as [k|e] eqn:Hk; cbn [snd]; [|done].
      destruct (is_null _); cbn [snd]; [done|].
      destruct (get_table t d !! k); cbn [snd]; [done|].
      apply well_shaped_insert; try done; [|by apply bindable_stored_row].
      apply (insert_rowid_fits _ _ _ _ (fun j x Hx => proj1 (Hd t j x Hx))
               (bindable_bound _ Hbid) Hk).
    + unfold add_full_record. by rewrite E.
  - destruct (stage_of_name table) as [t|] eqn:E.
    + apply stage_of_name_Some in E as ->. rewrite add_record_eq.
      destruct (fits_int64 id_ && bindable name && bindable quantity) eqn:Hb;
        cbn [negb snd]; [|done].
      apply andb_true_iff in Hb as [[Hid Hn]%andb_true_iff Hq].
      destruct (is_null (bound name)); cbn [snd]; [done|].
      destruct (get_table t d !! id_); cbn [snd]; [done|].
      apply well_shaped_insert; try done.
      by apply bindable_basic_row; apply bindable_stored_as.
    + unfold add_record. by rewrite E.
  - destruct (stage_of_name table) as [t|] eqn:E.
    + apply stage_of_name_Some in E as ->. rewrite update_full_record_eq.
      destruct (forallb bindable (map (dict_get data) DATA_COLUMNS) && fits_int64 id_)
        eqn:Hb; cbn [negb snd]; [|done].
      apply andb_true_iff in Hb as [Hrow Hid].
      destruct (get_table t d !! id_); cbn [snd]; [|done].
      destruct (is_null _); cbn [snd]; [done|].
      apply well_shaped_insert; try done. by apply bindable_stored_row.
    + unfold update_full_record. by rewrite E.
  - destruct (stage_of_name table) as [t|] eqn:E.
    + apply stage_of_name_Some in E as ->. rewrite delete_record_eq.
      repeat case_match; cbn [snd]; try done; by apply well_shaped_delete.
    + unfold delete_record. by rewrite E.
  - by rewrite list_table_unchanged.
  - rewrite move_reserve_to_offering_transfer. by apply transfer_well_shaped.
  - rewrite move_offering_to_deal_transfer. by apply transfer_well_shaped.
Qed.

Lemma reachable_well_shaped (d : database) : reachable d -> well_shaped d.
Proof.
  induction 1 as [|d d' _ IH Hstep].
  - apply well_shaped_empty.
  - by apply (step_well_shaped d d').
Qed.

Lemma new_rowid_next rnd (tb : gmap Z (list value)) :
  (forall j r, tb !! j = Some r -> fits_int64 j = true) ->
  tb !! MAX_ROWID = None ->
  exists k, new_rowid rnd tb = Some k /\ forall j r, tb !! j = Some r -> j < k.
Proof.
  intros Htb Hmax. unfold new_rowid.
  destruct (max_rowid tb) as [m|] eqn:Hm.
  - destruct (max_rowid_member _ _ Hm) as [r Hr].
    pose proof (proj1 (fits_int64_spec m) (Htb m r Hr)) as [_ Hle].
    assert (m <> MAX_ROWID) by (intros ->; congruence).
    assert (Hlt : m < MAX_ROWID) by lia.
    apply Z.ltb_lt in Hlt as Hltb. rewrite Hltb.
    exists (m + 1). split; [done|]. intros j x Hx.
    pose proof (max_rowid_upper _ _ _ _ Hm Hx). lia.
  - exists 1. split; [done|]. intros j x.
    by rewrite (max_rowid_empty _ Hm), lookup_empty.
Qed.

Lemma transfer_runs_on_reachable rt src dst fs out id_ d r :
  reachable d ->
  get_table src d !! id_ = Some r ->
  get_table dst d !! MAX_ROWID = None ->
  fault_free 5 fs = true ->
  print_ok out = true ->
  exists k,
    transfer rt src dst fs out id_ d =
      (Ok k, set_table src (delete id_ (get_table src
                (set_table dst (<[k := r]> (get_table dst d)) d)))
               (set_table dst (<[k := r]> (get_table dst d)) d)) /\
    forall j x, get_table dst d !! j = Some x -> j < k.
Proof.
  intros Hreach Hr Hmax Hf Hout.
  pose proof (reachable_well_shaped d Hreach) as Hshape.
  pose proof (reachable_names_present d Hreach) as Hnames.
  destruct (Hshape src id_ r Hr) as (Hid & Hlen & Hb).
  destruct (new_rowid_next (sqlite_randomness rt) (get_table dst d)
              (fun j x Hx => proj1 (Hshape dst j x Hx)) Hmax) as (k & Hk & Habove).
  exists k. split; [|exact Habove].
  rewrite (transfer_ok rt src dst fs out id_ d r k); try done.
  - unfold moved. by rewrite (carried_full_row id_ r Hlen).
  - by rewrite (carried_full_row id_ r Hlen).
  - rewrite not_null_ok_carried. by rewrite (Hnames src id_ r Hr).
Qed.

(** X12. Total correctness of the transfers on the states the data layer can
    reach.  When the source table holds a row under the id, the storage
    does not fail, the standard output accepts the message and the
    destination does not hold the largest 64-bit id, the transfer
    returns: the row is gone from the source, the very same row (all 25
    cells) is in the destination under the returned id, the third table
    is untouched, and the returned id is larger than every id the
    destination held. *)
Theorem transfer_succeeds_on_reachable rt fs out id_ d r :
  reachable d -> fault_free 5 fs = true -> print_ok out = true ->
  (reserve d !! id_ = Some r -> offering d !! MAX_ROWID = None ->
   exists k,
     move_reserve_to_offering rt fs out id_ d =
       (Ok k, Database (delete id_ (reserve d)) (<[k := r]> (offering d)) (deal d)) /\
     forall j x, offering d !! j = Some x -> j < k) /\
  (offering d !! id_ = Some r -> deal d !! MAX_ROWID = None ->
   exists k,
     move_offering_to_deal rt fs out id_ d =
       (Ok k, Database (reserve d) (delete id_ (offering d)) (<[k := r]> (deal d))) /\
     forall j x, deal d !! j = Some x -> j < k).
Proof.
  intros Hreach Hf Hout.
  rewrite move_reserve_to_offering_transfer, move_offering_to_deal_transfer.
  split; intros Hr Hmax.
  - exact (transfer_runs_on_reachable rt Reserve Offering fs out id_ d r
             Hreach Hr Hmax Hf Hout).
  - exact (transfer_runs_on_reachable rt Offering Deal fs out id_ d r
             Hreach Hr Hmax Hf Hout).
Qed.

Lemma reserve_with_site_a_reachable : reachable reserve_with_site_a.
Proof.
  assert (E : reserve_with_site_a =
    (update_full_record rt0 "reserve" 1
       (<[ "mineral_type" := VText "copper" ]> {[ "name" := VText "Site A" ]})
       (add_record rt0 "reserve" 1 (VText "Site A") VNull empty_db).2).2)
    by (vm_compute; reflexivity).
  rewrite E.
  eapply reachable_step; [|apply step_update_full_record].
  eapply reachable_step; [exact reachable_init | apply step_add_record].
Qed.

Lemma offering_with_site_a_reachable : reachable offering_with_site_a.
Proof.
  assert (E : offering_with_site_a =
              (move_reserve_to_offering rt0 [] [] 1 reserve_with_site_a).2)
    by (vm_compute; reflexivity).
  rewrite E.
  eapply reachable_step;
    [exact reserve_with_site_a_reachable | apply step_move_reserve_to_offering].
Qed.

Lemma transfer_succeeds_on_reachable_witness :
  reachable reserve_with_site_a /\ fault_free 5 [] = true /\ print_ok [] = true /\
  reserve reserve_with_site_a !! 1 = Some site_a /\
  offering reserve_with_site_a !! MAX_ROWID = None /\
  (exists k, move_reserve_to_offering rt0 [] [] 1 reserve_with_site_a =
               (Ok k, Database (delete 1 (reserve reserve_with_site_a))
                        (<[k := site_a]> (offering reserve_with_site_a))
                        (deal reserve_with_site_a))) /\
  reachable offering_with_site_a /\
  offering offering_with_site_a !! 1 = Some site_a /\
  deal offering_with_site_a !! MAX_ROWID = None /\
  (exists k, move_offering_to_deal rt0 [] [] 1 offering_with_site_a =
               (Ok k, Database (reserve offering_with_site_a)
                        (delete 1 (offering offering_with_site_a))
                        (<[k := site_a]> (deal offering_with_site_a)))).
Proof.
  pose proof reserve_with_site_a_reachable as R.
  pose proof offering_with_site_a_reachable as R'.
  destruct (proj1 (transfer_succeeds_on_reachable rt0 [] [] 1 reserve_with_site_a
                     site_a R eq_refl eq_refl) eq_refl eq_refl) as (k & Hk & _).
  destruct (proj2 (transfer_succeeds_on_reachable rt0 [] [] 1 offering_with_site_a
                     site_a R' eq_refl eq_refl) eq_refl eq_refl) as (k' & Hk' & _).
  split; [exact R|]. split; [reflexivity|]. split; [reflexivity|].
  split; [reflexivity|]. split; [reflexivity|]. split; [by exists k|].
  split; [exact R'|]. split; [reflexivity|]. split; [reflexivity|].
  by exists k'.
Defined.

(** ** Transfers and the other functions *)

Lemma carried_carried (id_ k : Z) (r : list value) :
  carried k (carried id_ r) = carried id_ r.
Proof. reflexivity. Qed.

(** X13. The two transfers compose: a row moved from [reserve] to [offering]
    and on to [deal] ends in [deal] with the cells it had in [reserve],
    [reserve] has lost it, and [offering] is exactly what it was before
    the first transfer. *)
Theorem two_transfers_reach_deal rt rt' fs fs' out out' id_ k j d d1 d2 r :
  reserve d !! id_ = Some r ->
  move_reserve_to_offering rt fs out id_ d = (Ok k, d1) ->
  move_offering_to_deal rt' fs' out' k d1 = (Ok j, d2) ->
  reserve d2 = delete id_ (reserve d) /\
  offering d2 = offering d /\
  deal d !! j = None /\
  deal d2 = <[j := carried id_ r]> (deal d) /\
  (forall c, c ∈ DATA_COLUMNS -> cell c j (carried id_ r) = cell c id_ r).
Proof.
  intros Hr E1 E2.
  destruct (transfer_ok_inv rt Reserve Offering fs out id_ d k d1 r Hr E1)
    as (_ & Hfresh & _ & ->).
  assert (Hk : offering (moved Reserve Offering id_ k r d) !! k = Some (carried id_ r))
    by (cbn; by rewrite lookup_insert_eq).
  destruct (transfer_ok_inv rt' Offering Deal fs' out' k _ j d2 _ Hk E2)
    as (_ & Hfresh' & _ & ->).
  cbn in Hfresh, Hfresh' |- *.
  rewrite delete_insert_id by done. rewrite carried_carried.
  repeat split; try done. intros c Hc. by apply carried_cell.
Qed.

Lemma two_transfers_reach_deal_witness :
  reserve reserve_with_site_a !! 1 = Some site_a /\
  move_reserve_to_offering rt0 [] [] 1 reserve_with_site_a =
    (Ok 1, offering_with_site_a) /\
  move_offering_to_deal rt0 [] [] 1 offering_with_site_a = (Ok 1, deal_with_site_a) /\
  reserve deal_with_site_a = delete 1 (reserve reserve_with_site_a) /\
  offering deal_with_site_a = offering reserve_with_site_a /\
  deal deal_with_site_a = <[1 := carried 1 site_a]> (deal reserve_with_site_a).
Proof.
  pose proof (scenario_transfer rt0) as E1.
  pose proof (scenario_second_transfer rt0) as E2.
  destruct (two_transfers_reach_deal rt0 rt0 [] [] [] [] 1 1 1 reserve_with_site_a
              offering_with_site_a deal_with_site_a site_a eq_refl E1 E2)
    as (H1 & H2 & _ & H3 & _).
  split; [reflexivity|]. split; [exact E1|]. split; [exact E2|].
  split; [exact H1|]. split; [exact H2 | exact H3].
Defined.

Lemma size_delete_present (tb : gmap Z (list value)) (k : Z) (r : list value) :
  tb !! k = Some r -> size tb = S (size (delete k tb)).
Proof.
  intros Hk. rewrite <- (insert_delete_id tb k r Hk) at 1.
  apply map_size_insert_None, lookup_delete_eq.
Qed.

(** X14. A transfer neither creates nor loses rows: whatever its outcome, the
    three tables together hold as many rows afterwards as before; when it
    returns, the source has one row less and the destination one more. *)
Theorem transfer_conserves_rows rt fs out id_ d :
  total_rows (move_reserve_to_offering rt fs out id_ d).2 = total_rows d /\
  total_rows (move_offering_to_deal rt fs out id_ d).2 = total_rows d /\
  (forall k d', move_reserve_to_offering rt fs out id_ d = (Ok k, d') ->
     size (reserve d) = S (size (reserve d')) /\
     size (offering d') = S (size (offering d))) /\
  (forall k d', move_offering_to_deal rt fs out id_ d = (Ok k, d') ->
     size (offering d) = S (size (offering d')) /\
     size (deal d') = S (size (deal d))).
Proof.
  rewrite move_reserve_to_offering_transfer, move_offering_to_deal_transfer.
  assert (Hro : forall k r,
     reserve d !! id_ = Some r ->
     new_rowid (sqlite_randomness rt) (offering d) = Some k ->
     size (reserve d) = S (size (reserve (moved Reserve Offering id_ k r d))) /\
     size (offering (moved Reserve Offering id_ k r d)) = S (size (offering d))).
  { intros k r Hr Hk. cbn. split; [by apply (size_delete_present _ _ r)|].
    apply map_size_insert_None. by apply (new_rowid_fresh _ _ _ Hk). }
  assert (Hod : forall k r,
     offering d !! id_ = Some r ->
     new_rowid (sqlite_randomness rt) (deal d) = Some k ->
     size (offering d) = S (size (offering (moved Offering Deal id_ k r d))) /\
     size (deal (moved Offering Deal id_ k r d)) = S (size (deal d))).
  { intros k r Hr Hk. cbn. split; [by apply (size_delete_present _ _ r)|].
    apply map_size_insert_None. by apply (new_rowid_fresh _ _ _ Hk). }
  split; [|split; [|split]].
  - destruct (transfer_effect rt Reserve Offering fs out id_ d)
      as [->|(k & r & Hr & Hk & _ & ->)]; [done|].
    destruct (Hro k r Hr Hk) as [H1 H2].
    unfold total_rows in *. cbn in *. lia.
  - destruct (transfer_effect rt Offering Deal fs out id_ d)
      as [->|(k & r & Hr & Hk & _ & ->)]; [done|].
    destruct (Hod k r Hr Hk) as [H1 H2].
    unfold total_rows in *. cbn in *. lia.
  - intros k d' E. apply transfer_inv in E as (r & Hr & Hk & _ & ->). by apply Hro.
  - intros k d' E. apply transfer_inv in E as (r & Hr & Hk & _ & ->). by apply Hod.
Qed.

Lemma transfer_conserves_rows_witness :
  move_reserve_to_offering rt0 [] [] 1 reserve_with_site_a =
    (Ok 1, offering_with_site_a) /\
  size (reserve reserve_with_site_a) = S (size (reserve offering_with_site_a)) /\
  size (offering offering_with_site_a) = S (size (offering reserve_with_site_a)) /\
  move_offering_to_deal rt0 [] [] 1 offering_with_site_a = (Ok 1, deal_with_site_a) /\
  size (offering offering_with_site_a) = S (size (offering deal_with_site_a)) /\
  size (deal deal_with_site_a) = S (size (deal offering_with_site_a)).
Proof.
  pose proof (scenario_transfer rt0) as E1.
  pose proof (scenario_second_transfer rt0) as E2.
  destruct (transfer_conserves_rows rt0 [] [] 1 reserve_with_site_a)
    as (_ & _ & Hro & _).
  destruct (transfer_conserves_rows rt0 [] [] 1 offering_with_site_a)
    as (_ & _ & _ & Hod).
  destruct (Hro 1 offering_with_site_a E1) as [H1 H2].
  destruct (Hod 1 deal_with_site_a E2) as [H3 H4].
  split; [exact E1|]. split; [exact H1|]. split; [exact H2|].
  split; [exact E2|]. split; [exact H3 | exact H4].
Defined.

Lemma transfer_read_back rt src dst fs out id_ d r k d' :
  src <> dst -> reachable d ->
  get_table src d !! id_ = Some r ->
  transfer rt src dst fs out id_ d = (Ok k, d') ->
  exists m m',
    get_record rt (stage_name src) id_ None d = (Ok m, d) /\
    get_record rt (stage_name dst) k None d' = (Ok m', d') /\
    m' !! "id" = Some (VInt k) /\
    (forall c, c <> "id" -> m' !! c = m !! c) /\
    get_record rt (stage_name src) id_ None d' = (Raise ValueError, d').
Proof.
  intros Hne Hreach Hr E.
  pose proof (reachable_well_shaped d Hreach) as Hshape.
  destruct (Hshape src id_ r Hr) as (Hid & _ & _).
  destruct (transfer_ok_inv rt src dst fs out id_ d k d' r Hr E) as (Hk & _ & _ & ->).
  assert (Hkfit : fits_int64 k = true)
    by apply (new_rowid_fits _ _ _ (fun j x Hx => proj1 (Hshape dst j x Hx)) Hk).
  destruct (get_record_found rt src id_ r d Hid Hr) as (m & Hget & _ & Hcells & Hout).
  destruct (get_record_found rt dst k (carried id_ r) (moved src dst id_ k r d) Hkfit)
    as (m' & Hget' & Hid' & Hcells' & Hout').
  { unfold moved. rewrite get_table_set_table_ne by done.
    by rewrite get_table_set_table, lookup_insert_eq. }
  exists m, m'. split; [exact Hget|]. split; [exact Hget'|]. split; [exact Hid'|].
  split.
  - intros c Hc. destruct (decide (c ∈ DATA_COLUMNS)) as [Hin|Hnin].
    + rewrite (Hcells' c Hin), (Hcells c Hin). by rewrite carried_cell.
    + assert (c ∉ ALL_COLUMNS).
      { change ALL_COLUMNS with ("id" :: DATA_COLUMNS).
        intros [?|?]%elem_of_cons; done. }
      by rewrite Hout, Hout'.
  - rewrite get_record_eq, Hid. cbn [negb].
    by rewrite (moved_source_gone src dst id_ k r d Hne).
Qed.

(** X15. Read through [get_record], a transfer changes the id and nothing
    else.  On a reachable database, when a transfer of a stored row
    returns [k], the record read from the destination under [k] has
    ["id"] equal to [k] and agrees with the record read from the source
    before the transfer on every other key; the source no longer has the
    record ([ValueError]). *)
Theorem transfer_changes_only_the_id rt fs out id_ d r k d' :
  reachable d ->
  (reserve d !! id_ = Some r ->
   move_reserve_to_offering rt fs out id_ d = (Ok k, d') ->
   exists m m',
     get_record rt "reserve" id_ None d = (Ok m, d) /\
     get_record rt "offering" k None d' = (Ok m', d') /\
     m' !! "id" = Some (VInt k) /\
     (forall c, c <> "id" -> m' !! c = m !! c) /\
     get_record rt "reserve" id_ None d' = (Raise ValueError, d')) /\
  (offering d !! id_ = Some r ->
   move_offering_to_deal rt fs out id_ d = (Ok k, d') ->
   exists m m',
     get_record rt "offering" id_ None d = (Ok m, d) /\
     get_record rt "deal" k None d' = (Ok m', d') /\
     m' !! "id" = Some (VInt k) /\
     (forall c, c <> "id" -> m' !! c = m !! c) /\
     get_record rt "offering" id_ None d' = (Raise ValueError, d')).
Proof.
  intros Hreach. split; intros Hr E.
  - by apply (transfer_read_back rt Reserve Offering fs out id_ d r k d').
  - by apply (transfer_read_back rt Offering Deal fs out id_ d r k d').
Qed.

Lemma transfer_changes_only_the_id_witness :
  reachable reserve_with_site_a /\
  reserve reserve_with_site_a !! 1 = Some site_a /\
  move_reserve_to_offering rt0 [] [] 1 reserve_with_site_a =
    (Ok 1, offering_with_site_a) /\
  (exists m m',
     get_record rt0 "reserve" 1 None reserve_with_site_a =
       (Ok m, reserve_with_site_a) /\
     get_record rt0 "offering" 1 None offering_with_site_a =
       (Ok m', offering_with_site_a) /\
     m' !! "name" = m !! "name") /\
  reachable offering_with_site_a /\
  offering offering_with_site_a !! 1 = Some site_a /\
  move_offering_to_deal rt0 [] [] 1 offering_with_site_a = (Ok 1, deal_with_site_a) /\
  get_record rt0 "offering" 1 None deal_with_site_a =
    (Raise ValueError, deal_with_site_a).
Proof.
  pose proof reserve_with_site_a_reachable as R.
  pose proof offering_with_site_a_reachable as R'.
  pose proof (scenario_transfer rt0) as E1.
  pose proof (scenario_second_transfer rt0) as E2.
  destruct (proj1 (transfer_changes_only_the_id rt0 [] [] 1 reserve_with_site_a
                     site_a 1 offering_with_site_a R) eq_refl E1)
    as (m & m' & Hm & Hm' & _ & Hsame & _).
  destruct (proj2 (transfer_changes_only_the_id rt0 [] [] 1 offering_with_site_a
                     site_a 1 deal_with_site_a R') eq_refl E2)
    as (n & n' & _ & _ & _ & _ & Hgone).
  split; [exact R|]. split; [reflexivity|]. split; [exact E1|].
  split; [exists m, m'; split; [exact Hm|]; split; [exact Hm'|];
          apply Hsame; discriminate|].
  split; [exact R'|]. split; [reflexivity|]. split; [exact E2 | exact Hgone].
Defined.

Lemma transfer_reuses_id rt rt' src dst fs fs' out out' id_ id' d k d1 k' d3 :
  src <> dst -> reachable d ->
  get_table dst d !! MAX_ROWID = None ->
  transfer rt src dst fs out id_ d = (Ok k, d1) ->
  delete_record rt (stage_name dst) k d1 =
    (Ok 1, set_table src (delete id_ (get_table src d)) d) /\
  (transfer rt' src dst fs' out' id' (delete_record rt (stage_name dst) k d1).2
     = (Ok k', d3) -> k' = k).
Proof.
  intros Hne Hreach Hmax E.
  pose proof (reachable_well_shaped d Hreach) as Hshape.
  apply transfer_inv in E as (r & Hr & Hk & _ & ->).
  pose proof (new_rowid_fresh _ _ _ Hk) as Hfresh.
  assert (Hkfit : fits_int64 k = true)
    by apply (new_rowid_fits _ _ _ (fun j x Hx => proj1 (Hshape dst j x Hx)) Hk).
  assert (Hdel : delete_record rt (stage_name dst) k (moved src dst id_ k r d) =
                 (Ok 1, set_table src (delete id_ (get_table src d)) d)).
  { rewrite delete_record_eq, Hkfit. cbn [negb]. unfold moved.
    rewrite !get_table_set_table_ne by done.
    rewrite !get_table_set_table, lookup_insert_eq.
    rewrite delete_insert_id by done.
    destruct src, dst, d; try done. }
  split; [exact Hdel|]. rewrite Hdel. cbn [snd]. intros E'.
  apply transfer_inv in E' as (r1 & _ & Hk' & _).
  rewrite get_table_set_table_ne in Hk' by done.
  destruct (new_rowid_next (sqlite_randomness rt) (get_table dst d)
              (fun j x Hx => proj1 (Hshape dst j x Hx)) Hmax) as (a & Ha & _).
  unfold new_rowid in Hk, Hk'.
  destruct (max_rowid (get_table dst d)) as [m|] eqn:Hm; [|congruence].
  destruct (m <? MAX_ROWID) eqn:Hlt; [congruence|].
  destruct (max_rowid_member _ _ Hm) as [x Hx].
  pose proof (proj1 (fits_int64_spec m) (proj1 (Hshape dst m x Hx))) as [_ Hle].
  apply Z.ltb_ge in Hlt. assert (m = MAX_ROWID) by lia. congruence.
Qed.

(** X16. Destination ids are not retired.  On a reachable database whose
    destination table does not hold the largest 64-bit id: after a
    transfer has returned [k], deleting row [k] from the destination
    restores the destination table, and the next transfer into it, of any
    source row, is given the id [k] again. *)
Theorem deleted_id_is_reused rt rt' fs fs' out out' id_ id' d k d1 k' d3 :
  reachable d ->
  (offering d !! MAX_ROWID = None ->
   move_reserve_to_offering rt fs out id_ d = (Ok k, d1) ->
   delete_record rt "offering" k d1 =
     (Ok 1, Database (delete id_ (reserve d)) (offering d) (deal d)) /\
   (move_reserve_to_offering rt' fs' out' id' (delete_record rt "offering" k d1).2
      = (Ok k', d3) -> k' = k)) /\
  (deal d !! MAX_ROWID = None ->
   move_offering_to_deal rt fs out id_ d = (Ok k, d1) ->
   delete_record rt "deal" k d1 =
     (Ok 1, Database (reserve d) (delete id_ (offering d)) (deal d)) /\
   (move_offering_to_deal rt' fs' out' id' (delete_record rt "deal" k d1).2
      = (Ok k', d3) -> k' = k)).
Proof.
  intros Hreach. split; intros Hmax E.
  - by apply (transfer_reuses_id rt rt' Reserve Offering fs fs' out out'
                id_ id' d k d1 k' d3).
  - by apply (transfer_reuses_id rt rt' Offering Deal fs fs' out out'
                id_ id' d k d1 k' d3).
Qed.

Lemma two_sites_reachable : reachable two_sites.
Proof.
  assert (E : two_sites =
    (add_record rt0 "reserve" 2 (VText "Site B") VNull
       (add_record rt0 "reserve" 1 (VText "Site A") VNull empty_db).2).2)
    by (vm_compute; reflexivity).
  rewrite E.
  eapply reachable_step; [|apply step_add_record].
  eapply reachable_step; [exact reachable_init | apply step_add_record].
Qed.

Lemma deleted_id_is_reused_witness :
  reachable two_sites /\
  offering two_sites !! MAX_ROWID = None /\
  (exists d1 d3,
     move_reserve_to_offering rt0 [] [] 1 two_sites = (Ok 1, d1) /\
     delete_record rt0 "offering" 1 d1 =
       (Ok 1, Database (delete 1 (reserve two_sites)) (offering two_sites)
                (deal two_sites)) /\
     move_reserve_to_offering rt0 [] [] 2 (delete_record rt0 "offering" 1 d1).2 =
       (Ok 1, d3)).
Proof.
  pose proof two_sites_reachable as R.
  split; [exact R|]. split; [reflexivity|].
  destruct (move_reserve_to_offering rt0 [] [] 1 two_sites) as [res d1] eqn:E1.
  assert (Hres : res = Ok 1) by (apply (f_equal fst) in E1; vm_compute in E1; congruence).
  subst res.
  destruct (proj1 (deleted_id_is_reused rt0 rt0 [] [] [] [] 1 2 two_sites 1 d1 1
                     (move_reserve_to_offering rt0 [] [] 2
                        (delete_record rt0 "offering" 1 d1).2).2 R) eq_refl E1)
    as [Hdel _].
  exists d1, (move_reserve_to_offering rt0 [] [] 2
                (delete_record rt0 "offering" 1 d1).2).2.
  split; [reflexivity|]. split; [exact Hdel|].
  rewrite Hdel. cbn [snd]. vm_compute. reflexivity.
Defined.

(** ** The form handlers *)

Section ControllerFacts.

Variable rt : runtime.
Variable strip : string -> string.

Lemma truth_clean (v : option string) :
  truth (clean strip v) = negb (is_null (clean strip v)).
Proof.
  unfold clean. destruct v as [s|]; [|reflexivity].
  destruct (String.eqb (strip s) "") eqn:E; cbn; [reflexivity|]. by rewrite E.
Qed.

Lemma bindable_clean (v : option string) : bindable (clean strip v) = true.
Proof. unfold clean. destruct v as [s|]; [|reflexivity]. by destruct (String.eqb _ _). Qed.


Lemma update_form_data_get (form : gmap string string) (c : string) :
  c ∈ DATA_COLUMNS -> dict_get (update_form_data strip form) c = clean strip (form !! c).
Proof.
  intros Hc. unfold DATA_COLUMNS in Hc. cbn in Hc.
  unfold dict_get, update_form_data. cbn [foldl ALL_COLUMNS String.eqb Ascii.eqb Bool.eqb].
  repeat (apply elem_of_cons in Hc as [->|Hc];
          [repeat (first [rewrite lookup_insert_eq; reflexivity
                         | rewrite lookup_insert_ne by discriminate])|]).
  inversion Hc.
Qed.

Lemma forallb_map_true {A} (f : string -> A) (p : A -> bool) (l : list string) :
  (forall c, p (f c) = true) -> forallb p (map f l) = true.
Proof. intros H. induction l as [|x l IH]; cbn; [done|]. by rewrite H, IH. Qed.

Lemma update_form_data_row (form : gmap string string) :
  map (dict_get (update_form_data strip form)) DATA_COLUMNS =
  map (fun c => clean strip (form !! c)) DATA_COLUMNS.
Proof.
  apply map_ext_in. intros c Hc. apply update_form_data_get. by apply list_elem_of_In.
Qed.

Lemma clean_cases (v : option string) :
  clean strip v = VNull \/ exists s, clean strip v = VText s.
Proof.
  unfold clean. destruct v as [s|]; [|by left].
  destruct (String.eqb (strip s) ""); [by left | right; by eexists].
Qed.

Lemma bound_clean (v : option string) : bound (clean strip v) = clean strip v.
Proof. by destruct (clean_cases v) as [->|[s ->]]. Qed.

(** What the columns store for the cleaned fields of a form: null for a
    missing or blank field; the stripped text in a TEXT column, and in any
    column when the text is no number; the number the text holds in a REAL
    column (as a real) and in a DATE column (of NUMERIC affinity). *)
Lemma stored_cleaned_form (form : gmap string string) (k : Z) :
  let row := stored_row rt (fun c => clean strip (form !! c)) in
  (forall c, c ∈ DATA_COLUMNS ->
     affinity_at c = TextAff \/ affinity_at c = RealAff \/ affinity_at c = NumericAff) /\
  (forall c, c ∈ DATA_COLUMNS -> is_null (clean strip (form !! c)) = true ->
     cell c k row = VNull) /\
  (forall c s, c ∈ DATA_COLUMNS -> clean strip (form !! c) = VText s ->
     affinity_at c = TextAff \/ sqlite_number_of rt s = None ->
     cell c k row = VText s) /\
  (forall c s n, c ∈ DATA_COLUMNS -> clean strip (form !! c) = VText s ->
     affinity_at c = RealAff -> sqlite_number_of rt s = Some n ->
     cell c k row =
     VReal (match n with NInt z => sqlite_real_of_int rt z | NReal bits => bits end)) /\
  (forall c s n, c ∈ DATA_COLUMNS -> clean strip (form !! c) = VText s ->
     affinity_at c = NumericAff -> sqlite_number_of rt s = Some n ->
     cell c k row =
     match n with
     | NInt z => if fits_int64 z then VInt z else VText s
     | NReal bits => numeric_of_real rt bits
     end).
Proof.
  cbn zeta. split; [exact affinity_of_columns|].
  split; [|split; [|split]].
  - intros c Hc Hn. rewrite cell_stored_row by done.
    destruct (clean strip (form !! c)); try discriminate. apply stored_as_null.
  - intros c s Hc Hs Hkeep. rewrite cell_stored_row, Hs by done.
    by apply stored_as_text.
  - intros c s n Hc Hs Ha Hn. rewrite cell_stored_row, Hs by done.
    by apply stored_as_real_text.
  - intros c s n Hc Hs Ha Hn. rewrite cell_stored_row, Hs by done.
    by apply stored_as_numeric_text.
Qed.

(** X18. [detail_update] stores the form as cleaned, in the form the columns
    store it: with a row under the id and a name that is not blank, every
    non-id column becomes what it stores for the stripped text of its
    field (the text itself in a TEXT column, the number it holds in a REAL
    or DATE column, the text when it holds none), or null when the field
    is missing or blank, and the answer is the "ok" redirect; with a
    blank or missing name, or no row under the id, the answer is the
    error redirect and nothing is written. *)
Theorem detail_update_stores_cleaned_form (form : gmap string string)
    (t : stage) (id_ : Z) (d : database) :
  fits_int64 id_ = true ->
  let row := stored_row rt (fun c => clean strip (form !! c)) in
  (is_Some (get_table t d !! id_) ->
   is_null (clean strip (form !! "name")) = false ->
   detail_update rt strip form (stage_name t) id_ d =
     (RedirectResponse ("/detail/" +:+ stage_name t +:+ "/" +:+ str_int id_ +:+ "?ok=1")
                       303,
      set_table t (<[id_ := row]> (get_table t d)) d)) /\
  (is_null (clean strip (form !! "name")) = true \/ get_table t d !! id_ = None ->
   detail_update rt strip form (stage_name t) id_ d =
     (RedirectResponse ("/detail/" +:+ stage_name t +:+ "/" +:+ str_int id_ +:+ "?err=1")
                       303, d)) /\
  (forall c, c ∈ DATA_COLUMNS -> is_null (clean strip (form !! c)) = true ->
     cell c id_ row = VNull) /\
  (forall c s, c ∈ DATA_COLUMNS -> clean strip (form !! c) = VText s ->
     affinity_at c = TextAff \/ sqlite_number_of rt s = None ->
     cell c id_ row = VText s) /\
  (forall c s n, c ∈ DATA_COLUMNS -> clean strip (form !! c) = VText s ->
     affinity_at c = RealAff -> sqlite_number_of rt s = Some n ->
     cell c id_ row =
     VReal (match n with NInt z => sqlite_real_of_int rt z | NReal bits => bits end)) /\
  (forall c s n, c ∈ DATA_COLUMNS -> clean strip (form !! c) = VText s ->
     affinity_at c = NumericAff -> sqlite_number_of rt s = Some n ->
     cell c id_ row =
     match n with
     | NInt z => if fits_int64 z then VInt z else VText s
     | NReal bits => numeric_of_real rt bits
     end).
Proof.
  intros Hid row.
  destruct (stored_cleaned_form form id_) as (_ & Hnull & Htext & Hreal & Hnum).
  split; [|split; [|by repeat split]].
  - intros [r Hr] Hn. unfold detail_update. rewrite update_full_record_eq.
    rewrite update_form_data_row, Hid.
    rewrite (forallb_map_true _ bindable) by (intros; apply bindable_clean).
    rewrite update_form_data_get by (apply list_elem_of_In; cbn; tauto).
    rewrite bound_clean, Hr, Hn. cbn [andb negb]. rewrite Z.eqb_refl.
    reflexivity.
  - intros H. unfold detail_update. rewrite update_full_record_eq.
    rewrite update_form_data_row, Hid.
    rewrite (forallb_map_true _ bindable) by (intros; apply bindable_clean).
    rewrite update_form_data_get by (apply list_elem_of_In; cbn; tauto).
    rewrite bound_clean. cbn [andb negb].
    destruct H as [Hn| ->]; [|reflexivity].
    rewrite Hn. by destruct (get_table t d !! id_).
Qed.

Lemma submit_data_get (form : gmap string string) (c : string) :
  c <> "table" -> dict_get (submit_data strip form) c = clean strip (form !! c).
Proof.
  intros Hc. unfold dict_get, submit_data.
  rewrite lookup_fmap, lookup_delete_ne by done.
  by destruct (form !! c).
Qed.

Lemma submit_data_columns (form : gmap string string) (cols : list string) :
  "table" ∉ cols ->
  map (dict_get (submit_data strip form)) cols =
  map (fun c => clean strip (form !! c)) cols.
Proof.
  intros Hc. apply map_ext_in. intros c Hin. apply submit_data_get.
  intros ->. by apply Hc, list_elem_of_In.
Qed.

Lemma table_not_a_column : ("table" ∉ ALL_COLUMNS) /\ ("table" ∉ DATA_COLUMNS).
Proof. split; intros H; apply list_elem_of_In in H; cbn in H; intuition discriminate. Qed.

(** X19. [add_submit] refuses a form whose id or name is missing or blank
    before it touches the database. *)
Theorem add_submit_requires_id_and_name (form : gmap string string) (d : database) :
  is_null (clean strip (form !! "id")) = true \/
  is_null (clean strip (form !! "name")) = true ->
  add_submit rt strip form d = (RedirectResponse "/add?err=1" 303, d).
Proof.
  intros H. unfold add_submit.
  rewrite !submit_data_get by discriminate. rewrite !truth_clean.
  by destruct H as [-> | ->]; rewrite ?orb_true_r.
Qed.

(** X20. What [add_submit] does with a form that has an id and a name, for a
    valid table.  The id reaches SQLite as text.  When SQLite makes a
    free 64-bit rowid of it, the cleaned form is stored under that rowid,
    each field in the form its column stores it (the text itself in a
    TEXT column, the number it holds in a REAL or DATE column, the text
    when it holds none, null when missing or blank); the answer is the
    "ok" redirect when Python's [int] accepts the id text and the error
    redirect when it does not, and the row is stored in both cases.
    When SQLite makes no rowid of the text, or the rowid is taken, the
    answer is the error redirect and nothing is written. *)
Theorem add_submit_outcome (form : gmap string string) (t : stage)
    (i : string) (d : database) :
  strip (default "" (form !! "table")) = stage_name t ->
  clean strip (form !! "id") = VText i ->
  is_null (clean strip (form !! "name")) = false ->
  let row := stored_row rt (fun c => clean strip (form !! c)) in
  (forall z, sqlite_integer_of rt (VText i) = Some z -> fits_int64 z = true ->
     get_table t d !! z = None ->
     add_submit rt strip form d =
       (RedirectResponse (if raised (python_int rt (VText i))
                          then "/add?err=1" else "/add?ok=1") 303,
        set_table t (<[z := row]> (get_table t d)) d)) /\
  (sqlite_integer_of rt (VText i) = None \/
   (exists z, sqlite_integer_of rt (VText i) = Some z /\
              (fits_int64 z = false \/ is_Some (get_table t d !! z))) ->
   add_submit rt strip form d = (RedirectResponse "/add?err=1" 303, d)) /\
  (forall k c, c ∈ DATA_COLUMNS -> is_null (clean strip (form !! c)) = true ->
     cell c k row = VNull) /\
  (forall k c s, c ∈ DATA_COLUMNS -> clean strip (form !! c) = VText s ->
     affinity_at c = TextAff \/ sqlite_number_of rt s = None ->
     cell c k row = VText s) /\
  (forall k c s n, c ∈ DATA_COLUMNS -> clean strip (form !! c) = VText s ->
     affinity_at c = RealAff -> sqlite_number_of rt s = Some n ->
     cell c k row =
     VReal (match n with NInt z => sqlite_real_of_int rt z | NReal bits => bits end)) /\
  (forall k c s n, c ∈ DATA_COLUMNS -> clean strip (form !! c) = VText s ->
     affinity_at c = NumericAff -> sqlite_number_of rt s = Some n ->
     cell c k row =
     match n with
     | NInt z => if fits_int64 z then VInt z else VText s
     | NReal bits => numeric_of_real rt bits
     end).
Proof.
  intros Htable Hidtext Hname row.
  assert (Hrow : stored_row rt (dict_get (submit_data strip form)) = row).
  { unfold row, stored_row. apply map_ext_in. intros c Hc.
    rewrite submit_data_get; [done|]. intros ->.
    by apply (proj2 table_not_a_column), list_elem_of_In. }
  assert (Hrun : add_submit rt strip form d =
    match add_full_record rt (stage_name t) (submit_data strip form) d with
    | (Ok _, d') => (RedirectResponse "/add?ok=1" 303, d')
    | (Raise _, d') => (RedirectResponse "/add?err=1" 303, d')
    end).
  { unfold add_submit. rewrite !submit_data_get by discriminate.
    rewrite !truth_clean, Hname, Hidtext, Htable. reflexivity. }
  assert (Hfull : add_full_record rt (stage_name t) (submit_data strip form) d =
    match sqlite_integer_of rt (VText i) with
    | Some z =>
        if fits_int64 z
        then match get_table t d !! z with
             | Some _ => (Raise (IntegrityError UniqueFailed), d)
             | None => (python_int rt (VText i),
                        set_table t (<[z := row]> (get_table t d)) d)
             end
        else (Raise (IntegrityError DatatypeMismatch), d)
    | None => (Raise (IntegrityError DatatypeMismatch), d)
    end).
  { rewrite add_full_record_eq, Hrow.
    rewrite (submit_data_columns form ALL_COLUMNS) by apply table_not_a_column.
    rewrite (forallb_map_true _ bindable) by (intros; apply bindable_clean).
    rewrite !submit_data_get by discriminate. rewrite !bound_clean, Hname, Hidtext.
    cbn [negb insert_rowid]. unfold getitem, submit_data.
    rewrite lookup_fmap, lookup_delete_ne by discriminate.
    destruct (form !! "id") as [s|] eqn:Hs; [|discriminate Hidtext].
    cbn [fmap option_fmap option_map]. rewrite Hidtext. cbn [int_of].
    destruct (sqlite_integer_of rt (VText i)) as [z|]; [|reflexivity].
    destruct (fits_int64 z); [|reflexivity].
    by destruct (get_table t d !! z). }
  split; [|split].
  - intros z Hz Hfit Hfree. rewrite Hrun, Hfull, Hz, Hfit, Hfree.
    by destruct (python_int rt (VText i)).
  - intros [Hnone|(z & Hz & [Hfit|[r Hr]])]; rewrite Hrun, Hfull.
    + by rewrite Hnone.
    + by rewrite Hz, Hfit.
    + rewrite Hz. destruct (fits_int64 z); [|reflexivity]. by rewrite Hr.
  - split; [|split; [|split]]; intros k;
      destruct (stored_cleaned_form form k) as (_ & Hnull & Htext & Hreal & Hnum);
      assumption.
Qed.

End ControllerFacts.


(** A form that renames the row; a form whose area is ["12.5"], stored as
    the real 12.5; a form with a blank name. *)
Lemma detail_update_stores_cleaned_form_witness :
  fits_int64 1 = true /\
  is_Some (reserve reserve_with_site_a !! 1) /\
  is_null (clean (fun s => s) (rename_form !! "name")) = false /\
  detail_update rt0 (fun s => s) rename_form "reserve" 1 reserve_with_site_a =
    (RedirectResponse "/detail/reserve/1?ok=1" 303,
     Database {[ 1 := VText "Site C" :: VText "North" :: repeat VNull 23 ]} ∅ ∅) /\
  is_null (clean (fun s => s) (measured_form !! "name")) = false /\
  detail_update rt_decimal (fun s => s) measured_form "reserve" 1 reserve_with_site_a =
    (RedirectResponse "/detail/reserve/1?ok=1" 303,
     Database {[ 1 := VText "Site C" :: VNull :: VNull :: VReal REAL_12_5 ::
                       repeat VNull 21 ]} ∅ ∅) /\
  is_null (clean (fun s => s) (blank_name_form !! "name")) = true /\
  detail_update rt0 (fun s => s) blank_name_form "reserve" 1 reserve_with_site_a =
    (RedirectResponse "/detail/reserve/1?err=1" 303, reserve_with_site_a).
Proof.
  assert (Hin : is_Some (reserve reserve_with_site_a !! 1))
    by (eexists; reflexivity).
  destruct (detail_update_stores_cleaned_form rt0 (fun s => s) rename_form Reserve 1
              reserve_with_site_a eq_refl) as (Hok & _).
  destruct (detail_update_stores_cleaned_form rt_decimal (fun s => s) measured_form
              Reserve 1 reserve_with_site_a eq_refl) as (Hok' & _).
  destruct (detail_update_stores_cleaned_form rt0 (fun s => s) blank_name_form
              Reserve 1 reserve_with_site_a eq_refl) as (_ & Herr & _).
  split; [reflexivity|]. split; [exact Hin|]. split; [reflexivity|].
  split; [|split; [reflexivity|]; split; [|split; [reflexivity|]]].
  - pose proof (Hok Hin eq_refl) as E. cbn [stage_name] in E. rewrite E.
    vm_compute. reflexivity.
  - pose proof (Hok' Hin eq_refl) as E. cbn [stage_name] in E. rewrite E.
    vm_compute. reflexivity.
  - pose proof (Herr (or_introl eq_refl)) as E. cbn [stage_name] in E. rewrite E.
    reflexivity.
Defined.

Lemma add_submit_requires_id_and_name_witness :
  is_null (clean (fun s => s) (add_form "" !! "id")) = true /\
  add_submit rt0 (fun s => s) (add_form "") empty_db =
    (RedirectResponse "/add?err=1" 303, empty_db).
Proof.
  split; [reflexivity|].
  apply (add_submit_requires_id_and_name rt0 (fun s => s) (add_form "") empty_db).
  left. reflexivity.
Defined.

(** The id text ["5.0"], which SQLite takes and [int] does not; the id
    text ["5"] with a start price of ["100"], stored as the real 100.0;
    an id text that SQLite refuses. *)
Lemma add_submit_outcome_witness :
  (default "" (add_form "5.0" !! "table") = "reserve" /\
   clean (fun s => s) (add_form "5.0" !! "id") = VText "5.0" /\
   is_null (clean (fun s => s) (add_form "5.0" !! "name")) = false /\
   sqlite_integer_of rt_decimal (VText "5.0") = Some 5 /\
   python_int rt_decimal (VText "5.0") = Raise ValueError /\
   add_submit rt_decimal (fun s => s) (add_form "5.0") empty_db =
     (RedirectResponse "/add?err=1" 303,
      Database {[ 5 := VText "Site A" :: repeat VNull 24 ]} ∅ ∅)) /\
  (python_int rt_decimal (VText "5") = Ok 5 /\
   add_submit rt_decimal (fun s => s) priced_form empty_db =
     (RedirectResponse "/add?ok=1" 303,
      Database {[ 5 := VText "Site A" :: repeat VNull 10 ++
                       VReal REAL_100 :: repeat VNull 13 ]} ∅ ∅)) /\
  (sqlite_integer_of rt_decimal (VText "five") = None /\
   add_submit rt_decimal (fun s => s) (add_form "five") empty_db =
     (RedirectResponse "/add?err=1" 303, empty_db)).
Proof.
  destruct (add_submit_outcome rt_decimal (fun s => s) (add_form "5.0") Reserve "5.0"
              empty_db eq_refl eq_refl eq_refl) as (Hstored & _).
  destruct (add_submit_outcome rt_decimal (fun s => s) priced_form Reserve "5"
              empty_db eq_refl eq_refl eq_refl) as (Hstored' & _).
  destruct (add_submit_outcome rt_decimal (fun s => s) (add_form "five") Reserve "five"
              empty_db eq_refl eq_refl eq_refl) as (_ & Hrefused & _).
  split; [|split].
  - do 5 (split; [reflexivity|]).
    rewrite (Hstored 5 eq_refl eq_refl eq_refl). vm_compute. reflexivity.
  - split; [reflexivity|].
    rewrite (Hstored' 5 eq_refl eq_refl eq_refl). vm_compute. reflexivity.
  - split; [reflexivity|]. apply Hrefused. left. reflexivity.
Defined.
